(** * vdsm: network setup engine, bond option mapper, storage domain monitor

    A shallow embedding of
      - lib/vdsm/network/api.py
      - lib/vdsm/network/link/bond/sysfs_options_mapper.py
      - vdsm/storage/domainMonitor.py
    The Python code is effectful: it writes sysfs files, drives a
    configurator, logs, and raises.  Every function is embedded in a state
    and exception monad whose state carries an ordered trace of the external
    actions performed, so that ordering properties can be stated on traces. *)

From stdpp Require Import base option list gmap strings pretty.
From Stdlib Require Import ZArith Lia Ascii String.

Set Warnings "-register-all".

#[local] Open Scope Z_scope.
#[local] Open Scope string_scope.

(** ** Python preliminaries *)

Module Py.

(** Error codes of vdsm.network.errors (the module itself is outside the
    embedded sources; only the names used by api.py are listed). *)
Inductive errcode :=
| ERR_BAD_PARAMS | ERR_BAD_ADDR | ERR_BAD_NIC | ERR_USED_NIC
| ERR_BAD_BONDING | ERR_BAD_BRIDGE | ERR_USED_BRIDGE | ERR_USED_BOND
| ERR_FAILED_IFUP | ERR_LOST_CONNECTION.

#[global] Instance errcode_eq_dec : EqDecision errcode.
Proof. solve_decision. Defined.

(** errno values used by the sources. *)
Definition EPERM : Z := 1.
Definition ENOENT : Z := 2.
Definition EACCES : Z := 13.
Definition EBUSY : Z := 16.
Definition EEXIST : Z := 17.
Definition EINVAL : Z := 22.

(** Exceptions.  [Canceled] derives from BaseException: a handler for
    [Exception] does not catch it, a bare [except:] does. *)
Inductive exn :=
| ConfigNetworkError (errCode : errcode) (msg : string)
| IOError (errno : Z)
| OSError (errno : Z)
| ValueError (msg : string)
| KeyError (key : string)
| TypeError (msg : string)
| AttributeError (msg : string)
| RuntimeError (msg : string)
| Canceled.

#[global] Instance exn_eq_dec : EqDecision exn.
Proof. solve_decision. Defined.

Definition is_Exception (e : exn) : bool :=
  match e with Canceled => false | _ => true end.

(** Outcome of a call: a value or a raised exception. *)
Inductive res (A : Type) :=
| Ok (a : A)
| Raise (e : exn).
Arguments Ok {A} a.
Arguments Raise {A} e.

(** State and exception monad.  The state survives a raise, as the heap of a
    Python program does. *)
Definition M (W A : Type) : Type := W → res A * W.

#[global] Instance M_ret {W} : MRet (M W) := λ A a w, (Ok a, w).
#[global] Instance M_bind {W} : MBind (M W) := λ A B f m w,
  match m w with
  | (Ok a, w') => f a w'
  | (Raise e, w') => (Raise e, w')
  end.

Definition raise {W A} (e : exn) : M W A := λ w, (Raise e, w).
Definition get {W} : M W W := λ w, (Ok w, w).
Definition modify {W} (f : W → W) : M W unit := λ w, (Ok tt, f w).

(** [try: body except <class> as e: handler e]; [catches e] says whether the
    except clause matches. *)
Definition try_except {W A} (body : M W A) (catches : exn → bool)
    (handler : exn → M W A) : M W A := λ w,
  match body w with
  | (Ok a, w') => (Ok a, w')
  | (Raise e, w') => if catches e then handler e w' else (Raise e, w')
  end.

(** [try: body finally: fin]: an exception raised by [fin] replaces the
    pending one. *)
Definition try_finally {W A} (body : M W A) (fin : M W unit) : M W A := λ w,
  match body w with
  | (r, w') =>
      match fin w' with
      | (Ok _, w'') => (r, w'')
      | (Raise e, w'') => (Raise e, w'')
      end
  end.

(** [for x in xs: body x] *)
Fixpoint for_each {W A} (xs : list A) (body : A → M W unit) : M W unit :=
  match xs with
  | [] => mret tt
  | x :: xs' => body x ;; for_each xs' body
  end.

(** Python values as they occur in request attribute dictionaries. *)
Inductive pyval :=
| PNone
| PBool (b : bool)
| PInt (z : Z)
| PStr (s : string)
| PList (l : list string)
| PDict (d : list (string * string)).

(** Truth value testing. *)
Definition truthy (v : pyval) : bool :=
  match v with
  | PNone => false
  | PBool b => b
  | PInt z => negb (Z.eqb z 0)
  | PStr s => negb (String.eqb s "")
  | PList l => match l with [] => false | _ => true end
  | PDict d => match d with [] => false | _ => true end
  end.

(** [str(n)] for an int. *)
Definition str_int (n : Z) : string := pretty n.

(** [os.path.join(a, b)] for two components. *)
Definition ends_with_slash (s : string) : bool :=
  match rev (String.list_ascii_of_string s) with
  | c :: _ => Ascii.eqb c "/"%char
  | [] => false
  end.

Definition path_join (a b : string) : string :=
  match b with
  | String c _ =>
      if Ascii.eqb c "/"%char then b
      else if String.eqb a "" then b
      else if ends_with_slash a then a +:+ b
      else a +:+ "/" +:+ b
  | EmptyString =>
      if String.eqb a "" then ""
      else if ends_with_slash a then a else a +:+ "/"
  end.

(** [str(v)] for the values that are formatted by the sources. *)
Definition py_str (v : pyval) : string :=
  match v with
  | PNone => "None"
  | PBool true => "True"
  | PBool false => "False"
  | PInt z => str_int z
  | PStr s => s
  | PList _ => "[...]"
  | PDict _ => "{...}"
  end.

(** [a == b]; a bool compares as the int 0 or 1. *)
Definition py_eqb (a b : pyval) : bool :=
  match a, b with
  | PNone, PNone => true
  | PBool x, PBool y => Bool.eqb x y
  | PBool x, PInt z | PInt z, PBool x => Z.eqb z (if x then 1 else 0)
  | PInt x, PInt y => Z.eqb x y
  | PStr x, PStr y => String.eqb x y
  | PList x, PList y => bool_decide (x = y)
  | PDict x, PDict y => bool_decide (x = y)
  | _, _ => false
  end.

Definition is_None (v : pyval) : bool :=
  match v with PNone => true | _ => false end.

(** [v is False] *)
Definition is_False (v : pyval) : bool :=
  match v with PBool false => true | _ => false end.

(** [int(x)]: ints and bools convert; a str is stripped of surrounding
    whitespace and must then be an optionally signed run of decimal digits,
    anything else is a ValueError; other types are a TypeError. *)
Definition is_space (c : ascii) : bool :=
  let n := nat_of_ascii c in
  orb (Nat.eqb n 32) (andb (Nat.leb 9 n) (Nat.leb n 13)).

Fixpoint lstrip (l : list ascii) : list ascii :=
  match l with
  | c :: l' => if is_space c then lstrip l' else l
  | [] => []
  end.

Definition strip (l : list ascii) : list ascii :=
  rev (lstrip (rev (lstrip l))).

Definition digit_val (c : ascii) : option Z :=
  let n := nat_of_ascii c in
  if andb (Nat.leb 48 n) (Nat.leb n 57) then Some (Z.of_nat n - 48) else None.

Fixpoint digits_val (acc : Z) (l : list ascii) : option Z :=
  match l with
  | [] => Some acc
  | c :: l' =>
      match digit_val c with
      | Some d => digits_val (10 * acc + d) l'
      | None => None
      end
  end.

Definition parse_int (s : string) : option Z :=
  match strip (String.list_ascii_of_string s) with
  | [] => None
  | c :: ds =>
      if Ascii.eqb c "-"%char then
        match ds with [] => None | _ => Z.opp <$> digits_val 0 ds end
      else if Ascii.eqb c "+"%char then
        match ds with [] => None | _ => digits_val 0 ds end
      else digits_val 0 (c :: ds)
  end.

Definition py_int (v : pyval) : res Z :=
  match v with
  | PInt z => Ok z
  | PBool b => Ok (if b then 1 else 0)
  | PStr s =>
      match parse_int s with
      | Some z => Ok z
      | None => Raise (ValueError ("invalid literal for int() with base 10: " +:+ s))
      end
  | _ => Raise (TypeError "int() argument must be a string or a number")
  end.

(** [set(v)] as the list of its members, for the iterables whose members
    are strings. *)
Definition py_set (v : pyval) : res (list string) :=
  match v with
  | PList l => Ok l
  | PStr s => Ok ((λ c, String c EmptyString) <$> String.list_ascii_of_string s)
  | PDict d => Ok (d.*1)
  | _ => Raise (TypeError "object is not iterable")
  end.

(** A value used where the models expect a device name. *)
Definition expect_str (v : pyval) : res string :=
  match v with
  | PStr s => Ok s
  | _ => Raise (TypeError "expected a string")
  end.

Definition lift {W A} (r : res A) : M W A := λ w, (r, w).

Definition raise_if {W} (o : option exn) : M W unit :=
  match o with Some e => raise e | None => mret tt end.

End Py.

(** ** lib/vdsm/network/api.py *)

Module NetApi.
Import Py.

(** *** Data model *)

(** IPv4 and IPv6 configuration objects attached to the top device. *)
Record IPv4 := mkIPv4 {
  ipv4_address : pyval; ipv4_netmask : pyval; ipv4_gateway : pyval;
  ipv4_defaultRoute : pyval; ipv4_bootproto : pyval }.

Record IPv6 := mkIPv6 {
  ipv6_address : pyval; ipv6_gateway : pyval; ipv6_defaultRoute : pyval;
  ipv6_autoconf : pyval; ipv6_dhcpv6 : pyval }.

(** Attributes every device of the hierarchy carries. *)
Record DevAttrs := mkDevAttrs {
  attr_mtu : pyval; attr_ipv4 : option IPv4; attr_ipv6 : option IPv6;
  attr_blockingdhcp : option bool }.

Definition plain (mtu : pyval) : DevAttrs := mkDevAttrs mtu None None None.

(** The layered chain of devices: a Nic or a Bond at the bottom, an optional
    Vlan above it, an optional Bridge on top. *)
Inductive NetDevice :=
| Nic (name : string) (a : DevAttrs)
| Bond (name : string) (slaves : list string) (options : pyval)
       (destroyOnMasterRemoval : pyval) (a : DevAttrs)
| Vlan (device : NetDevice) (tag : pyval) (name : string) (a : DevAttrs)
| Bridge (name : string) (port : option NetDevice) (stp : pyval)
         (duid_source : option string) (a : DevAttrs).

Definition dev_name (d : NetDevice) : string :=
  match d with
  | Nic n _ | Bond n _ _ _ _ | Vlan _ _ n _ | Bridge n _ _ _ _ => n
  end.

Definition dev_attrs (d : NetDevice) : DevAttrs :=
  match d with
  | Nic _ a | Bond _ _ _ _ a | Vlan _ _ _ a | Bridge _ _ _ _ a => a
  end.

Definition with_attrs (d : NetDevice) (a : DevAttrs) : NetDevice :=
  match d with
  | Nic n _ => Nic n a
  | Bond n s o r _ => Bond n s o r a
  | Vlan dv t n _ => Vlan dv t n a
  | Bridge n p s u _ => Bridge n p s u a
  end.

(** [dev.port]: only a Bridge has the attribute. *)
Definition dev_port (d : NetDevice) : res (option NetDevice) :=
  match d with
  | Bridge _ p _ _ _ => Ok p
  | _ => Raise (AttributeError "port")
  end.

(** Entries of the netinfo snapshot that api.py reads. *)
Record NetAttr := mkNetAttr {
  net_bridged : bool; net_dhcpv4 : bool;
  net_iface : string; net_ports : list string }.

Record BondAttr := mkBondAttr { bond_slaves : list string; bond_dhcpv4 : bool }.

Record VlanAttr := mkVlanAttr { vlan_vlanid : Z; vlan_dhcpv4 : bool }.

Record NetInfo := mkNetInfo {
  networks : gmap string NetAttr;
  bondings : gmap string BondAttr;
  vlans : gmap string VlanAttr;
  nics : gmap string bool;        (* nic -> its dhcpv4 flag *)
  bridges : gset string }.

(** Request attribute dictionaries. *)
Abbreviation attrs := (gmap string pyval).

(** *** External actions

    Every call that leaves api.py to change the host (sysfs, ip link,
    configurator, libvirt, running config) is an [Action]; the actions are
    recorded in order in the world's trace. *)
Inductive Action :=
| SysfsWrite (path data : string)
| Sleep_half_second
| UdevSettle (timeout : Z)
| Makedirs (path : string)
| FileWrite (path data : string)
| LinkSet (dev : string) (args : list string)
| RunningConfig_removeNetwork (network : string)
| RunningConfig_setNetwork (network : string) (kwargs : attrs)
| RemoveLibvirtNetwork (network : string)
| ConfigureLibvirtNetwork (network : string) (top : NetDevice)
| Device_configure (dev : NetDevice) (opts : attrs)
| Device_remove (dev : NetDevice)
| ConfigureQoS (hostQos : pyval) (top : NetDevice)
| RemoveQoS (top : NetDevice)
| SetIfaceMtu (dev : string) (mtu : pyval).

(** The host: kernel, libvirt, configurator backend and the model classes
    of vdsm.network.models, none of which is part of api.py.  [K] is the
    host's own state; [perform] gives the outcome of an action. *)
Record Host (K : Type) := mkHost {
  perform : Action → K → res unit * K;
  path_exists : string → K → bool;                 (* os.path.exists *)
  bridges_ports : string → K → list string;        (* netinfo.bridges.ports *)
  netinfo_nics : K → list string;                  (* netinfo.nics.nics *)
  mtus_getMtu : string → K → Z;                    (* netinfo.mtus.getMtu *)
  CachingNetInfo : K → NetInfo;                    (* netinfo.cache *)
  supports_duid_file : K → bool;                   (* dhclient *)
  net_persistence_unified : bool;                  (* config vars/net_persistence *)
  CONF_RUN_DIR : string;                           (* netconfpersistence *)
  NET_PATH : string;                               (* vdsm.netinfo *)
  inRollback : bool;                               (* configurator._inRollback *)
  tobool : pyval → bool;                           (* vdsm.utils.tobool *)
  prefix2netmask : Z → res string;                 (* netinfo.addresses *)
  (* methods of the netinfo snapshot *)
  getNicsVlanAndBondingForNetwork :
    NetInfo → string → res (list string * pyval * pyval * pyval);
  getBondingForNic : NetInfo → string → option string;
  getNetworksAndVlansForIface : NetInfo → string → list (string * pyval);
  (* validation done by the constructors of the model classes *)
  Bond_validate : string → NetInfo → res (list string);
  Nic_validate : string → NetInfo → option exn;
  Vlan_validateTag : pyval → option exn;
  Bond_validateName : string → option exn;
  Bond_validateOptions : pyval → option exn;
  IPv4_validate : IPv4 → option exn;
  IPv6_validate : IPv6 → option exn;
  hierarchy_backing_device : NetDevice → option NetDevice }.

Arguments perform {K}. Arguments path_exists {K}. Arguments bridges_ports {K}.
Arguments netinfo_nics {K}. Arguments mtus_getMtu {K}.
Arguments supports_duid_file {K}. Arguments net_persistence_unified {K}.
Arguments CONF_RUN_DIR {K}. Arguments NET_PATH {K}. Arguments inRollback {K}.
Arguments tobool {K}. Arguments prefix2netmask {K}.
Arguments getNicsVlanAndBondingForNetwork {K}. Arguments getBondingForNic {K}.
Arguments getNetworksAndVlansForIface {K}. Arguments Bond_validate {K}.
Arguments CachingNetInfo {K}.
Arguments Nic_validate {K}. Arguments Vlan_validateTag {K}.
Arguments Bond_validateName {K}. Arguments Bond_validateOptions {K}.
Arguments IPv4_validate {K}. Arguments IPv6_validate {K}.
Arguments hierarchy_backing_device {K}.

(** A record handed to the logging module. *)
Record LogRecord := mkLog {
  log_level : string; log_fmt : string;
  log_args : list pyval; log_dict : option attrs }.

(** The world api.py runs in: the host, the regular files it writes, the
    trace of actions so far and the log (both oldest first). *)
Record World (K : Type) := mkWorld {
  kern : K;
  files : gmap string string;
  dirs : gset string;
  trace : list Action;
  logs : list LogRecord }.
Arguments mkWorld {K}. Arguments kern {K}. Arguments files {K}.
Arguments dirs {K}. Arguments trace {K}. Arguments logs {K}.

Section Api.
Context {K : Type} (host : Host K).

Abbreviation W := (World K).

Definition log_action (a : Action) : M W unit :=
  modify (λ w, mkWorld (kern w) (files w) (dirs w) (trace w ++ [a]) (logs w)).

Definition logging (level fmt : string) (args : list pyval)
    (d : option attrs) : M W unit :=
  modify (λ w, mkWorld (kern w) (files w) (dirs w) (trace w)
                       (logs w ++ [mkLog level fmt args d])).

(** An external call: it is recorded, then the host decides its outcome. *)
Definition host_outcome (a : Action) : M W unit := λ w,
  let '(r, k') := perform host a (kern w) in
  (r, mkWorld k' (files w) (dirs w) (trace w) (logs w)).

Definition act (a : Action) : M W unit :=
  log_action a ;; host_outcome a.

(** [os.makedirs(path)]: an existing directory is an OSError EEXIST. *)
Definition os_makedirs (path : string) : M W unit :=
  log_action (Makedirs path) ;;
  w ← get;
  if decide (path ∈ dirs w) then raise (OSError EEXIST)
  else
    host_outcome (Makedirs path) ;;
    modify (λ w, mkWorld (kern w) (files w) ({[path]} ∪ dirs w) (trace w)
                         (logs w)).

(** [with open(path, 'w') as f: f.write(data)] on a regular file. *)
Definition write_file (path data : string) : M W unit :=
  act (FileWrite path data) ;;
  modify (λ w, mkWorld (kern w) (<[path := data]> (files w)) (dirs w)
                       (trace w) (logs w)).

(** *** SR-IOV virtual functions *)

Definition _SYSFS_SRIOV_NUMVFS (pci_path : string) : string :=
  "/sys/bus/pci/devices/" +:+ pci_path +:+ "/sriov_numvfs".

Definition _wait_for_udev_events : M W unit :=
  act Sleep_half_second ;;
  act (UdevSettle 10).

Definition _update_numvfs (pci_path : string) (numvfs : Z) : M W unit :=
  let f := _SYSFS_SRIOV_NUMVFS pci_path in
  act (SysfsWrite f "0") ;;
  act (SysfsWrite f (str_int numvfs)) ;;
  _wait_for_udev_events.

Definition _persist_numvfs (device_name : string) (numvfs : Z) : M W unit :=
  let dir_path := path_join (CONF_RUN_DIR host) "virtual_functions" in
  try_except (os_makedirs dir_path)
    (λ e, match e with OSError _ => true | _ => false end)
    (λ e, match e with
          | OSError errno => if decide (EEXIST ≠ errno) then raise e else mret tt
          | _ => raise e
          end) ;;
  write_file (path_join dir_path device_name) (str_int numvfs).

Definition change_numvfs (pci_path : string) (numvfs : Z) (net_name : string)
    : M W unit :=
  logging "info" "changing number of vfs on device %s -> %s."
          [PStr pci_path; PInt numvfs] None ;;
  _update_numvfs pci_path numvfs ;;
  logging "info" "changing number of vfs on device %s -> %s. succeeded."
          [PStr pci_path; PInt numvfs] None ;;
  _persist_numvfs pci_path numvfs ;;
  act (LinkSet net_name ["up"]).

(** *** Reading the host *)

Definition ask {A} (f : K → A) : M W A := λ w, (Ok (f (kern w)), w).

(** *** Validation of a setup request *)

(** A dict is given by its items in iteration order. *)
Definition _validate_network_remove (networkAttrs : attrs) : M W unit :=
  let net_attr_keys : gset string := dom networkAttrs in
  if bool_decide ("remove" ∈ net_attr_keys ∧
                  net_attr_keys ∖ {["remove"; "custom"]} ≠ ∅)
  then raise (ConfigNetworkError ERR_BAD_PARAMS
                "Cannot specify any attribute when removing")
  else mret tt.

(** Body of the loop over the requested networks. *)
Definition validate_network (item : string * attrs) : M W unit :=
  let '(network, networkAttrs) := item in
  if truthy (default (PBool false) (networkAttrs !! "remove")) then
    _validate_network_remove networkAttrs
  else
    match networkAttrs !! "vlan" with
    | Some tag => raise_if (Vlan_validateTag host tag)
    | None => mret tt
    end.

(** Body of the loop over the requested bondings. *)
Definition validate_bonding (currentNicsSet : gset string)
    (item : string * attrs) : M W unit :=
  let '(bonding, bondingAttrs) := item in
  raise_if (Bond_validateName host bonding) ;;
  match bondingAttrs !! "options" with
  | Some o => raise_if (Bond_validateOptions host o)
  | None => mret tt
  end ;;
  if truthy (default (PBool false) (bondingAttrs !! "remove")) then
    mret tt                                                   (* continue *)
  else
    let nics := default PNone (bondingAttrs !! "nics") in
    if negb (truthy nics) then
      raise (ConfigNetworkError ERR_BAD_PARAMS "Must specify nics for bonding")
    else
      l ← lift (py_set nics);
      if bool_decide ((list_to_set l : gset string) ⊆ currentNicsSet)
      then mret tt
      else raise (ConfigNetworkError ERR_BAD_NIC "Unknown nics").

Definition _validateNetworkSetup
    (networks bondings : list (string * attrs)) : M W unit :=
  for_each networks validate_network ;;
  currentNicsSet ← ask (λ k, (list_to_set (netinfo_nics host k) : gset string));
  for_each bondings (validate_bonding currentNicsSet).

(** *** Bondings *)

(** Divide bondings according to whether they are to be removed, edited or
    added. *)
Definition _bonds_classification (bonds : list (string * attrs))
    (_netinfo : NetInfo)
    : gset string * gmap string attrs * gmap string attrs :=
  foldl (λ '(remove, edit, add) '(name, attrs),
           if bool_decide ("remove" ∈ dom attrs) then
             ({[name]} ∪ remove, edit, add)
           else if bool_decide (name ∈ dom (bondings _netinfo)) then
             (remove, <[name := attrs]> edit, add)
           else
             (remove, edit, <[name := attrs]> add))
        (∅, ∅, ∅) bonds.

(** *** Model classes

    vdsm.network.models is not part of the embedded sources.  The shape of
    the objects follows the attributes api.py reads ([name], [port],
    [ipv4.bootproto], [duid_source]); what the constructors check is left to
    the host. *)

Definition Bond_objectivize (name : string) (options : pyval) (mtu : pyval)
    (_netinfo : NetInfo) (destroyOnMasterRemoval : pyval) : M W NetDevice :=
  slaves ← lift (Bond_validate host name _netinfo);
  mret (Bond name slaves options destroyOnMasterRemoval (plain mtu)).

Definition Nic_new (name : string) (mtu : pyval) (_netinfo : NetInfo)
    : M W NetDevice :=
  raise_if (Nic_validate host name _netinfo) ;;
  mret (Nic name (plain mtu)).

Definition Vlan_new (device : option NetDevice) (tag : pyval) (mtu : pyval)
    (name : pyval) : M W NetDevice :=
  raise_if (Vlan_validateTag host tag) ;;
  match device with
  | None => raise (ConfigNetworkError ERR_BAD_PARAMS
                     "Missing required vlan underlying device definition.")
  | Some d =>
      let name := if is_None name then dev_name d +:+ "." +:+ py_str tag
                  else py_str name in
      mret (Vlan d tag name (plain mtu))
  end.

Definition Bridge_new (name : string) (port : option NetDevice) (mtu : pyval)
    (stp : pyval) : M W NetDevice :=
  mret (Bridge name port stp None (plain mtu)).

Definition IPv4_new (address netmask gateway defaultRoute bootproto : pyval)
    : M W IPv4 :=
  let c := mkIPv4 address netmask gateway defaultRoute bootproto in
  raise_if (IPv4_validate host c) ;; mret c.

Definition IPv6_new (address gateway defaultRoute ipv6autoconf dhcpv6 : pyval)
    : M W IPv6 :=
  let c := mkIPv6 address gateway defaultRoute ipv6autoconf dhcpv6 in
  raise_if (IPv6_validate host c) ;; mret c.

(** *** Objectivization *)

(** If there is dhclient already running on a bridge's port the same DHCP
    unique identifier is used. *)
Definition _inherit_dhcp_unique_identifier (bridge : NetDevice)
    (_netinfo : NetInfo) : M W NetDevice :=
  supported ← ask (supports_duid_file host);
  if negb supported then mret bridge
  else
    match bridge with
    | Bridge n (Some port) stp duid a =>
        let pn := dev_name port in
        let leased :=
          orb (default false (nics _netinfo !! pn))
              (orb (default false (bond_dhcpv4 <$> bondings _netinfo !! pn))
                   (default false (vlan_dhcpv4 <$> vlans _netinfo !! pn))) in
        mret (if leased then Bridge n (Some port) stp (Some pn) a else bridge)
    | _ => raise (AttributeError "port")
    end.

(** Keyword arguments of [_objectivizeNetwork]; the configurator is always
    passed by the callers in api.py. *)
Record ObjArgs := mkObjArgs {
  o_bridge : pyval; o_vlan : pyval; o_vlan_id : pyval; o_bonding : pyval;
  o_nic : pyval; o_mtu : pyval; o_ipaddr : pyval; o_netmask : pyval;
  o_gateway : pyval; o_bootproto : pyval; o_ipv6addr : pyval;
  o_ipv6gateway : pyval; o_ipv6autoconf : pyval; o_dhcpv6 : pyval;
  o_defaultRoute : pyval; o_netinfo : option NetInfo;
  o_blockingdhcp : pyval; o_implicitBonding : pyval;
  o_opts : option attrs }.

Definition _objectivizeNetwork (a : ObjArgs) : M W NetDevice :=
  _netinfo ← match o_netinfo a with
             | None => ask (CachingNetInfo host)
             | Some ni => mret ni
             end;
  let opts := default ∅ (o_opts a) in
  let bootproto := if py_eqb (o_bootproto a) (PStr "none") then PNone
                   else o_bootproto a in
  let mtu := o_mtu a in
  topNetDev ←
    (if truthy (o_bonding a) then
       bonding ← lift (expect_str (o_bonding a));
       d ← Bond_objectivize bonding PNone mtu _netinfo (o_implicitBonding a);
       mret (Some d)
     else if truthy (o_nic a) then
       nic ← lift (expect_str (o_nic a));
       match getBondingForNic host _netinfo nic with
       | Some bond =>
           raise (ConfigNetworkError ERR_USED_NIC
                    ("nic " +:+ nic +:+ " already enslaved to " +:+ bond))
       | None => d ← Nic_new nic mtu _netinfo; mret (Some d)
       end
     else mret None);
  topNetDev ←
    (if negb (is_None (o_vlan a)) then
       tag ← (if is_None (o_vlan_id a) then
                match vlans _netinfo !! py_str (o_vlan a) with
                | Some v => mret (PInt (vlan_vlanid v))
                | None => raise (KeyError (py_str (o_vlan a)))
                end
              else mret (o_vlan_id a));
       d ← Vlan_new topNetDev tag mtu (o_vlan a);
       mret (Some d)
     else if negb (is_None (o_vlan_id a)) then
       d ← Vlan_new topNetDev (o_vlan_id a) mtu PNone;
       mret (Some d)
     else mret topNetDev);
  topNetDev ←
    (if negb (is_None (o_bridge a)) then
       bridge ← lift (expect_str (o_bridge a));
       d ← Bridge_new bridge topNetDev mtu (default PNone (opts !! "stp"));
       (* inherit DUID from the port's existing DHCP lease *)
       d ← (if andb (bool_decide (is_Some topNetDev))
                    (py_eqb bootproto (PStr "dhcp"))
            then _inherit_dhcp_unique_identifier d _netinfo
            else mret d);
       mret (Some d)
     else mret topNetDev);
  match topNetDev with
  | None => raise (ConfigNetworkError ERR_BAD_PARAMS
                     "Network defined without devices.")
  | Some top =>
      v4 ← IPv4_new (o_ipaddr a) (o_netmask a) (o_gateway a)
                    (o_defaultRoute a) bootproto;
      v6 ← IPv6_new (o_ipv6addr a) (o_ipv6gateway a) (o_defaultRoute a)
                    (o_ipv6autoconf a) (o_dhcpv6 a);
      let blocking := orb (inRollback host) (tobool host (o_blockingdhcp a)) in
      mret (with_attrs top
              (mkDevAttrs (attr_mtu (dev_attrs top)) (Some v4) (Some v6)
                          (Some blocking)))
  end.

Definition _validateInterNetworkCompatibility (ni : NetInfo) (vlan : pyval)
    (iface : string) : M W unit :=
  let iface_nets_by_vlans :=
    (λ '(net, vlan), (vlan, net)) <$> getNetworksAndVlansForIface host ni iface in
  match list_find (λ '(v, _), py_eqb vlan v = true) iface_nets_by_vlans with
  | Some _ =>
      raise (ConfigNetworkError ERR_BAD_PARAMS
               ("interface " +:+ iface +:+ " cannot be defined with this " +:+
                "network since it is already defined with another network"))
  | None => mret tt
  end.

(** *** Adding and removing one network *)

(** Keyword arguments of a call: the netinfo snapshot, when passed, and the
    remaining arguments by name. *)
Record Kwargs := mkKwargs { kw_netinfo : option NetInfo; kw_attrs : attrs }.

Definition kwget (kw : Kwargs) (name : string) (dflt : pyval) : pyval :=
  default dflt (kw_attrs kw !! name).

(** The arguments not bound to a named parameter, collected by [**options]. *)
Definition rest_kwargs (named : list string) (kw : Kwargs) : attrs :=
  filter (λ kv, kv.1 ∉ named) (kw_attrs kw).

(** Wrapper for _addNetwork and _delNetwork that abstracts away all current
    configuration handling from the wrapped methods. *)
Definition _alterRunningConfig (func_name : string)
    (func : string → Kwargs → M W unit) : string → Kwargs → M W unit :=
  λ network kwargs,
    (if net_persistence_unified host then
       if String.eqb func_name "_delNetwork" then
         act (RunningConfig_removeNetwork network)
       else
         act (RunningConfig_setNetwork network (kw_attrs kwargs))
     else mret tt) ;;
    func network kwargs.

Definition _update_bridge_ports_mtu (bridge : string) (mtu : pyval)
    : M W unit :=
  ports ← ask (bridges_ports host bridge);
  for_each ports (λ port, act (LinkSet port ["mtu"; py_str mtu])).

Definition _update_mtu_for_an_existing_bridge (dev_name : string)
    (mtu : pyval) : M W unit :=
  cur ← ask (mtus_getMtu host dev_name);
  if negb (py_eqb mtu (PInt cur)) then
    act (SetIfaceMtu dev_name mtu) ;;
    _update_bridge_ports_mtu dev_name mtu
  else mret tt.

Definition _addNetwork_named : list string :=
  ["vlan"; "bonding"; "nic"; "ipaddr"; "netmask"; "prefix"; "mtu"; "gateway";
   "dhcpv6"; "ipv6addr"; "ipv6gateway"; "ipv6autoconf"; "bridged"; "hostQos";
   "defaultRoute"; "blockingdhcp"].

Definition _addNetwork_body (network : string) (kw : Kwargs) : M W unit :=
  let vlan := kwget kw "vlan" PNone in
  let bonding := kwget kw "bonding" PNone in
  let nic := kwget kw "nic" PNone in
  let ipaddr := kwget kw "ipaddr" PNone in
  let netmask := kwget kw "netmask" PNone in
  let prefix := kwget kw "prefix" PNone in
  let mtu := kwget kw "mtu" PNone in
  let gateway := kwget kw "gateway" PNone in
  let dhcpv6 := kwget kw "dhcpv6" PNone in
  let ipv6addr := kwget kw "ipv6addr" PNone in
  let ipv6gateway := kwget kw "ipv6gateway" PNone in
  let ipv6autoconf := kwget kw "ipv6autoconf" PNone in
  let bridged := kwget kw "bridged" (PBool true) in
  let hostQos := kwget kw "hostQos" PNone in
  let defaultRoute := kwget kw "defaultRoute" PNone in
  let blockingdhcp := kwget kw "blockingdhcp" (PBool false) in
  let options := rest_kwargs _addNetwork_named kw in
  _netinfo ← match kw_netinfo kw with
             | None => ask (CachingNetInfo host)
             | Some ni => mret ni
             end;
  let dhcpv6 := if negb (is_None dhcpv6) then PBool (tobool host dhcpv6)
                else dhcpv6 in
  let ipv6autoconf :=
    if negb (is_None ipv6autoconf) then PBool (tobool host ipv6autoconf)
    else ipv6autoconf in
  (if String.eqb network "" then
     raise (ConfigNetworkError ERR_BAD_BRIDGE "Empty network names are not valid")
   else mret tt) ;;
  netmask ←
    (if truthy prefix then
       if truthy netmask then
         raise (ConfigNetworkError ERR_BAD_PARAMS "Both PREFIX and NETMASK supplied")
       else
         try_except
           (n ← lift (py_int prefix);
            m ← lift (prefix2netmask host n);
            mret (PStr m))
           (λ e, match e with ValueError _ => true | _ => false end)
           (λ e, match e with
                 | ValueError ve =>
                     raise (ConfigNetworkError ERR_BAD_ADDR ("Bad prefix: " +:+ ve))
                 | _ => raise e
                 end)
     else mret netmask);
  logging "debug" "validating network..." [] None ;;
  (if bool_decide (network ∈ dom (networks _netinfo)) then
     raise (ConfigNetworkError ERR_USED_BRIDGE
              ("Network already exists (" +:+ network +:+ ")"))
   else mret tt) ;;
  (if truthy bonding then
     _validateInterNetworkCompatibility _netinfo vlan (py_str bonding)
   else if truthy nic then
     _validateInterNetworkCompatibility _netinfo vlan (py_str nic)
   else mret tt) ;;
  logging "info" "Adding network %s with vlan=%s, bonding=%s, nic=%s, mtu=%s, bridged=%s, defaultRoute=%s, options=%s"
          [PStr network; vlan; bonding; nic; mtu; bridged; defaultRoute]
          (Some options) ;;
  let bootproto := default PNone (options !! "bootproto") in
  let options := delete "bootproto" options in
  net_ent ← _objectivizeNetwork
    {| o_bridge := if truthy bridged then PStr network else PNone;
       o_vlan := PNone; o_vlan_id := vlan; o_bonding := bonding;
       o_nic := nic; o_mtu := mtu; o_ipaddr := ipaddr;
       o_netmask := netmask; o_gateway := gateway; o_bootproto := bootproto;
       o_dhcpv6 := dhcpv6; o_blockingdhcp := blockingdhcp;
       o_ipv6addr := ipv6addr; o_ipv6gateway := ipv6gateway;
       o_ipv6autoconf := ipv6autoconf; o_defaultRoute := defaultRoute;
       o_netinfo := Some _netinfo; o_implicitBonding := PNone;
       o_opts := Some options |};
  net_ent_to_configure ←
    (if andb (truthy bridged) (bool_decide (network ∈ bridges _netinfo)) then
       (* The bridge already exists, update the configured entity to one
          level below and update the mtu of the bridge. *)
       logging "info" "Bridge %s already exists." [PStr network] None ;;
       port ← lift (dev_port net_ent);
       _update_mtu_for_an_existing_bridge network mtu ;;
       mret port
     else mret (Some net_ent));
  match net_ent_to_configure with
  | Some d =>
      logging "info" "Configuring device %s" [PStr (dev_name d)] None ;;
      act (Device_configure d options)
  | None => mret tt
  end ;;
  act (ConfigureLibvirtNetwork network net_ent) ;;
  if negb (is_None hostQos) then act (ConfigureQoS hostQos net_ent)
  else mret tt.

Definition _addNetwork : string → Kwargs → M W unit :=
  _alterRunningConfig "_addNetwork" _addNetwork_body.

Definition _assertBridgeClean (bridge : string) (vlan bonding : pyval)
    (nics : list string) : M W unit :=
  ports ← ask (λ k, (list_to_set (bridges_ports host bridge k) : gset string));
  let ifaces : gset string := list_to_set nics in
  (* a member that is not a string equals no port name *)
  let add_member (v : pyval) (s : gset string) : gset string :=
    match v with PStr n => {[n]} ∪ s | _ => s end in
  let ifaces := if negb (is_None vlan) then add_member vlan ifaces
                else add_member bonding ifaces in
  let brifs := ports ∖ ifaces in
  if bool_decide (brifs ≠ ∅) then
    raise (ConfigNetworkError ERR_USED_BRIDGE
             ("bridge " +:+ bridge +:+ " has interfaces connected"))
  else mret tt.

Definition _validateDelNetwork (network : string) (vlan bonding : pyval)
    (nics : list string) (bridge_should_be_clean : bool)
    (_netinfo : NetInfo) : M W unit :=
  (if truthy bonding then
     match bondings _netinfo !! py_str bonding with
     | None => raise (KeyError (py_str bonding))
     | Some b =>
         if bool_decide ((list_to_set nics : gset string)
                         ≠ list_to_set (bond_slaves b))
         then raise (ConfigNetworkError ERR_BAD_NIC
                       ("_delNetwork: not all nics enslaved to "
                        +:+ py_str bonding))
         else mret tt
     end
   else mret tt) ;;
  if bridge_should_be_clean then _assertBridgeClean network vlan bonding nics
  else mret tt.

Definition _disconnect_bridge_port (port : string) : M W unit :=
  act (LinkSet port ["nomaster"]).

Definition set_bootproto (d : NetDevice) (bp : pyval) : M W NetDevice :=
  match attr_ipv4 (dev_attrs d) with
  | Some v4 =>
      let v4' := mkIPv4 (ipv4_address v4) (ipv4_netmask v4) (ipv4_gateway v4)
                        (ipv4_defaultRoute v4) bp in
      let a := dev_attrs d in
      mret (with_attrs d (mkDevAttrs (attr_mtu a) (Some v4') (attr_ipv6 a)
                                     (attr_blockingdhcp a)))
  | None => raise (AttributeError "bootproto")
  end.

Definition _delNetwork_body (network : string) (kw : Kwargs) : M W unit :=
  let vlan := kwget kw "vlan" PNone in
  let bonding := kwget kw "bonding" PNone in
  let bypassValidation := kwget kw "bypassValidation" (PBool false) in
  let implicitBonding := kwget kw "implicitBonding" (PBool true) in
  let keep_bridge := kwget kw "keep_bridge" (PBool false) in
  let options :=
    rest_kwargs ["vlan"; "bonding"; "bypassValidation"; "implicitBonding";
                 "keep_bridge"] kw in
  _netinfo ← match kw_netinfo kw with
             | None => ask (CachingNetInfo host)
             | Some ni => mret ni
             end;
  '(nics, vlan, vlan_id, bonding) ←
    lift (getNicsVlanAndBondingForNetwork host _netinfo network);
  attr ← match networks _netinfo !! network with
         | Some a => mret a
         | None => raise (KeyError network)
         end;
  let bridged := net_bridged attr in
  logging "info" "Removing network %s with vlan=%s, bonding=%s, nics=%s,keep_bridge=%s options=%s"
          [PStr network; vlan; bonding; PList nics; keep_bridge]
          (Some options) ;;
  (if negb (truthy bypassValidation) then
     _validateDelNetwork network vlan bonding nics
                         (andb bridged (negb (truthy keep_bridge))) _netinfo
   else mret tt) ;;
  net_ent ← _objectivizeNetwork
    {| o_bridge := if bridged then PStr network else PNone;
       o_vlan := vlan; o_vlan_id := vlan_id; o_bonding := bonding;
       o_nic := match nics with
                | n :: _ => if negb (truthy bonding) then PStr n else PNone
                | [] => PNone
                end;
       o_mtu := PNone; o_ipaddr := PNone; o_netmask := PNone;
       o_gateway := PNone; o_bootproto := PNone; o_ipv6addr := PNone;
       o_ipv6gateway := PNone; o_ipv6autoconf := PNone; o_dhcpv6 := PNone;
       o_defaultRoute := PNone; o_netinfo := Some _netinfo;
       o_blockingdhcp := PNone; o_implicitBonding := implicitBonding;
       o_opts := None |};
  net_ent ← set_bootproto net_ent
              (PStr (if net_dhcpv4 attr then "dhcp" else "none"));
  net_ent_to_remove ←
    (if andb bridged (truthy keep_bridge) then
       (* we now leave the bridge intact but delete everything underneath *)
       port ← lift (dev_port net_ent);
       match port with
       | Some p => _disconnect_bridge_port (dev_name p)
       | None => mret tt
       end ;;
       mret port
     else mret (Some net_ent));
  (* We must first remove the libvirt network and then the network entity. *)
  act (RemoveLibvirtNetwork network) ;;
  match net_ent_to_remove with
  | Some d =>
      logging "info" "Removing network entity %s" [PStr (dev_name d)] None ;;
      act (Device_remove d)
  | None => mret tt
  end ;;
  (* We must remove the QoS last so that no devices nor networks mark the
     QoS as used *)
  let backing_device := hierarchy_backing_device host net_ent in
  match backing_device with
  | Some b =>
      present ← ask (path_exists host (NET_PATH host +:+ "/" +:+ dev_name b));
      if (present : bool) then act (RemoveQoS net_ent) else mret tt
  | None => mret tt
  end.

Definition _delNetwork : string → Kwargs → M W unit :=
  _alterRunningConfig "_delNetwork" _delNetwork_body.

End Api.

(** *** A host on which every action succeeds

    Used to run the functions on concrete requests. *)

Definition sample_netinfo : NetInfo :=
  {| networks := {[ "ovirtmgmt" := mkNetAttr true false "ovirtmgmt" ["eth0"] ]};
     bondings := {[ "bond0" := mkBondAttr ["eth1"; "eth2"] false ]};
     vlans := ∅;
     nics := {[ "eth0" := false; "eth1" := false; "eth2" := false ]};
     bridges := {[ "ovirtmgmt" ]} |}.

(** The lowest device of a hierarchy, a Nic or a Bond. *)
Fixpoint lowest_device (d : NetDevice) : option NetDevice :=
  match d with
  | Nic _ _ | Bond _ _ _ _ _ => Some d
  | Vlan dv _ _ _ => lowest_device dv
  | Bridge _ (Some p) _ _ _ => lowest_device p
  | Bridge _ None _ _ _ => None
  end.

Definition quiet_host (unified : bool) : Host unit :=
  {| perform := λ _ k, (Ok tt, k);
     path_exists := λ _ _, true;
     bridges_ports := λ _ _, ["eth0"];
     netinfo_nics := λ _, ["eth0"; "eth1"; "eth2"];
     mtus_getMtu := λ _ _, 1500;
     CachingNetInfo := λ _, sample_netinfo;
     supports_duid_file := λ _, true;
     net_persistence_unified := unified;
     CONF_RUN_DIR := "/var/run/vdsm/netconf/";
     NET_PATH := "/sys/class/net";
     inRollback := false;
     tobool := truthy;
     prefix2netmask := λ n,
       if bool_decide (0 ≤ n ≤ 32)%Z then Ok ("/" +:+ str_int n)
       else Raise (ValueError (str_int n +:+ " is not a valid prefix value"));
     getNicsVlanAndBondingForNetwork := λ ni net,
       match networks ni !! net with
       | Some a => Ok (net_ports a, PNone, PNone, PNone)
       | None => Raise (KeyError net)
       end;
     getBondingForNic := λ _ _, None;
     getNetworksAndVlansForIface := λ _ _, [];
     Bond_validate := λ name ni,
       match bondings ni !! name with
       | Some b => Ok (bond_slaves b)
       | None => Ok []
       end;
     Nic_validate := λ _ _, None;
     Vlan_validateTag := λ _, None;
     Bond_validateName := λ _, None;
     Bond_validateOptions := λ _, None;
     IPv4_validate := λ _, None;
     IPv6_validate := λ _, None;
     hierarchy_backing_device := lowest_device |}.

Definition empty_world : World unit :=
  {| kern := tt; files := ∅; dirs := ∅; trace := []; logs := [] |}.

(** A request with both a prefix and a netmask. *)
Definition both_prefix_and_netmask : Kwargs :=
  mkKwargs (Some sample_netinfo)
    {[ "nic" := PStr "eth0"; "prefix" := PInt 24;
       "netmask" := PStr "255.255.255.0" ]}.

End NetApi.

(** ** lib/vdsm/network/link/bond/sysfs_options_mapper.py *)

Module BondMapper.
Import Py.

(** What the mapper does to sysfs, with the outcome of each operation. *)
Inductive SysEvent :=
| Opened (path : string) (outcome : option exn)
| Wrote (path data : string) (outcome : option exn)
| ReadElements (path : string) (result : res (list string))
| Closed (path : string).

(** The kernel side of sysfs.  [sys_write] is a write on an unbuffered file;
    [bond_opts_read_elements] (vdsm.network.link.bond.sysfs_options) reads a
    file and splits its content into whitespace-separated elements. *)
Record Sysfs (K : Type) := mkSysfs {
  sys_open : string → K → option exn;
  sys_write : string → string → K → option exn * K;
  bond_opts_read_elements : string → K → res (list string);
  iglob : string → K → list string;
  random_iface_name : K → string;
  EXCLUDED_BONDING_ENTRIES : list string;
  BONDING_MASTERS : string }.
Arguments sys_open {K}. Arguments sys_write {K}.
Arguments bond_opts_read_elements {K}. Arguments iglob {K}.
Arguments random_iface_name {K}. Arguments EXCLUDED_BONDING_ENTRIES {K}.
Arguments BONDING_MASTERS {K}.

Record World (K : Type) := mkWorld { kern : K; trace : list SysEvent }.
Arguments mkWorld {K}. Arguments kern {K}. Arguments trace {K}.

Definition _MAX_BONDING_MODES : Z := 6.

(** Modelled from the spec: the format string sysfs_options.BONDING_OPT is
    declared outside the sources; the spec gives the kernel surface as
    /sys/class/net/<bond>/bonding/<opt>. *)
Definition BONDING_OPT (bond opt : string) : string :=
  "/sys/class/net/" +:+ bond +:+ "/bonding/" +:+ opt.

(** [os.path.basename] *)
Fixpoint basename_go (acc : string) (l : list ascii) : string :=
  match l with
  | [] => acc
  | c :: l' =>
      if Ascii.eqb c "/"%char then basename_go "" l'
      else basename_go (acc +:+ String c EmptyString) l'
  end.

Definition basename (p : string) : string :=
  basename_go "" (String.list_ascii_of_string p).

Section Mapper.
Context {K : Type} (sysfs : Sysfs K).

Abbreviation W := (World K).

Definition emit (e : SysEvent) : M W unit :=
  modify (λ w, mkWorld (kern w) (trace w ++ [e])).

(** [open(path, 'w')] *)
Definition open_w (path : string) : M W unit :=
  w ← get;
  let o := sys_open sysfs path (kern w) in
  emit (Opened path o) ;; raise_if o.

(** [f.write(data)] on a file that is flushed at once. *)
Definition write (path data : string) : M W unit := λ w,
  let '(o, k') := sys_write sysfs path data (kern w) in
  (match o with Some e => Raise e | None => Ok tt end,
   mkWorld k' (trace w ++ [Wrote path data o])).

Definition close (path : string) : M W unit := emit (Closed path).

Definition read_elements (path : string) : M W (list string) :=
  w ← get;
  let r := bond_opts_read_elements sysfs path (kern w) in
  emit (ReadElements path r) ;; lift r.

(** [with open(path, 'w') as f: body] *)
Definition with_open {A} (path : string) (body : M W A) : M W A :=
  open_w path ;; try_finally body (close path).

Definition _change_mode (bond_name mode : string) : M W unit :=
  let p := BONDING_OPT bond_name "mode" in
  with_open p (write p mode).

(** The context manager [_bond_device]: the bond is created, [body] runs,
    and the bond is removed again whatever [body] did. *)
Definition _bond_device {A} (bond_name : string) (mode : option string)
    (body : M W A) : M W A :=
  with_open (BONDING_MASTERS sysfs)
    (write (BONDING_MASTERS sysfs) ("+" +:+ bond_name)) ;;
  match mode with
  | Some m => _change_mode bond_name m
  | None => mret tt
  end ;;
  try_finally body
    (with_open (BONDING_MASTERS sysfs)
       (write (BONDING_MASTERS sysfs) ("-" +:+ bond_name))).

(** The result is [None] for the pair (None, None), else the elements read
    back, which the caller unpacks. *)
Definition _bond_opts_name2numeric_getval (opt_path : string)
    (numeric_val : Z) : M W (option (list string)) :=
  written ←
    try_except
      (write opt_path (str_int numeric_val) ;; mret true)
      (λ e, match e with IOError _ => true | _ => false end)
      (λ e, match e with
            | IOError errno =>
                if bool_decide (errno ∈ [EINVAL; EPERM; EACCES])
                then mret false
                else raise e
            | _ => raise e
            end);
  if (written : bool) then
    elements ← read_elements opt_path; mret (Some elements)
  else mret None.

(** The loop of [_bond_opts_name2numeric_scan] over the remaining values. *)
Fixpoint scan_loop (opt_path : string) (numeric_vals : list Z)
    (vals : gmap string string) : M W (gmap string string) :=
  match numeric_vals with
  | [] => mret vals
  | numeric_val :: rest =>
      r ← _bond_opts_name2numeric_getval opt_path numeric_val;
      match r with
      | None => mret vals                                         (* break *)
      | Some [name; numeric] =>
          scan_loop opt_path rest (<[name := numeric]> vals)
      | Some _ => raise (ValueError "wrong number of values to unpack")
      end
  end.

Definition _bond_opts_name2numeric_scan (opt_path : string)
    : M W (gmap string string) :=
  with_open opt_path (scan_loop opt_path (seqZ 0 32) ∅).

(** The loop of [_bond_opts_name2numeric] over the remaining paths. *)
Fixpoint name2numeric_loop (paths : list string)
    (opts : gmap string (gmap string string))
    : M W (gmap string (gmap string string)) :=
  match paths with
  | [] => mret opts
  | path :: rest =>
      elements ← read_elements path;
      if bool_decide (List.length elements = 2%nat) then
        vals ← _bond_opts_name2numeric_scan path;
        name2numeric_loop rest (<[basename path := vals]> opts)
      else name2numeric_loop rest opts
  end.

(** Returns a dictionary of bond option name and a values iterable. *)
Definition _bond_opts_name2numeric (bond : string)
    : M W (gmap string (gmap string string)) :=
  let bond_mode_path := BONDING_OPT bond "mode" in
  w ← get;
  let paths := filter (λ p, p ≠ bond_mode_path)
                      (iglob sysfs (BONDING_OPT bond "*") (kern w)) in
  name2numeric_loop paths ∅.

Definition _bond_opts_name2numeric_filtered (bond : string)
    : M W (gmap string (gmap string string)) :=
  opts ← _bond_opts_name2numeric bond;
  mret (filter (λ kv, kv.1 ∉ EXCLUDED_BONDING_ENTRIES sysfs) opts).

(** Return a map of options values per mode. *)
Definition _get_bonding_options_name2numeric
    : M W (gmap string (gmap string (gmap string string))) :=
  w ← get;
  let bond_name := random_iface_name sysfs (kern w) in
  foldl (λ acc mode,
           opts ← acc;
           let mode := str_int mode in
           (* The bond is created per mode *)
           v ← _bond_device bond_name (Some mode)
                 (_bond_opts_name2numeric_filtered bond_name);
           mret (<[mode := v]> opts))
        (mret (∅ : gmap string (gmap string (gmap string string))))
        (seqZ 0 (_MAX_BONDING_MODES + 1)).

End Mapper.

(** *** Default options per mode *)

Section Defaults.
(** [properties] is sysfs_options.properties(bond_name, filter_properties,
    filter_out_properties), which reads the options of a bond from sysfs;
    [V] is the type of an option's value. *)
Context {K V : Type} (sysfs : Sysfs K)
        (properties : string → option (list string) → list string → K
                      → res (gmap string V)).

Definition read_properties (bond_name : string)
    (filter_properties : option (list string))
    (filter_out_properties : list string) : M (World K) (gmap string V) :=
  w ← get;
  lift (properties bond_name filter_properties filter_out_properties (kern w)).

(** Return default options per mode, in a dictionary of dictionaries. *)
Definition _get_default_bonding_options
    : M (World K) (gmap string (gmap string V)) :=
  w ← get;
  let bond_name := random_iface_name sysfs (kern w) in
  default_mode ←
    _bond_device sysfs bond_name None
      (props ← read_properties bond_name (Some ["mode"]) [];
       match props !! "mode" with
       | Some v => mret v
       | None => raise (KeyError "mode")
       end);
  (* read default values for all modes *)
  foldl (λ acc mode,
           opts ← acc;
           let mode := str_int mode in
           (* The bond is created per mode *)
           v ← _bond_device sysfs bond_name (Some mode)
                 (props ← read_properties bond_name None
                            (EXCLUDED_BONDING_ENTRIES sysfs);
                  mret (<["mode" := default_mode]> props));
           mret (<[mode := v]> opts))
        (mret (∅ : gmap string (gmap string V)))
        (seqZ 0 (_MAX_BONDING_MODES + 1)).

End Defaults.

(** *** A small kernel to run the mapper on

    The bond has three entries: [mode], [miimon] (one element) and
    [xmit_hash_policy] (a name and its number), which accepts the numbers
    0 to 2. *)

Definition toy_policies : list (string * string) :=
  [("0", "layer2"); ("1", "layer3+4"); ("2", "layer2+3")].

Definition toy_sysfs : Sysfs (gmap string (list string)) :=
  {| sys_open := λ _ _, None;
     sys_write := λ p d k,
       if String.eqb (basename p) "xmit_hash_policy" then
         match list_find (λ x, x.1 = d) toy_policies with
         | Some (_, (_, name)) => (None, <[p := [name; d]]> k)
         | None => (Some (IOError EINVAL), k)
         end
       else (Some (IOError EACCES), k);
     bond_opts_read_elements := λ p k,
       match k !! p with
       | Some els => Ok els
       | None => Raise (IOError ENOENT)
       end;
     iglob := λ _ _,
       [BONDING_OPT "bond0" "mode"; BONDING_OPT "bond0" "miimon";
        BONDING_OPT "bond0" "xmit_hash_policy"];
     random_iface_name := λ _, "bond0";
     EXCLUDED_BONDING_ENTRIES := ["slaves"; "ad_num_ports"];
     BONDING_MASTERS := "/sys/class/net/bonding_masters" |}.

Definition toy_world : World (gmap string (list string)) :=
  {| kern := {[ BONDING_OPT "bond0" "mode" := ["balance-rr"; "0"];
                BONDING_OPT "bond0" "miimon" := ["100"];
                BONDING_OPT "bond0" "xmit_hash_policy" := ["layer2"; "0"] ]};
     trace := [] |}.

(** The same kernel, on which bonds can also be created, removed and set to
    a mode. *)
Definition toy_sysfs_rw : Sysfs (gmap string (list string)) :=
  {| sys_open := sys_open toy_sysfs;
     sys_write := λ p d k,
       if orb (String.eqb p (BONDING_MASTERS toy_sysfs))
              (String.eqb (basename p) "mode")
       then (None, k)
       else sys_write toy_sysfs p d k;
     bond_opts_read_elements := bond_opts_read_elements toy_sysfs;
     iglob := iglob toy_sysfs;
     random_iface_name := random_iface_name toy_sysfs;
     EXCLUDED_BONDING_ENTRIES := EXCLUDED_BONDING_ENTRIES toy_sysfs;
     BONDING_MASTERS := BONDING_MASTERS toy_sysfs |}.

(** The options the small kernel reports for a bond, as
    sysfs_options.properties would. *)
Definition toy_properties (bond_name : string)
    (filter_properties : option (list string))
    (filter_out_properties : list string) (k : gmap string (list string))
    : res (gmap string (list string)) :=
  let all : gmap string (list string) :=
    list_to_map
      (omap (λ p, (λ els, (basename p, els)) <$> k !! p)
            (iglob toy_sysfs (BONDING_OPT bond_name "*") k)) in
  Ok (match filter_properties with
      | Some names => filter (λ kv, kv.1 ∈ names) all
      | None => filter (λ kv, kv.1 ∉ filter_out_properties) all
      end).

End BondMapper.

(** ** vdsm/storage/domainMonitor.py *)

Module DomainMonitor.
Import Py.

(** *** DomainMonitorStatus *)

Record DomainMonitorStatus := mkStatus {
  error : option exn;
  checkTime : Z;
  valid : bool;
  readDelay : pyval;
  masterMounted : pyval;
  masterValid : pyval;
  diskUtilization : pyval * pyval;
  vgMdUtilization : pyval * pyval;
  vgMdHasEnoughFreeSpace : pyval;
  vgMdFreeBelowThreashold : pyval;
  hasHostId : pyval;
  isoPrefix : option string;
  version : pyval }.

(** [DomainMonitorStatus.clear], given the reading of [time.time()]. *)
Definition clear (now : Z) : DomainMonitorStatus :=
  {| error := None; checkTime := now; valid := true; readDelay := PInt 0;
     diskUtilization := (PNone, PNone); masterMounted := PBool false;
     masterValid := PBool false; hasHostId := PBool false;
     vgMdUtilization := (PInt 0, PInt 0);
     vgMdHasEnoughFreeSpace := PBool true;
     vgMdFreeBelowThreashold := PBool true;
     isoPrefix := None; version := PInt (-1) |}.

(** [update] copies every slot; [copy] is a fresh status updated from the
    source. *)
Definition update (self st : DomainMonitorStatus) : DomainMonitorStatus := st.
Definition copy (self : DomainMonitorStatus) : DomainMonitorStatus :=
  update (clear 0) self.

(** Slot assignments on [nextStatus]. *)
Definition st_with_error (e : option exn) (st : DomainMonitorStatus) :=
  mkStatus e (checkTime st) (valid st) (readDelay st) (masterMounted st)
    (masterValid st) (diskUtilization st) (vgMdUtilization st)
    (vgMdHasEnoughFreeSpace st) (vgMdFreeBelowThreashold st) (hasHostId st)
    (isoPrefix st) (version st).
Definition st_with_checkTime (z : Z) (st : DomainMonitorStatus) :=
  mkStatus (error st) z (valid st) (readDelay st) (masterMounted st)
    (masterValid st) (diskUtilization st) (vgMdUtilization st)
    (vgMdHasEnoughFreeSpace st) (vgMdFreeBelowThreashold st) (hasHostId st)
    (isoPrefix st) (version st).
Definition st_with_valid (b : bool) (st : DomainMonitorStatus) :=
  mkStatus (error st) (checkTime st) b (readDelay st) (masterMounted st)
    (masterValid st) (diskUtilization st) (vgMdUtilization st)
    (vgMdHasEnoughFreeSpace st) (vgMdFreeBelowThreashold st) (hasHostId st)
    (isoPrefix st) (version st).
Definition st_with_readDelay (v : pyval) (st : DomainMonitorStatus) :=
  mkStatus (error st) (checkTime st) (valid st) v (masterMounted st)
    (masterValid st) (diskUtilization st) (vgMdUtilization st)
    (vgMdHasEnoughFreeSpace st) (vgMdFreeBelowThreashold st) (hasHostId st)
    (isoPrefix st) (version st).
Definition st_with_disk (v : pyval * pyval) (st : DomainMonitorStatus) :=
  mkStatus (error st) (checkTime st) (valid st) (readDelay st)
    (masterMounted st) (masterValid st) v (vgMdUtilization st)
    (vgMdHasEnoughFreeSpace st) (vgMdFreeBelowThreashold st) (hasHostId st)
    (isoPrefix st) (version st).
Definition st_with_vgMd (u : pyval * pyval) (enough below : pyval)
    (st : DomainMonitorStatus) :=
  mkStatus (error st) (checkTime st) (valid st) (readDelay st)
    (masterMounted st) (masterValid st) (diskUtilization st) u enough below
    (hasHostId st) (isoPrefix st) (version st).
Definition st_with_master (v m : pyval) (st : DomainMonitorStatus) :=
  mkStatus (error st) (checkTime st) (valid st) (readDelay st) m v
    (diskUtilization st) (vgMdUtilization st) (vgMdHasEnoughFreeSpace st)
    (vgMdFreeBelowThreashold st) (hasHostId st) (isoPrefix st) (version st).
Definition st_with_hasHostId (v : pyval) (st : DomainMonitorStatus) :=
  mkStatus (error st) (checkTime st) (valid st) (readDelay st)
    (masterMounted st) (masterValid st) (diskUtilization st)
    (vgMdUtilization st) (vgMdHasEnoughFreeSpace st)
    (vgMdFreeBelowThreashold st) v (isoPrefix st) (version st).
Definition st_with_isoPrefix (p : option string) (st : DomainMonitorStatus) :=
  mkStatus (error st) (checkTime st) (valid st) (readDelay st)
    (masterMounted st) (masterValid st) (diskUtilization st)
    (vgMdUtilization st) (vgMdHasEnoughFreeSpace st)
    (vgMdFreeBelowThreashold st) (hasHostId st) p (version st).
Definition st_with_version (v : pyval) (st : DomainMonitorStatus) :=
  mkStatus (error st) (checkTime st) (valid st) (readDelay st)
    (masterMounted st) (masterValid st) (diskUtilization st)
    (vgMdUtilization st) (vgMdHasEnoughFreeSpace st)
    (vgMdFreeBelowThreashold st) (hasHostId st) (isoPrefix st) v.

(** *** The monitor thread *)

(** A storage domain object handed out by the domain cache. *)
Inductive Domain := Handle (id : nat).

#[global] Instance Domain_eq_dec : EqDecision Domain.
Proof. solve_decision. Defined.

Record Thread := mkThread {
  domain : option Domain;
  sdUUID : string;
  hostId : Z;
  interval : Z;
  firstChange : bool;
  poolDomain : bool;
  status : DomainMonitorStatus;
  nextStatus : DomainMonitorStatus;
  isIsoDomain : option bool;
  thread_isoPrefix : option string;
  lastRefresh : Z;
  refreshTime : Z }.

(** Calls that leave the monitor, in the order they are made. *)
Inductive Event :=
| ManuallyRemoveDomain (sd : string)
| Produce (sd : string)
| IsISO (d : Domain)
| GetIsoDomainImagesDir (d : Domain)
| Selftest (d : Domain)
| GetReadDelay (d : Domain)
| GetStats (d : Domain)
| ValidateMaster (d : Domain)
| HasHostId (d : Domain) (hostId : Z)
| GetVersion (d : Domain)
| Emit (sd : string) (valid : bool)
| AcquireHostId (d : Domain) (hostId : Z)
| ReleaseHostId (d : Domain) (hostId : Z)
| Wait (interval : Z).

#[global] Instance Event_eq_dec : EqDecision Event.
Proof. solve_decision. Defined.

Record LogRecord := mkLog {
  log_level : string; log_fmt : string; log_args : list pyval }.

(** What a call to the storage side gives back: a value, or an exception
    of a class deriving from Exception ([Canceled] is raised by the
    cancellation points of the monitor only). *)
Definition raised : Type := { e : exn | is_Exception e = true }.
Definition outcome (A : Type) : Type := (A + raised)%type.

Definition returns {A} (a : A) : outcome A := inl a.
Definition raises {A} (e : exn) (H : is_Exception e = true) : outcome A :=
  inr (exist _ e H).

Definition to_res {A} (o : outcome A) : res A :=
  match o with
  | inl a => Ok a
  | inr r => Raise (proj1_sig r)
  end.

(** The storage side: domain cache, domain objects, sanlock, the clock, the
    event subscribers, and the other threads, which are the ones that set the
    stop event.  [K] is its state; every call may change it. *)
Record Storage (K : Type) := mkStorage {
  time_time : K → Z;
  stop_is_set : K → bool;                       (* stopEvent.is_set() *)
  stop_wait : Z → K → K;                        (* stopEvent.wait(interval) *)
  sdCache_manuallyRemoveDomain : string → K → outcome unit * K;
  sdCache_produce : string → K → outcome Domain * K;
  dom_isISO : Domain → K → outcome bool * K;
  dom_getIsoDomainImagesDir : Domain → K → outcome string * K;
  dom_selftest : Domain → K → outcome unit * K;
  dom_getReadDelay : Domain → K → outcome pyval * K;
  dom_getStats : Domain → K → outcome (gmap string pyval) * K;
  dom_validateMaster : Domain → K → outcome (gmap string pyval) * K;
  dom_hasHostId : Domain → Z → K → outcome pyval * K;
  dom_getVersion : Domain → K → outcome pyval * K;
  dom_acquireHostId : Domain → Z → K → outcome unit * K;
  dom_releaseHostId : Domain → Z → K → outcome unit * K;
  onDomainStateChange_emit : string → bool → K → outcome unit * K }.
Arguments time_time {K}. Arguments stop_is_set {K}. Arguments stop_wait {K}.
Arguments sdCache_manuallyRemoveDomain {K}. Arguments sdCache_produce {K}.
Arguments dom_isISO {K}. Arguments dom_getIsoDomainImagesDir {K}.
Arguments dom_selftest {K}. Arguments dom_getReadDelay {K}.
Arguments dom_getStats {K}. Arguments dom_validateMaster {K}.
Arguments dom_hasHostId {K}. Arguments dom_getVersion {K}.
Arguments dom_acquireHostId {K}. Arguments dom_releaseHostId {K}.
Arguments onDomainStateChange_emit {K}.

(** State of a running monitor: the thread object, the storage side, the
    calls made so far and the log (oldest first). *)
Record State (K : Type) := mkState {
  self : Thread;
  kern : K;
  trace : list Event;
  logs : list LogRecord }.
Arguments mkState {K}. Arguments self {K}. Arguments kern {K}.
Arguments trace {K}. Arguments logs {K}.

Section Monitor.
Context {K : Type} (storage : Storage K).

Abbreviation St := (State K).

Definition ask {A} (f : K → A) : M St A := λ s, (Ok (f (kern s)), s).

Definition this : M St Thread := λ s, (Ok (self s), s).

Definition set_self (f : Thread → Thread) : M St unit :=
  modify (λ s, mkState (f (self s)) (kern s) (trace s) (logs s)).

Definition log (level fmt : string) (args : list pyval) : M St unit :=
  modify (λ s, mkState (self s) (kern s) (trace s)
                       (logs s ++ [mkLog level fmt args])).

(** A call to the storage side: recorded, then carried out. *)
Definition call {A} (ev : Event) (op : K → outcome A * K) : M St A := λ s,
  let '(o, k') := op (kern s) in
  (to_res o, mkState (self s) k' (trace s ++ [ev]) (logs s)).

(** Field updates of the thread object. *)
Definition with_domain (d : option Domain) (t : Thread) : Thread :=
  mkThread d (sdUUID t) (hostId t) (interval t) (firstChange t) (poolDomain t)
    (status t) (nextStatus t) (isIsoDomain t) (thread_isoPrefix t)
    (lastRefresh t) (refreshTime t).
Definition with_firstChange (b : bool) (t : Thread) : Thread :=
  mkThread (domain t) (sdUUID t) (hostId t) (interval t) b (poolDomain t)
    (status t) (nextStatus t) (isIsoDomain t) (thread_isoPrefix t)
    (lastRefresh t) (refreshTime t).
Definition with_status (st : DomainMonitorStatus) (t : Thread) : Thread :=
  mkThread (domain t) (sdUUID t) (hostId t) (interval t) (firstChange t)
    (poolDomain t) st (nextStatus t) (isIsoDomain t) (thread_isoPrefix t)
    (lastRefresh t) (refreshTime t).
Definition with_nextStatus (st : DomainMonitorStatus) (t : Thread) : Thread :=
  mkThread (domain t) (sdUUID t) (hostId t) (interval t) (firstChange t)
    (poolDomain t) (status t) st (isIsoDomain t) (thread_isoPrefix t)
    (lastRefresh t) (refreshTime t).
Definition with_isIsoDomain (b : option bool) (t : Thread) : Thread :=
  mkThread (domain t) (sdUUID t) (hostId t) (interval t) (firstChange t)
    (poolDomain t) (status t) (nextStatus t) b (thread_isoPrefix t)
    (lastRefresh t) (refreshTime t).
Definition with_isoPrefix (p : option string) (t : Thread) : Thread :=
  mkThread (domain t) (sdUUID t) (hostId t) (interval t) (firstChange t)
    (poolDomain t) (status t) (nextStatus t) (isIsoDomain t) p
    (lastRefresh t) (refreshTime t).
Definition with_lastRefresh (z : Z) (t : Thread) : Thread :=
  mkThread (domain t) (sdUUID t) (hostId t) (interval t) (firstChange t)
    (poolDomain t) (status t) (nextStatus t) (isIsoDomain t)
    (thread_isoPrefix t) z (refreshTime t).

Definition set_next (f : DomainMonitorStatus → DomainMonitorStatus)
    : M St unit :=
  set_self (λ t, with_nextStatus (f (nextStatus t)) t).

(** [self.domain.<method>]: without a domain the attribute access fails. *)
Definition the_domain : M St Domain :=
  t ← this;
  match domain t with
  | Some d => mret d
  | None => raise (AttributeError "'NoneType' object has no attribute")
  end.

(** [d[key]] on a dict returned by the domain. *)
Definition item (d : gmap string pyval) (key : string) : M St pyval :=
  match d !! key with
  | Some v => mret v
  | None => raise (KeyError key)
  end.

(** Accessed by methods decorated with [cancelpoint]. *)
Definition __canceled__ : M St bool := ask (stop_is_set storage).

(** Modelled from the spec: the decorator vdsm.utils.cancelpoint is declared
    outside the sources.  The spec makes every decorated step a cancellation
    point where [stopEvent.is_set()] is consulted at the step's boundaries:
    the step is not entered once the stop signal is set, and a stop signal
    set while the step was running turns its return into [Canceled]. *)
Definition cancelpoint {A} (meth : M St A) : M St A :=
  c ← __canceled__;
  if (c : bool) then raise Canceled
  else
    value ← meth;
    c ← __canceled__;
    if (c : bool) then raise Canceled else mret value.

(** Notifying status changes *)

Definition _statusDidChange : M St bool :=
  t ← this;
  mret (orb (firstChange t)
            (negb (Bool.eqb (valid (status t)) (valid (nextStatus t))))).

Definition _notifyStatusChanges : M St unit :=
  cancelpoint (
    t ← this;
    log "debug" "Domain %s changed its status to %s"
        [PStr (sdUUID t);
         PStr (if valid (nextStatus t) then "Valid" else "Invalid")] ;;
    try_except
      (call (Emit (sdUUID t) (valid (nextStatus t)))
            (onDomainStateChange_emit storage (sdUUID t) (valid (nextStatus t))))
      (λ _, true)
      (λ _, log "warn" "Could not emit domain state change event" [])).

(** Refreshing domain *)

Definition _shouldRefreshDomain : M St bool :=
  t ← this;
  now ← ask (time_time storage);
  mret (bool_decide (now - lastRefresh t > refreshTime t)).

Definition _refreshDomain : M St unit :=
  cancelpoint (
    t ← this;
    log "debug" "Refreshing domain %s" [PStr (sdUUID t)] ;;
    call (ManuallyRemoveDomain (sdUUID t))
         (sdCache_manuallyRemoveDomain storage (sdUUID t)) ;;
    now ← ask (time_time storage);
    set_self (with_lastRefresh now)).

(** Deferred initialization *)

Definition _produceDomain : M St unit :=
  cancelpoint (
    t ← this;
    d ← call (Produce (sdUUID t)) (sdCache_produce storage (sdUUID t));
    set_self (with_domain (Some d))).

Definition _setIsoDomainInfo : M St unit :=
  cancelpoint (
    d ← the_domain;
    isIsoDomain ← call (IsISO d) (dom_isISO storage d);
    (if (isIsoDomain : bool) then
       d ← the_domain;
       p ← call (GetIsoDomainImagesDir d) (dom_getIsoDomainImagesDir storage d);
       set_self (with_isoPrefix (Some p))
     else mret tt) ;;
    set_self (with_isIsoDomain (Some isIsoDomain))).

(** Collecting monitoring info *)

Definition _performDomainSelftest : M St unit :=
  cancelpoint (d ← the_domain; call (Selftest d) (dom_selftest storage d)).

Definition _checkReadDelay : M St unit :=
  cancelpoint (
    d ← the_domain;
    v ← call (GetReadDelay d) (dom_getReadDelay storage d);
    set_next (st_with_readDelay v)).

Definition _collectStatistics : M St unit :=
  d ← the_domain;
  stats ← call (GetStats d) (dom_getStats storage d);
  disktotal ← item stats "disktotal";
  diskfree ← item stats "diskfree";
  set_next (st_with_disk (disktotal, diskfree)) ;;
  mdasize ← item stats "mdasize";
  mdafree ← item stats "mdafree";
  mdavalid ← item stats "mdavalid";
  mdathreshold ← item stats "mdathreshold";
  set_next (st_with_vgMd (mdasize, mdafree) mdavalid mdathreshold) ;;
  d ← the_domain;
  masterStats ← call (ValidateMaster d) (dom_validateMaster storage d);
  v ← item masterStats "valid";
  m ← item masterStats "mount";
  set_next (st_with_master v m) ;;
  t ← this;
  d ← the_domain;
  h ← call (HasHostId d (hostId t)) (dom_hasHostId storage d (hostId t));
  set_next (st_with_hasHostId h) ;;
  t ← this;
  set_next (st_with_isoPrefix (thread_isoPrefix t)) ;;
  d ← the_domain;
  ver ← call (GetVersion d) (dom_getVersion storage d);
  set_next (st_with_version ver).

(** Managing host id *)

(** [not self.isIsoDomain]: an undetermined flag (None) is falsy. *)
Definition not_isIsoDomain (t : Thread) : bool :=
  negb (default false (isIsoDomain t)).

Definition _shouldAcquireHostId : M St bool :=
  t ← this;
  (* An ISO domain can be shared by multiple pools *)
  mret (andb (not_isIsoDomain t)
             (andb (valid (nextStatus t))
                   (is_False (hasHostId (nextStatus t))))).

Definition _shouldReleaseHostId : M St bool :=
  t ← this;
  mret (andb (bool_decide (is_Some (domain t))) (not_isIsoDomain t)).

Definition _acquireHostId : M St unit :=
  cancelpoint (
    t ← this;
    try_except
      (d ← the_domain;
       call (AcquireHostId d (hostId t)) (dom_acquireHostId storage d (hostId t)))
      (λ _, true)
      (λ _, log "debug" "Unable to issue the acquire host id %s request for domain %s"
                [PInt (hostId t); PStr (sdUUID t)])).

Definition _releaseHostId : M St unit :=
  t ← this;
  try_except
    (d ← the_domain;
     call (ReleaseHostId d (hostId t)) (dom_releaseHostId storage d (hostId t)))
    (λ _, true)
    (λ _, log "debug" "Unable to release the host id %s for domain %s"
              [PInt (hostId t); PStr (sdUUID t)]).

(** The monitoring loop *)

(** The body of the [try] block of [_monitorDomain]. *)
Definition probe : M St unit :=
  t ← this;
  (if bool_decide (domain t = None) then _produceDomain else mret tt) ;;
  t ← this;
  (if bool_decide (isIsoDomain t = None) then _setIsoDomainInfo else mret tt) ;;
  _performDomainSelftest ;;
  _checkReadDelay ;;
  _collectStatistics.

(** [_monitorDomain] up to the [try] block. *)
Definition prepare : M St unit :=
  now ← ask (time_time storage);
  set_next (λ _, clear now) ;;
  (* Pick up changes in the domain, for example, domain upgrade. *)
  r ← _shouldRefreshDomain;
  if (r : bool) then _refreshDomain else mret tt.

(** The [try] statement of [_monitorDomain]. *)
Definition collect : M St unit :=
  try_except probe is_Exception
    (λ e,
       t ← this;
       log "error" "Error while collecting domain %s monitoring information"
           [PStr (sdUUID t)] ;;
       set_next (st_with_error (Some e))).

(** [_monitorDomain] after the [try] statement. *)
Definition publish : M St unit :=
  now ← ask (time_time storage);
  set_next (st_with_checkTime now) ;;
  set_next (λ st, st_with_valid (bool_decide (error st = None)) st) ;;
  c ← _statusDidChange;
  (if (c : bool) then _notifyStatusChanges else mret tt) ;;
  set_self (with_firstChange false) ;;
  a ← _shouldAcquireHostId;
  (if (a : bool) then _acquireHostId else mret tt) ;;
  set_self (λ t, with_status (update (status t) (nextStatus t)) t).

Definition _monitorDomain : M St unit := prepare ;; collect ;; publish.

(** [_monitorLoop]; the Python loop runs until it is stopped, [fuel] bounds
    the number of iterations carried out here.  The result is [Some tt] when
    the loop has exited and [None] when it is still running after [fuel]
    iterations. *)
Fixpoint _monitorLoop (fuel : nat) : M St (option unit) :=
  stop ← ask (stop_is_set storage);
  if (stop : bool) then mret (Some tt)
  else
    match fuel with
    | O => mret None
    | Datatypes.S fuel' =>
        returned ←
          try_except (_monitorDomain ;; mret false)
            (λ _, true)
            (λ e, t ← this;
                  match e with
                  | Canceled =>
                      log "debug" "Canceled domain monitor for %s"
                          [PStr (sdUUID t)] ;;
                      mret true                                  (* return *)
                  | _ =>
                      log "error" "The domain monitor for %s failed unexpectedly"
                          [PStr (sdUUID t)] ;;
                      mret false
                  end);
        if (returned : bool) then mret (Some tt)
        else
          t ← this;
          call (Wait (interval t))
               (λ k, (returns tt, stop_wait storage (interval t) k)) ;;
          _monitorLoop fuel'
    end.

(** The [finally] block of [_run]. *)
Definition shutdown : M St unit :=
  t ← this;
  log "debug" "Stopping domain monitor for %s" [PStr (sdUUID t)] ;;
  r ← _shouldReleaseHostId;
  if (r : bool) then _releaseHostId else mret tt.

(** [_run]: [None] while the loop is still running. *)
Definition _run (fuel : nat) : M St (option unit) := λ s,
  let '(r, s1) :=
    (t ← this;
     log "debug" "Starting domain monitor for %s" [PStr (sdUUID t)] ;;
     _monitorLoop fuel) s in
  match r with
  | Ok None => (Ok None, s1)
  | _ => try_finally (lift r) shutdown s1
  end.

(** [getStatus] *)
Definition getStatus (t : Thread) : DomainMonitorStatus := copy (status t).

End Monitor.

(** *** The monitor pool *)

(** [DomainMonitorThread.__init__], given the clock reading and the
    configured irs/repo_stats_cache_refresh_timeout. *)
Definition DomainMonitorThread (sdUUID : string) (hostId interval : Z)
    (now refreshTime : Z) : Thread :=
  {| domain := None; sdUUID := sdUUID; hostId := hostId;
     interval := interval; firstChange := true; poolDomain := true;
     status := clear now; nextStatus := clear now; isIsoDomain := None;
     thread_isoPrefix := None; lastRefresh := now;
     refreshTime := refreshTime |}.

Definition with_poolDomain (b : bool) (t : Thread) : Thread :=
  mkThread (domain t) (sdUUID t) (hostId t) (interval t) (firstChange t) b
    (status t) (nextStatus t) (isIsoDomain t) (thread_isoPrefix t)
    (lastRefresh t) (refreshTime t).

(** What the pool does to its monitor threads and to its map. *)
Inductive PoolEvent :=
| ThreadStart (sd : string)
| StopSignal (sd : string)          (* monitor.stop() *)
| Join (sd : string)                (* monitor.join() has returned *)
| Del (sd : string)                 (* del self._domains[sd] *)
| Warn (sd : string).               (* the KeyError handler *)

#[global] Instance PoolEvent_eq_dec : EqDecision PoolEvent.
Proof. solve_decision. Defined.

Record Pool := mkPool {
  _domains : gmap string Thread;
  _interval : Z;
  pool_trace : list PoolEvent;
  pool_logs : list LogRecord }.

Section PoolOps.
(** The clock and the configuration read when a thread object is made, and
    what other callers of the pool do to [_domains] while this caller is
    blocked in [monitor.join()]. *)
Context (now refreshTime : Z)
        (meanwhile : string → gmap string Thread → gmap string Thread).

Definition pool_emit (e : PoolEvent) : M Pool unit :=
  modify (λ p, mkPool (_domains p) (_interval p) (pool_trace p ++ [e])
                      (pool_logs p)).

Definition pool_log (level fmt : string) (args : list pyval) : M Pool unit :=
  modify (λ p, mkPool (_domains p) (_interval p) (pool_trace p)
                      (pool_logs p ++ [mkLog level fmt args])).

Definition set_domains (f : gmap string Thread → gmap string Thread)
    : M Pool unit :=
  modify (λ p, mkPool (f (_domains p)) (_interval p) (pool_trace p)
                      (pool_logs p)).

(** [self._domains.values()], a list in the map's iteration order. *)
Definition domains_values : M Pool (list Thread) :=
  p ← get; mret ((map_to_list (_domains p)).*2).

Definition poolMonitoredDomains (p : Pool) : list string :=
  (filter (λ kv, poolDomain kv.2 = true) (map_to_list (_domains p))).*1.

Definition startMonitoring (sdUUID : string) (hostId : Z) (poolDomain : bool)
    : M Pool unit :=
  p ← get;
  match _domains p !! sdUUID with
  | Some domainThread =>
      set_domains
        <[sdUUID := with_poolDomain
                      (orb (DomainMonitor.poolDomain domainThread) poolDomain)
                      domainThread]>
  | None =>
      pool_log "info" "Start monitoring %s" [PStr sdUUID] ;;
      let domainThread :=
        with_poolDomain poolDomain
          (DomainMonitorThread sdUUID hostId (_interval p) now refreshTime) in
      pool_emit (ThreadStart sdUUID) ;;
      (* The domain should be added only after it succesfully started *)
      set_domains <[sdUUID := domainThread]>
  end.

(** [del self._domains[key]] *)
Definition del_domain (key : string) : M Pool unit :=
  p ← get;
  match _domains p !! key with
  | Some _ => pool_emit (Del key) ;; set_domains (delete key)
  | None => raise (KeyError key)
  end.

(** [monitor.join()]: the caller blocks until the thread has exited. *)
Definition join (monitor : Thread) : M Pool unit :=
  set_domains (meanwhile (sdUUID monitor)) ;;
  pool_emit (Join (sdUUID monitor)).

Definition _stopMonitors (monitors : list Thread) : M Pool unit :=
  (* First stop monitor threads *)
  for_each monitors (λ monitor,
    pool_log "info" "Stop monitoring %s" [PStr (sdUUID monitor)] ;;
    pool_emit (StopSignal (sdUUID monitor))) ;;
  (* Now wait for threads to finish *)
  for_each monitors (λ monitor,
    pool_log "debug" "Waiting for monitor %s" [PStr (sdUUID monitor)] ;;
    join monitor ;;
    try_except (del_domain (sdUUID monitor))
      (λ e, match e with KeyError _ => true | _ => false end)
      (λ _, pool_log "warning" "Montior for %s removed while stopping"
                     [PStr (sdUUID monitor)] ;;
            (* the handler is marked in the trace as well *)
            pool_emit (Warn (sdUUID monitor)))).

Definition stopMonitoring (sdUUIDs : list string) : M Pool unit :=
  let sdUUIDs : gset string := list_to_set sdUUIDs in
  values ← domains_values;
  let monitors := filter (λ monitor, sdUUID monitor ∈ sdUUIDs) values in
  _stopMonitors monitors.

Definition close : M Pool unit :=
  pool_log "info" "Stopping all domain monitors" [] ;;
  values ← domains_values;
  _stopMonitors values.

End PoolOps.

(** *** A scripted storage side to run the monitor on

    Its state counts the calls made so far and the waits; the stop event is
    set from a given count on. *)

Record Script := mkScript {
  stop_after : nat;          (* the stop event is set once the count reaches it *)
  produce_fails : bool;
  isISO_fails : bool;
  is_iso : bool;
  selftest_fails : bool;
  host_id_held : pyval;      (* what hasHostId answers *)
  acquire_fails : bool;
  release_fails : bool }.

Definition EIO_raised : raised := exist _ (IOError 5) eq_refl.

Definition answer {A} (fails : bool) (a : A) (k : nat) : outcome A * nat :=
  (if fails then inr EIO_raised else inl a, Datatypes.S k).

Definition sample_stats : gmap string pyval :=
  {[ "disktotal" := PInt 1000; "diskfree" := PInt 400;
     "mdasize" := PInt 128; "mdafree" := PInt 64;
     "mdavalid" := PBool true; "mdathreshold" := PBool true ]}.

Definition sample_master : gmap string pyval :=
  {[ "valid" := PBool true; "mount" := PBool true ]}.

Definition scripted (sc : Script) : Storage nat :=
  {| time_time := Z.of_nat;
     stop_is_set := λ k, bool_decide (stop_after sc ≤ k)%nat;
     stop_wait := λ _ k, Datatypes.S k;
     sdCache_manuallyRemoveDomain := λ _, answer false tt;
     sdCache_produce := λ _, answer (produce_fails sc) (Handle 1);
     dom_isISO := λ _, answer (isISO_fails sc) (is_iso sc);
     dom_getIsoDomainImagesDir := λ _, answer false "/iso/images";
     dom_selftest := λ _, answer (selftest_fails sc) tt;
     dom_getReadDelay := λ _, answer false (PInt 1);
     dom_getStats := λ _, answer false sample_stats;
     dom_validateMaster := λ _, answer false sample_master;
     dom_hasHostId := λ _ _, answer false (host_id_held sc);
     dom_getVersion := λ _, answer false (PInt 3);
     dom_acquireHostId := λ _ _, answer (acquire_fails sc) tt;
     dom_releaseHostId := λ _ _, answer (release_fails sc) tt;
     onDomainStateChange_emit := λ _ _, answer false tt |}.

(** A monitor that has just been created. *)
Definition fresh_monitor : State nat :=
  {| self := DomainMonitorThread "sd-A" 7 10 0 300;
     kern := 0%nat; trace := []; logs := [] |}.

(** The monitor as its loop finds it at the start of the second iteration:
    after the first tick of a fresh monitor against the script and the wait
    that follows it. *)
Definition settled_monitor (sc : Script) : State nat :=
  let s1 := (_monitorDomain (scripted sc) fresh_monitor).2 in
  {| self := self s1;
     kern := stop_wait (scripted sc) (interval (self s1)) (kern s1);
     trace := trace s1 ++ [Wait (interval (self s1))];
     logs := logs s1 |}.

(** Three scripts: the selftest fails; the stop event is set while the
    statistics of the second tick are being collected; the release of the
    host id fails. *)
Definition selftest_failing : Script :=
  mkScript 100 false false false true (PBool false) false false.

Definition stopping_early : Script :=
  mkScript 15 false false false false (PBool false) false false.

Definition release_failing : Script :=
  mkScript 20 false false false false (PBool false) false true.

(** A storage side whose domain is an ISO domain, and says so, but whose
    images directory cannot be read; the rest is as scripted. *)
Definition iso_images_unreadable (sc : Script) : Storage nat :=
  {| time_time := time_time (scripted sc);
     stop_is_set := stop_is_set (scripted sc);
     stop_wait := stop_wait (scripted sc);
     sdCache_manuallyRemoveDomain := sdCache_manuallyRemoveDomain (scripted sc);
     sdCache_produce := sdCache_produce (scripted sc);
     dom_isISO := λ _, answer false true;
     dom_getIsoDomainImagesDir := λ _, answer true "";
     dom_selftest := dom_selftest (scripted sc);
     dom_getReadDelay := dom_getReadDelay (scripted sc);
     dom_getStats := dom_getStats (scripted sc);
     dom_validateMaster := dom_validateMaster (scripted sc);
     dom_hasHostId := dom_hasHostId (scripted sc);
     dom_getVersion := dom_getVersion (scripted sc);
     dom_acquireHostId := dom_acquireHostId (scripted sc);
     dom_releaseHostId := dom_releaseHostId (scripted sc);
     onDomainStateChange_emit := onDomainStateChange_emit (scripted sc) |}.

(** The stop event is set after ten calls; nothing else fails. *)
Definition stopping_late : Script :=
  mkScript 10 false false false false (PBool false) false false.

(** A pool with two monitors, and another caller that removes sd-A from the
    pool while this one waits for the thread of sd-A. *)
Definition sample_pool : Pool :=
  {| _domains := {[ "sd-A" := DomainMonitorThread "sd-A" 7 10 0 300;
                    "sd-B" := DomainMonitorThread "sd-B" 7 10 0 300 ]};
     _interval := 10; pool_trace := []; pool_logs := [] |}.

Definition removes_sd_A (joined : string) (m : gmap string Thread)
    : gmap string Thread :=
  if String.eqb joined "sd-A" then delete "sd-A" m else m.

End DomainMonitor.

(** * Vocabulary of the properties *)

#[local] Open Scope Z_scope.
#[local] Open Scope list_scope.

Import Py.

(** ** Networks *)

Section NetworkVocabulary.
Import NetApi.
Context {K : Type} (host : Host K).

(** The directory the VF counts are persisted in. *)
Definition numvfs_dir : string :=
  path_join (CONF_RUN_DIR host) "virtual_functions".

(** Computations that leave the world as they found it. *)
Definition pure_comp {W A} (m : M W A) : Prop := ∀ w, (m w).2 = w.

(** Computations that perform no action: the host, the files and the trace
    are as before (the log may have grown). *)
Definition silent {A} (m : M (World K) A) : Prop :=
  ∀ w, kern (m w).2 = kern w ∧ files (m w).2 = files w
       ∧ dirs (m w).2 = dirs w ∧ trace (m w).2 = trace w.

(** The actions [_delNetwork] ends with: the libvirt network is removed,
    then the network entity if there is one to remove, then the QoS.  Each
    may be the last one when it fails or when the later ones do not
    apply. *)
Inductive removal_sequence (network : string) : list Action → Prop :=
| removal_none : removal_sequence network []
| removal_libvirt :
    removal_sequence network [RemoveLibvirtNetwork network]
| removal_libvirt_qos top :
    removal_sequence network [RemoveLibvirtNetwork network; RemoveQoS top]
| removal_libvirt_device d :
    removal_sequence network [RemoveLibvirtNetwork network; Device_remove d]
| removal_libvirt_device_qos d top :
    removal_sequence network
      [RemoveLibvirtNetwork network; Device_remove d; RemoveQoS top].

(** What may precede them: the running config entry is dropped and the
    bridge port is disconnected. *)
Definition preparation (network : string) (a : Action) : Prop :=
  a = RunningConfig_removeNetwork network ∨ ∃ p, a = LinkSet p ["nomaster"].

(** What the wrapper has done when the wrapped [_addNetwork] starts: under
    unified persistence the request has been recorded in the running
    config. *)
Definition recorded (network : string) (kw : Kwargs) : list Action :=
  if net_persistence_unified host
  then [RunningConfig_setNetwork network (kw_attrs kw)] else [].

(** The request with [netmask] in place of [prefix]. *)
Definition with_netmask (m : string) (kw : Kwargs) : Kwargs :=
  mkKwargs (kw_netinfo kw) (<["netmask" := PStr m]> (delete "prefix" (kw_attrs kw))).

End NetworkVocabulary.

(** ** The bond option probe *)

Section BondOptionVocabulary.
Import BondMapper.

(** The errors that end the scan of an option without failing it. *)
Definition ends_scan (e : exn) : Prop :=
  ∃ errno, e = IOError errno ∧ errno ∈ [EINVAL; EPERM; EACCES].

(** The scan of one option file from numeric value [i] on, with the pairs
    recorded so far: the events it produces and its result.  Value [i] is
    written; a write that succeeds is followed by reading the pair back,
    which is recorded, and the scan goes on with [i + 1] up to 31; a write
    refused with EINVAL, EPERM or EACCES ends the scan with the pairs
    recorded so far; any other failure is raised. *)
Inductive scan_steps (p : string) :
    Z → gmap string string → list SysEvent → res (gmap string string) → Prop :=
| scan_exhausted vals :
    scan_steps p 32 vals [] (Ok vals)
| scan_refused i vals e :
    i < 32 → ends_scan e →
    scan_steps p i vals [Wrote p (str_int i) (Some e)] (Ok vals)
| scan_write_failed i vals e :
    i < 32 → ¬ ends_scan e →
    scan_steps p i vals [Wrote p (str_int i) (Some e)] (Raise e)
| scan_read_failed i vals e :
    i < 32 →
    scan_steps p i vals
      [Wrote p (str_int i) None; ReadElements p (Raise e)] (Raise e)
| scan_unpack_failed i vals els :
    i < 32 → List.length els ≠ 2%nat →
    scan_steps p i vals
      [Wrote p (str_int i) None; ReadElements p (Ok els)]
      (Raise (ValueError "wrong number of values to unpack"))
| scan_recorded i vals name numeric tr r :
    i < 32 →
    scan_steps p (i + 1) (<[name := numeric]> vals) tr r →
    scan_steps p i vals
      (Wrote p (str_int i) None :: ReadElements p (Ok [name; numeric]) :: tr) r.

(** The data written by a list of events. *)
Definition written (tr : list SysEvent) : list string :=
  omap (λ ev, match ev with Wrote _ d _ => Some d | _ => None end) tr.

(** The events of [_bond_opts_name2numeric_scan]: the option file is opened
    for writing, scanned from 0 and closed. *)
Inductive scan_events (p : string) :
    list SysEvent → res (gmap string string) → Prop :=
| scan_not_opened e :
    scan_events p [Opened p (Some e)] (Raise e)
| scan_opened tr r :
    scan_steps p 0 ∅ tr r →
    scan_events p (Opened p None :: tr ++ [Closed p]) r.

(** The events of [_bond_opts_name2numeric] over the option files still to
    be visited, with the options mapped so far: the elements of each file
    are read; a file that does not hold exactly two elements is passed
    over; a file that holds two is scanned. *)
Inductive mapper_steps :
    list string → gmap string (gmap string string) → list SysEvent →
    res (gmap string (gmap string string)) → Prop :=
| mapper_done opts :
    mapper_steps [] opts [] (Ok opts)
| mapper_read_failed p rest opts e :
    mapper_steps (p :: rest) opts [ReadElements p (Raise e)] (Raise e)
| mapper_passed_over p rest opts els tr r :
    List.length els ≠ 2%nat →
    mapper_steps rest opts tr r →
    mapper_steps (p :: rest) opts (ReadElements p (Ok els) :: tr) r
| mapper_scanned p rest opts name numeric sc vals tr r :
    scan_events p sc (Ok vals) →
    mapper_steps rest (<[basename p := vals]> opts) tr r →
    mapper_steps (p :: rest) opts
      (ReadElements p (Ok [name; numeric]) :: sc ++ tr) r
| mapper_scan_failed p rest opts name numeric sc e :
    scan_events p sc (Raise e) →
    mapper_steps (p :: rest) opts
      (ReadElements p (Ok [name; numeric]) :: sc) (Raise e).

End BondOptionVocabulary.

(** ** The domain monitor *)

Section PoolVocabulary.
Import DomainMonitor.
Context (meanwhile : string → gmap string Thread → gmap string Thread).

(** The second phase of the stop protocol over the monitors still to be
    waited for, from the pool's map [m] to the map it leaves: the events,
    and the records logged.  Each monitor is joined, while other callers
    may change the map; then its entry is deleted from the map, or, when
    the entry is no longer there, the KeyError is logged as a warning and
    the map is left as it is. *)
Inductive joined_and_removed :
    list string → gmap string Thread → list PoolEvent → list LogRecord →
    gmap string Thread → Prop :=
| jr_done m : joined_and_removed [] m [] [] m
| jr_deleted sd rest m t tr lg m' :
    meanwhile sd m !! sd = Some t →
    joined_and_removed rest (delete sd (meanwhile sd m)) tr lg m' →
    joined_and_removed (sd :: rest) m (Join sd :: Del sd :: tr)
      (mkLog "debug" "Waiting for monitor %s" [PStr sd] :: lg) m'
| jr_missing sd rest m tr lg m' :
    meanwhile sd m !! sd = None →
    joined_and_removed rest (meanwhile sd m) tr lg m' →
    joined_and_removed (sd :: rest) m (Join sd :: Warn sd :: tr)
      (mkLog "debug" "Waiting for monitor %s" [PStr sd]
       :: mkLog "warning" "Montior for %s removed while stopping" [PStr sd]
       :: lg) m'.

(** The records logged by the first phase. *)
Definition stop_records (sds : list string) : list LogRecord :=
  (λ sd, mkLog "info" "Stop monitoring %s" [PStr sd]) <$> sds.

(** The body of the first loop of [_stopMonitors]. *)
Definition signal_one (monitor : Thread) : M Pool unit :=
  pool_log "info" "Stop monitoring %s" [PStr (sdUUID monitor)] ;;
  pool_emit (StopSignal (sdUUID monitor)).

(** The body of the second loop. *)
Definition wait_one (monitor : Thread) : M Pool unit :=
  pool_log "debug" "Waiting for monitor %s" [PStr (sdUUID monitor)] ;;
  join meanwhile monitor ;;
  try_except (del_domain (sdUUID monitor))
    (λ e, match e with KeyError _ => true | _ => false end)
    (λ _, pool_log "warning" "Montior for %s removed while stopping"
                   [PStr (sdUUID monitor)] ;;
          pool_emit (Warn (sdUUID monitor))).

End PoolVocabulary.

Section MonitorVocabulary.
Import DomainMonitor.
Context {K : Type} (storage : Storage K).

Abbreviation St := (State K).

(** A computation that raises [Canceled] leaves the stop event set. *)
Definition canceled_by_stop {A} (m : M St A) : Prop :=
  ∀ s, (m s).1 = Raise Canceled → stop_is_set storage (kern (m s).2) = true.

(** The value [_shouldAcquireHostId] computes. *)
Definition acquire_due (t : Thread) : bool :=
  not_isIsoDomain t
  && (valid (nextStatus t) && is_False (hasHostId (nextStatus t))).

(** Events of the probing phase: no event emission, no host id request or
    release, no wait. *)
Definition probing (ev : Event) : Prop :=
  match ev with
  | Emit _ _ | AcquireHostId _ _ | ReleaseHostId _ _ | Wait _ => False
  | _ => True
  end.

(** From [s] to [s']: the identity of the thread is kept, a domain handle
    and an ISO flag once set stay as they are, the error slot of
    [nextStatus] is kept, and the trace has grown by probing events. *)
Definition grows (s s' : St) : Prop :=
  sdUUID (self s') = sdUUID (self s)
  ∧ hostId (self s') = hostId (self s)
  ∧ (∀ d, domain (self s) = Some d → domain (self s') = Some d)
  ∧ (∀ b, isIsoDomain (self s) = Some b → isIsoDomain (self s') = Some b)
  ∧ error (nextStatus (self s')) = error (nextStatus (self s))
  ∧ ∃ tr, trace s' = trace s ++ tr ∧ Forall probing tr.

(** Computations every run of which [grows] the state. *)
Definition quietly {A} (m : M St A) : Prop := ∀ s, grows s (m s).2.

(** The requests for the host id, and its releases. *)
Definition is_acquire (ev : Event) : Prop :=
  match ev with AcquireHostId _ _ => True | _ => False end.

Definition is_release (ev : Event) : Prop :=
  match ev with ReleaseHostId _ _ => True | _ => False end.

(** From [s] to [s'] over any number of ticks: no host id has been released,
    and if one has been requested then the domain handle is there and the
    domain is known not to be an ISO domain. *)
Definition runs_to (s s' : St) : Prop :=
  sdUUID (self s') = sdUUID (self s)
  ∧ hostId (self s') = hostId (self s)
  ∧ (∀ d, domain (self s) = Some d → domain (self s') = Some d)
  ∧ (∀ b, isIsoDomain (self s) = Some b → isIsoDomain (self s') = Some b)
  ∧ ∃ tr, trace s' = trace s ++ tr
      ∧ (∀ ev, ev ∈ tr → ¬ is_release ev)
      ∧ ((∃ ev, ev ∈ tr ∧ is_acquire ev) →
           is_Some (domain (self s')) ∧ isIsoDomain (self s') = Some false).

(** What [_run] asks of the storage when its loop has ended. *)
Definition release_at_exit (t : Thread) : list Event :=
  match domain t with
  | Some d => if not_isIsoDomain t then [ReleaseHostId d (hostId t)] else []
  | None => []
  end.

End MonitorVocabulary.

(** ** Outcomes *)

(** Whether an outcome is a value. *)
Definition succeeded {A} (r : res A) : bool :=
  match r with Ok _ => true | Raise _ => false end.

(** ** The bond device and the scan *)

Section BondDeviceVocabulary.
Import BondMapper.

(** Setting the mode of the bond: the events and the failure, if any. *)
Inductive mode_change (name m : string) : list SysEvent → option exn → Prop :=
| mode_not_opened e :
    mode_change name m [Opened (BONDING_OPT name "mode") (Some e)] (Some e)
| mode_written o :
    mode_change name m
      [Opened (BONDING_OPT name "mode") None;
       Wrote (BONDING_OPT name "mode") m o;
       Closed (BONDING_OPT name "mode")] o.

(** Creating the bond by writing +name to the masters file and, when a mode
    is given, setting the mode: the events and the failure, if any. *)
Inductive creation (masters name : string) (mode : option string)
    : list SysEvent → option exn → Prop :=
| creation_not_opened e :
    creation masters name mode [Opened masters (Some e)] (Some e)
| creation_refused e :
    creation masters name mode
      [Opened masters None; Wrote masters ("+" +:+ name) (Some e);
       Closed masters] (Some e)
| creation_plain :
    mode = None →
    creation masters name mode
      [Opened masters None; Wrote masters ("+" +:+ name) None;
       Closed masters] None
| creation_with_mode m tr o :
    mode = Some m → mode_change name m tr o →
    creation masters name mode
      ([Opened masters None; Wrote masters ("+" +:+ name) None;
        Closed masters] ++ tr) o.

(** Removing the bond by writing -name to the masters file. *)
Inductive removal_attempt (masters name : string)
    : list SysEvent → option exn → Prop :=
| removal_not_opened e :
    removal_attempt masters name [Opened masters (Some e)] (Some e)
| removal_written o :
    removal_attempt masters name
      [Opened masters None; Wrote masters ("-" +:+ name) o; Closed masters] o.

(** The pairs (name, numeric) read back from the kernel, in order. *)
Definition read_pairs (tr : list SysEvent) : list (string * string) :=
  omap (λ ev, match ev with
              | ReadElements _ (Ok [name; numeric]) => Some (name, numeric)
              | _ => None
              end) tr.

(** Recording pairs in a dictionary, one after the other. *)
Definition record_pairs (vals : gmap string string)
    (pairs : list (string * string)) : gmap string string :=
  foldl (λ m nv, <[nv.1 := nv.2]> m) vals pairs.

End BondDeviceVocabulary.

(** ** Invariants of the domain monitor *)

Section MonitorInvariants.
Import DomainMonitor.
Context {K : Type}.

(** From [s] to [s'] the invariant [I] of the thread object holds again and
    the trace has grown by events that satisfy [P]; a computation is [along]
    [I] and [P] when each of its runs from a state with [I] is such. *)
Definition follows (I : Thread → Prop) (P : Event → Prop)
    (s s' : State K) : Prop :=
  I (self s') ∧ ∃ tr, trace s' = trace s ++ tr ∧ Forall P tr.

Definition along (I : Thread → Prop) (P : Event → Prop) {A}
    (m : M (State K) A) : Prop :=
  ∀ s, I (self s) → follows I P s (m s).2.

(** The state changes announced to the subscribers, in order. *)
Definition emitted (tr : list Event) : list (string * bool) :=
  omap (λ ev, match ev with Emit sd v => Some (sd, v) | _ => None end) tr.

(** Requests to the domain cache for the domain object, and queries of the
    domain's ISO information. *)
Definition is_produce (ev : Event) : Prop :=
  match ev with Produce _ => True | _ => False end.

Definition is_iso_query (ev : Event) : Prop :=
  match ev with IsISO _ | GetIsoDomainImagesDir _ => True | _ => False end.

(** With respect to the thread object [t0] a run started from: the domain
    is requested only if [t0] had none, its ISO information only if [t0] did
    not know it. *)
Definition deferred (t0 : Thread) (ev : Event) : Prop :=
  (is_produce ev → domain t0 = None)
  ∧ (is_iso_query ev → isIsoDomain t0 = None).

(** What [t0] had of the two is still there in [t]. *)
Definition kept (t0 t : Thread) : Prop :=
  (∀ d, domain t0 = Some d → domain t = Some d)
  ∧ (∀ b, isIsoDomain t0 = Some b → isIsoDomain t = Some b).

(** The published status and what decides the next notification are as in
    [t0]. *)
Definition unpublished (t0 t : Thread) : Prop :=
  status t = status t0 ∧ firstChange t = firstChange t0
  ∧ sdUUID t = sdUUID t0.

End MonitorInvariants.

(** Every monitor of the pool is filed under its own domain. *)
Definition pool_wf (p : DomainMonitor.Pool) : Prop :=
  ∀ k t, DomainMonitor._domains p !! k = Some t → DomainMonitor.sdUUID t = k.

(** No other caller touches the pool while this one waits for a thread. *)
Definition undisturbed (joined : string)
    (m : gmap string DomainMonitor.Thread) : gmap string DomainMonitor.Thread :=
  m.

(** The events of the second phase when every entry is still there. *)
Definition joins_and_deletes (sds : list string)
    : list DomainMonitor.PoolEvent :=
  sds ≫= λ sd, [DomainMonitor.Join sd; DomainMonitor.Del sd].

(** * Properties *)

(** Unfolding of the monad's combinators. *)
Ltac unfold_monad :=
  unfold try_except, try_finally, raise_if, lift, modify, get, raise,
         mbind, M_bind, mret, M_ret in *.

(** The bind of the monad, run on a state. *)
Lemma bind_run {W A B} (m : M W A) (f : A → M W B) (w : W) :
  (m ≫= f) w = match m w with
               | (Ok a, w1) => f a w1
               | (Raise e, w1) => (Raise e, w1)
               end.
Proof. reflexivity. Qed.

(** An outcome that succeeded is a value. *)
Lemma succeeded_ok {A} (r : res A) : succeeded r = true → ∃ a, r = Ok a.
Proof. destruct r; [eauto | discriminate]. Qed.

(** ** SR-IOV virtual functions *)

Section Numvfs.
Import NetApi.

(** C3, as the code has it: a call of [change_numvfs] that returns has
    written "0" and then the decimal count to the device's sriov_numvfs
    file, waited for udev, written the decimal count to the file
    <run-conf>/virtual_functions/<pci_path> (the file is named after the PCI
    address, not after the network interface) and, last, set the link
    [net_name] up. *)
Theorem change_numvfs_persists_under_pci_path
    {K} (host : Host K) (pci_path : string) (numvfs : Z) (net_name : string)
    (w w' : World K) :
  change_numvfs host pci_path numvfs net_name w = (Ok tt, w') →
  let f := _SYSFS_SRIOV_NUMVFS pci_path in
  let file := path_join (numvfs_dir host) pci_path in
  trace w' = trace w ++
    [SysfsWrite f "0"; SysfsWrite f (str_int numvfs);
     Sleep_half_second; UdevSettle 10;
     Makedirs (numvfs_dir host);
     FileWrite file (str_int numvfs);
     LinkSet net_name ["up"]]
  ∧ files w' !! file = Some (str_int numvfs).
Proof.
  intros H f file. destruct w as [k fs ds tr lg].
  cbv beta iota zeta delta [change_numvfs _update_numvfs _persist_numvfs
    _wait_for_udev_events os_makedirs write_file act host_outcome
    log_action logging try_except try_finally raise_if lift modify get raise
    mbind M_bind mret M_ret kern files dirs trace logs] in H.
  repeat match type of H with
  | context [perform ?h ?a ?k] =>
      let r := fresh "r" in
      let k' := fresh "k" in
      destruct (perform h a k) as [r k'] eqn:?; destruct r as [[]|?];
      cbv beta iota zeta in H; try discriminate H
  | context [decide (?x ∈ ?X)] =>
      destruct (decide (x ∈ X)); cbv beta iota zeta in H; try discriminate H
  | context [decide (EEXIST ≠ ?x)] =>
      destruct (decide (EEXIST ≠ x)); cbv beta iota zeta in H;
      try discriminate H
  | context [match ?e with ConfigNetworkError _ _ => _ | _ => _ end] =>
      destruct e; cbv beta iota zeta in H; try discriminate H
  end.
  all: try congruence.
  all: injection H as <-; cbv beta iota zeta delta [trace files]; split;
    [ rewrite <- ?app_assoc; reflexivity | apply lookup_insert_eq ].
Qed.

Lemma change_numvfs_persists_under_pci_path_witness :
  let w' := (change_numvfs (quiet_host true) "0000:00:19.0" 4 "eth0"
                           empty_world).2 in
  trace w' =
    [SysfsWrite "/sys/bus/pci/devices/0000:00:19.0/sriov_numvfs" "0";
     SysfsWrite "/sys/bus/pci/devices/0000:00:19.0/sriov_numvfs" "4";
     Sleep_half_second; UdevSettle 10;
     Makedirs "/var/run/vdsm/netconf/virtual_functions";
     FileWrite "/var/run/vdsm/netconf/virtual_functions/0000:00:19.0" "4";
     LinkSet "eth0" ["up"]]
  ∧ files w' !! "/var/run/vdsm/netconf/virtual_functions/0000:00:19.0"
    = Some "4".
Proof.
  intro w'.
  apply (change_numvfs_persists_under_pci_path (quiet_host true)
           "0000:00:19.0" 4 "eth0" empty_world w').
  vm_compute. reflexivity.
Defined.

(** C3, scenario S5 as the spec words it, fails: after
    change_numvfs("0000:00:19.0", 4, "eth0") on a host with no persisted
    counts, no file <run-conf>/virtual_functions/eth0 holds "4"; the count
    is in <run-conf>/virtual_functions/0000:00:19.0. *)
Lemma change_numvfs_S5_file_is_not_eth0 :
  let host := quiet_host true in
  let w' := (change_numvfs host "0000:00:19.0" 4 "eth0" empty_world).2 in
  ¬ (files w' !! path_join (numvfs_dir host) "eth0" = Some "4")
  ∧ files w' !! path_join (numvfs_dir host) "eth0" = None
  ∧ files w' !! path_join (numvfs_dir host) "0000:00:19.0" = Some "4".
Proof. vm_compute. repeat split; congruence. Qed.

End Numvfs.

(** ** Validation and classification of bondings *)

Section Bondings.
Import NetApi.

(** One step of the classification loop. *)
Lemma classification_step (ni : NetInfo) (bonds : list (string * attrs))
    (acc : gset string * gmap string attrs * gmap string attrs) :
  let res := foldl (λ '(remove, edit, add) '(name, attrs),
           if bool_decide ("remove" ∈ dom attrs) then
             ({[name]} ∪ remove, edit, add)
           else if bool_decide (name ∈ dom (bondings ni)) then
             (remove, <[name := attrs]> edit, add)
           else
             (remove, edit, <[name := attrs]> add)) acc bonds in
  (∀ n, (n ∈ acc.1.1 ∨ ∃ a, (n, a) ∈ bonds ∧ "remove" ∈ dom a) → n ∈ res.1.1)
  ∧ (∀ n, (∀ a, (n, a) ∈ bonds → "remove" ∈ dom a) →
          res.1.2 !! n = acc.1.2 !! n ∧ res.2 !! n = acc.2 !! n).
Proof.
  revert acc. induction bonds as [|[name a] bonds IH]; intros [[r e] ad]; simpl.
  - split; [intros n [H|(a & H & _)]; [done | by apply elem_of_nil in H] | done].
  - match goal with |- context [foldl _ ?acc' bonds] =>
      specialize (IH acc') end.
    destruct IH as [IH1 IH2]. split.
    + intros n [H|(a' & H & Hr)].
      * apply IH1. left. repeat case_bool_decide; simpl; set_solver.
      * apply elem_of_cons in H as [H|H].
        -- injection H as -> ->. apply IH1. left.
           rewrite bool_decide_eq_true_2 by done. simpl. set_solver.
        -- apply IH1. right. eauto.
    + intros n Hn.
      destruct (IH2 n) as [E1 E2].
      { intros a' Ha'. apply Hn. by right. }
      rewrite E1, E2.
      destruct (decide (n = name)) as [->|Hne].
      * rewrite bool_decide_eq_true_2 by (apply Hn; left). done.
      * repeat case_bool_decide; simpl; by rewrite ?lookup_insert_ne.
Qed.

End Bondings.

Section Validation.
Import NetApi.
Context {K : Type} (host : Host K).

Lemma for_each_app {W A} (l1 l2 : list A) (f : A → M W unit) (w : W) :
  for_each (l1 ++ l2) f w = (for_each l1 f ;; for_each l2 f) w.
Proof.
  revert w. induction l1 as [|x l1 IH]; intros w; simpl.
  - reflexivity.
  - unfold mbind, M_bind in *.
    destruct (f x w) as [[[]|e] w1]; [apply IH | done].
Qed.

Lemma for_each_middle {W A} (l1 l2 : list A) (x x' : A) (f : A → M W unit) :
  (∀ w, f x' w = f x w) →
  ∀ w, for_each (l1 ++ x' :: l2) f w = for_each (l1 ++ x :: l2) f w.
Proof.
  intros Hx. induction l1 as [|y l1 IH]; intros w; simpl;
    unfold mbind, M_bind.
  - by rewrite Hx.
  - destruct (f y w) as [[[]|e] w1]; [apply IH | done].
Qed.

(** A loop whose body leaves the world alone leaves it alone, and when it
    completes every iteration has completed. *)
Lemma for_each_pure {W A} (l : list A) (f : A → M W unit) w r w' :
  (∀ x w r w', f x w = (r, w') → w' = w) →
  for_each l f w = (r, w') →
  w' = w ∧ (r = Ok tt → ∀ x, x ∈ l → f x w = (Ok tt, w)).
Proof.
  intros Hf. revert w. induction l as [|x l IH]; intros w; simpl.
  - unfold mret, M_ret. intros [= <- <-]. split; [done|].
    intros _ x Hx. by apply elem_of_nil in Hx.
  - unfold mbind, M_bind. destruct (f x w) as [[[]|e] w1] eqn:E; intros H.
    + pose proof (Hf _ _ _ _ E) as ->.
      apply IH in H as [-> H]. split; [done|].
      intros Hr y Hy. apply elem_of_cons in Hy as [->|Hy]; auto.
    + pose proof (Hf _ _ _ _ E) as ->. injection H as <- <-.
      split; [done | discriminate].
Qed.

Lemma pure_ret {W A} (a : A) : pure_comp (mret a : M W A).
Proof. done. Qed.

Lemma pure_raise {W A} (e : exn) : pure_comp (raise e : M W A).
Proof. done. Qed.

Lemma pure_lift {W A} (r : res A) : pure_comp (lift r : M W A).
Proof. done. Qed.

Lemma pure_raise_if {W} (o : option exn) : pure_comp (raise_if o : M W unit).
Proof. by destruct o. Qed.

Lemma pure_bind {W A B} (m : M W A) (f : A → M W B) :
  pure_comp m → (∀ a, pure_comp (f a)) → pure_comp (m ≫= f).
Proof.
  intros Hm Hf w. unfold mbind, M_bind. specialize (Hm w).
  destruct (m w) as [[a|e] w1]; simpl in *; subst; [apply Hf | done].
Qed.

Lemma pure_comp_eq {W A} (m : M W A) w r w' :
  pure_comp m → m w = (r, w') → w' = w.
Proof. intros H E. specialize (H w). by rewrite E in H. Qed.

Ltac solve_pure :=
  repeat first
    [ apply pure_ret | apply pure_raise | apply pure_lift | apply pure_raise_if
    | apply pure_bind; [|intros ?]
    | match goal with
      | |- pure_comp (match ?x with _ => _ end) => destruct x
      | |- pure_comp (if ?x then _ else _) => destruct x
      end ].

Lemma validate_bonding_pure s b : pure_comp (validate_bonding host s b).
Proof. destruct b as [n a]. unfold validate_bonding. solve_pure. Qed.

Lemma validate_network_pure b : pure_comp (validate_network host b).
Proof.
  destruct b as [n a]. unfold validate_network, _validate_network_remove.
  solve_pure.
Qed.

(** C9.  A requested bonding whose attributes contain the key 'remove' is
    classified as a removal by [_bonds_classification], whatever the value of
    the key, and is neither edited nor added.  [_validateNetworkSetup]
    however looks at the value: when it is truthy the 'nics' of the bonding
    play no part in the validation; when it is falsy (remove=False) a
    setup that passes validation has given the bonding a non-empty list of
    'nics', all of them nics of the host, as for a bonding that stays. *)
Theorem bonding_remove_key_is_a_removal
    (ni : NetInfo) (networks l1 l2 : list (string * attrs))
    (name : string) (a : attrs) :
  let bondings := l1 ++ (name, a) :: l2 in
  NoDup bondings.*1 →
  "remove" ∈ dom a →
  let c := _bonds_classification bondings ni in
  (name ∈ c.1.1 ∧ c.1.2 !! name = None ∧ c.2 !! name = None)
  ∧ (truthy (default (PBool false) (a !! "remove")) = true →
     ∀ (a' : attrs) (w : World K),
       (∀ k, k ≠ "nics" → a' !! k = a !! k) →
       _validateNetworkSetup host networks (l1 ++ (name, a') :: l2) w
       = _validateNetworkSetup host networks bondings w)
  ∧ (truthy (default (PBool false) (a !! "remove")) = false →
     ∀ (w w' : World K),
       _validateNetworkSetup host networks bondings w = (Ok tt, w') →
       truthy (default PNone (a !! "nics")) = true
       ∧ ∃ l, py_set (default PNone (a !! "nics")) = Ok l
              ∧ ∀ n, n ∈ l → n ∈ netinfo_nics host (kern w)).
Proof.
  intros bondings Hnd Hrem c. split; [|split].
  - destruct (classification_step ni bondings (∅, ∅, ∅)) as [H1 H2].
    fold (_bonds_classification bondings ni) in H1, H2. fold c in H1, H2.
    split.
    + apply H1. right. exists a. split; [|done].
      unfold bondings. set_solver.
    + destruct (H2 name) as [E1 E2]; [|by rewrite E1, E2].
      intros a0 Ha0.
      assert (a0 = a) as ->; [|done].
      unfold bondings in Hnd, Ha0. rewrite fmap_app, fmap_cons in Hnd.
      apply NoDup_app in Hnd as (_ & Hd1 & Hnd).
      apply NoDup_cons in Hnd as [Hd2 _]. simpl in *.
      apply elem_of_app in Ha0 as [Ha0|Ha0].
      * exfalso. apply (Hd1 name); [|left].
        apply list_elem_of_fmap. by exists (name, a0).
      * apply elem_of_cons in Ha0 as [[= ->]|Ha0]; [done|].
        exfalso. apply Hd2. apply list_elem_of_fmap. by exists (name, a0).
  - intros Ht a' w Hagree. unfold _validateNetworkSetup, bondings.
    unfold mbind, M_bind, ask.
    destruct (for_each networks (validate_network host) w) as [[[]|e] w1];
      [|done].
    apply for_each_middle. intros w2.
    unfold validate_bonding.
    rewrite !(Hagree "options"), !(Hagree "remove") by done.
    rewrite Ht. reflexivity.
  - intros Hf w w' Hv. unfold _validateNetworkSetup in Hv.
    unfold mbind at 1, M_bind in Hv.
    destruct (for_each networks (validate_network host) w) as [[[]|e] w1] eqn:E1;
      [|done].
    apply for_each_pure in E1 as [-> _];
      [|intros; eapply pure_comp_eq; [apply validate_network_pure|done]].
    unfold mbind at 1, M_bind, ask in Hv.
    apply for_each_pure in Hv as [_ Hv];
      [|intros; eapply pure_comp_eq; [apply validate_bonding_pure|done]].
    assert ((name, a) ∈ bondings) as Hin by (unfold bondings; set_solver).
    apply (Hv eq_refl) in Hin. clear Hv.
    unfold validate_bonding in Hin. rewrite Hf in Hin.
    cbv beta iota zeta delta [raise_if lift raise mbind M_bind mret M_ret]
      in Hin.
    destruct (Bond_validateName host name); [done|].
    destruct (a !! "options") as [o|];
      [destruct (Bond_validateOptions host o); [done|] |];
      cbv beta iota in Hin;
      (destruct (truthy (default PNone (a !! "nics"))); simpl in Hin; [|done];
       split; [done|];
       destruct (py_set (default PNone (a !! "nics"))) as [l|]; [|done];
       exists l; split; [done|];
       case_bool_decide as Hsub; [|done];
       intros n Hn; apply (elem_of_list_to_set (C:=gset string));
       apply Hsub; by apply elem_of_list_to_set).
Qed.

End Validation.

Section ValidationRuns.
Import NetApi.

Lemma bonding_remove_key_is_a_removal_witness :
  let a : attrs := {[ "remove" := PBool false; "nics" := PList ["eth1"; "eth2"] ]} in
  let c := _bonds_classification [("bond0", a)] sample_netinfo in
  ("bond0" ∈ c.1.1 ∧ c.1.2 !! "bond0" = None ∧ c.2 !! "bond0" = None)
  ∧ (truthy (default (PBool false) (a !! "remove")) = true →
     ∀ (a' : attrs) (w : World unit),
       (∀ k, k ≠ "nics" → a' !! k = a !! k) →
       _validateNetworkSetup (quiet_host true) [] [("bond0", a')] w
       = _validateNetworkSetup (quiet_host true) [] [("bond0", a)] w)
  ∧ (truthy (default (PBool false) (a !! "remove")) = false →
     ∀ (w w' : World unit),
       _validateNetworkSetup (quiet_host true) [] [("bond0", a)] w = (Ok tt, w') →
       truthy (default PNone (a !! "nics")) = true
       ∧ ∃ l, py_set (default PNone (a !! "nics")) = Ok l
              ∧ ∀ n, n ∈ l → n ∈ netinfo_nics (quiet_host true) (kern w)).
Proof.
  intros a.
  apply (bonding_remove_key_is_a_removal (quiet_host true) sample_netinfo
           [] [] [] "bond0" a).
  - vm_compute. apply NoDup_cons. split; [apply not_elem_of_nil | apply NoDup_nil_2].
  - apply elem_of_dom. exists (PBool false). vm_compute. reflexivity.
Defined.

(** A request {"bond0": {"remove": False, "nics": ["eth1", "eth2"]}} passes
    the validation, which checks its nics, and is then classified as a
    removal. *)
Example bonding_remove_False_run :
  let a : attrs := {[ "remove" := PBool false; "nics" := PList ["eth1"; "eth2"] ]} in
  (_validateNetworkSetup (quiet_host true) [] [("bond0", a)] empty_world).1 = Ok tt
  ∧ (_validateNetworkSetup (quiet_host true) [] [("bond0", delete "nics" a)]
       empty_world).1
    = Raise (ConfigNetworkError ERR_BAD_PARAMS "Must specify nics for bonding")
  ∧ elements (_bonds_classification [("bond0", a)] sample_netinfo).1.1 = ["bond0"].
Proof. vm_compute. done. Qed.

End ValidationRuns.

(** ** Removing and adding one network *)

Section NetworkOps.
Import NetApi.
Context {K : Type} (host : Host K).

#[local] Abbreviation silent := (silent (K:=K)).
#[local] Abbreviation recorded := (recorded host).

Lemma silent_ret {A} (a : A) : silent (mret a).
Proof. done. Qed.
Lemma silent_raise {A} (e : exn) : silent (raise e : M _ A).
Proof. done. Qed.
Lemma silent_lift {A} (r : res A) : silent (lift r).
Proof. done. Qed.
Lemma silent_raise_if (o : option exn) : silent (raise_if o).
Proof. by destruct o. Qed.
Lemma silent_ask {A} (f : K → A) : silent (ask f).
Proof. done. Qed.
Lemma silent_logging l f a d : silent (logging l f a d).
Proof. done. Qed.

Lemma silent_bind {A B} (m : M (World K) A) (f : A → M (World K) B) :
  silent m → (∀ a, silent (f a)) → silent (m ≫= f).
Proof.
  intros Hm Hf w. rewrite bind_run. specialize (Hm w).
  destruct (m w) as [[a|e] w1]; simpl in *; [|done].
  destruct (Hf a w1) as (F1 & F2 & F3 & F4), Hm as (E1 & E2 & E3 & E4).
  rewrite F1, F2, F3, F4. done.
Qed.

Lemma silent_try_except {A} (m : M (World K) A) c h :
  silent m → (∀ e, silent (h e)) → silent (try_except m c h).
Proof.
  intros Hm Hh w. unfold try_except. specialize (Hm w).
  destruct (m w) as [[a|e] w1]; simpl in *; [done|].
  destruct (c e); [|done].
  destruct (Hh e w1) as (F1 & F2 & F3 & F4), Hm as (E1 & E2 & E3 & E4).
  rewrite F1, F2, F3, F4. done.
Qed.

Ltac solve_silent :=
  repeat first
    [ apply silent_ret | apply silent_raise | apply silent_lift
    | apply silent_raise_if | apply silent_ask | apply silent_logging
    | apply silent_bind; [|intros ?]
    | apply silent_try_except; [|intros ?]
    | match goal with
      | |- silent (match ?x with _ => _ end) => destruct x
      | |- silent (if ?x then _ else _) => destruct x
      | |- silent (let '(_, _) := ?x in _) => destruct x
      end ].

Lemma silent_objectivizeNetwork a : silent (_objectivizeNetwork host a).
Proof.
  unfold _objectivizeNetwork, Bond_objectivize, Nic_new, Vlan_new, Bridge_new,
    IPv4_new, IPv6_new, _inherit_dhcp_unique_identifier.
  solve_silent.
Qed.

Lemma silent_validateDelNetwork n v b nics c ni :
  silent (_validateDelNetwork host n v b nics c ni).
Proof. unfold _validateDelNetwork, _assertBridgeClean. solve_silent. Qed.

Lemma silent_set_bootproto d bp : silent (set_bootproto d bp).
Proof. unfold set_bootproto. solve_silent. Qed.

Lemma silent_validateInterNetworkCompatibility ni v i :
  silent (_validateInterNetworkCompatibility host ni v i).
Proof. unfold _validateInterNetworkCompatibility. solve_silent. Qed.

(** An action extends the trace by itself, whatever its outcome. *)
Lemma act_run (a : Action) (w : World K) :
  ∃ r k', act host a w
          = (r, mkWorld k' (files w) (dirs w) (trace w ++ [a]) (logs w)).
Proof.
  unfold act, log_action, host_outcome, modify. rewrite bind_run. simpl.
  destruct (perform host a (kern w)) as [r k']. eauto.
Qed.

Ltac solve_silent' :=
  repeat first
    [ apply silent_objectivizeNetwork | apply silent_validateDelNetwork
    | apply silent_set_bootproto
    | apply silent_validateInterNetworkCompatibility
    | apply silent_ret | apply silent_raise | apply silent_lift
    | apply silent_raise_if | apply silent_ask | apply silent_logging
    | apply silent_bind; [|intros ?]
    | apply silent_try_except; [|intros ?]
    | match goal with
      | |- silent (match ?x with _ => _ end) => destruct x
      | |- silent (if ?x then _ else _) => destruct x
      end ].

(** One step of a run: the first computation of a bind is silent. *)
Ltac silent_step H :=
  rewrite bind_run in H;
  match type of H with
  | match ?m ?w with _ => _ end = _ =>
      let E := fresh "E" in
      let S := fresh "S" in
      let w1 := fresh "w" in
      let x := fresh "x" in
      assert (silent m) as S by solve_silent';
      specialize (S w);
      destruct (m w) as [[x|?] w1] eqn:E;
      cbn [fst snd] in S; destruct S as (? & ? & ? & S);
      [| injection H as <- <- ]
  end.

(** One step of a run: the first computation of a bind is an action. *)
Ltac act_step H :=
  rewrite bind_run in H;
  match type of H with
  | match act ?h ?a ?w with _ => _ end = _ =>
      let E := fresh "E" in
      let r := fresh "r" in
      let k := fresh "k" in
      destruct (act_run a w) as (r & k & E);
      rewrite E in H; clear E; destruct r as [[]|?];
      [| injection H as <- <- ]
  end.

Lemma disconnect_shape network (c : bool) (net_ent : NetDevice)
    (w : World K) :
  let m : M (World K) (option NetDevice) :=
    if c then
      lift (dev_port net_ent)
      ≫= λ port : option NetDevice,
           match port with
           | Some p => _disconnect_bridge_port host (dev_name p)
           | None => mret ()
           end ≫= λ _ : (), mret port
    else mret (Some net_ent) in
  ∃ pre, trace (m w).2 = trace w ++ pre ∧ Forall (preparation network) pre.
Proof.
  intros m. destruct (m w) as [r w'] eqn:H. subst m. cbn [snd].
  destruct c.
  - silent_step H; [|exists []; by rewrite app_nil_r, S].
    destruct x as [p|].
    + unfold _disconnect_bridge_port in H. rewrite bind_run in H.
      destruct (act_run (LinkSet (dev_name p) ["nomaster"]) w0)
        as (r0 & k & Ea).
      rewrite Ea in H. exists [LinkSet (dev_name p) ["nomaster"]].
      split; [|apply Forall_cons; split; [right; eauto | constructor]].
      destruct r0 as [[]|?]; injection H as <- <-; simpl; by rewrite S.
    + injection H as <- <-. exists []. by rewrite app_nil_r, S.
  - injection H as <- <-. exists []. by rewrite app_nil_r.
Qed.

Lemma removal_shape network (net_ent_to_remove : option NetDevice)
    (net_ent : NetDevice) (w : World K) :
  let m : M (World K) unit :=
    act host (RemoveLibvirtNetwork network)
    ≫= λ _ : (),
         match net_ent_to_remove with
         | Some d =>
             logging "info" "Removing network entity %s"
               [PStr (dev_name d)] None
             ≫= λ _ : (), act host (Device_remove d)
         | None => mret ()
         end
         ≫= λ _ : (),
              match hierarchy_backing_device host net_ent with
              | Some b =>
                  ask (path_exists host (NET_PATH host +:+ "/" +:+ dev_name b))
                  ≫= λ present : bool,
                       if present then act host (RemoveQoS net_ent)
                       else mret ()
              | None => mret ()
              end in
  ∃ post, trace (m w).2 = trace w ++ post ∧ removal_sequence network post.
Proof.
  intros m. destruct (m w) as [r w'] eqn:H. subst m. cbn [snd].
  act_step H; [|eexists; split; [reflexivity | constructor]].
  rewrite bind_run in H.
  destruct net_ent_to_remove as [d|].
  - rewrite bind_run in H. cbn [logging modify] in H.
    destruct (act_run (Device_remove d)
                {| kern := k; files := files w; dirs := dirs w;
                   trace := trace w ++ [RemoveLibvirtNetwork network];
                   logs := logs w ++ [mkLog "info" "Removing network entity %s"
                                        [PStr (dev_name d)] None] |})
      as (r0 & k0 & E).
    unfold logging, modify in H. cbn [kern files dirs trace logs] in *.
    rewrite E in H. clear E. cbn [trace] in H.
    destruct r0 as [[]|?].
    + destruct (hierarchy_backing_device host net_ent) as [b|].
      * rewrite bind_run in H. unfold ask in H. cbn [kern] in H.
        destruct (path_exists host _ k0).
        -- match type of H with act _ ?a ?w0 = _ =>
             destruct (act_run a w0) as (r1 & k1 & E) end.
           rewrite E in H. injection H as <- <-. cbn [trace].
           eexists. split; [by rewrite <- !app_assoc | constructor].
        -- injection H as <- <-. cbn [trace].
           eexists. split; [by rewrite <- !app_assoc | constructor].
      * injection H as <- <-. cbn [trace].
        eexists. split; [by rewrite <- !app_assoc | constructor].
    + injection H as <- <-. cbn [trace].
      eexists. split; [by rewrite <- !app_assoc | constructor].
  - cbv beta iota zeta delta [mret M_ret] in H.
    destruct (hierarchy_backing_device host net_ent) as [b|].
    + rewrite bind_run in H. unfold ask in H. cbn [kern] in H.
      destruct (path_exists host _ k).
      * match type of H with act _ ?a ?w0 = _ =>
          destruct (act_run a w0) as (r1 & k1 & E) end.
        rewrite E in H. injection H as <- <-. cbn [trace].
        eexists. split; [by rewrite <- !app_assoc | constructor].
      * injection H as <- <-. cbn [trace].
        eexists. split; [reflexivity | constructor].
    + injection H as <- <-. cbn [trace].
      eexists. split; [reflexivity | constructor].
Qed.

Lemma delNetwork_body_shape network kw (w : World K) :
  ∃ pre post,
    trace (_delNetwork_body host network kw w).2 = trace w ++ pre ++ post
    ∧ Forall (preparation network) pre
    ∧ removal_sequence network post.
Proof.
  destruct (_delNetwork_body host network kw w) as [r w'] eqn:H.
  unfold _delNetwork_body in H. cbn [snd].
  assert (∀ w1 : World K, trace w1 = trace w →
            ∃ pre post, trace w1 = trace w ++ pre ++ post
                        ∧ Forall (preparation network) pre
                        ∧ removal_sequence network post) as Hquiet.
  { intros w1 ->. exists [], []. rewrite !app_nil_r.
    split; [done|]. split; constructor. }
  silent_step H; [|by apply Hquiet].
  silent_step H; [|by (apply Hquiet; congruence)].
  destruct x0 as [[[nics vlan] vlan_id] bonding].
  silent_step H; [|by (apply Hquiet; congruence)].
  silent_step H; [|by (apply Hquiet; congruence)].
  silent_step H; [|by (apply Hquiet; congruence)].
  silent_step H; [|by (apply Hquiet; congruence)].
  silent_step H; [|by (apply Hquiet; congruence)].
  rewrite bind_run in H.
  match type of H with
  | match (if ?c then ?m1 else ?m2) w6 with _ => _ end = _ =>
      destruct (disconnect_shape network c x4 w6) as (pre & Hpre & Hprep);
      cbv zeta in Hpre;
      destruct ((if c then m1 else m2) w6) as [[o|e] w7] eqn:E6;
      cbn [snd] in Hpre
  end.
  - match type of H with ?m w7 = _ =>
      destruct (removal_shape network o x4 w7) as (post & Hpost & Hseq) end.
    rewrite H in Hpost. cbn [snd] in Hpost.
    exists pre, post. split; [|done].
    rewrite Hpost, Hpre, <- app_assoc. congruence.
  - injection H as <- <-. exists pre, []. rewrite app_nil_r.
    split; [congruence|]. split; [done | constructor].
Qed.

(** C1.  Whatever [_delNetwork] is called with and however the host reacts,
    the actions it adds to the trace are: possibly the removal of the running
    config entry and the disconnection of the bridge port; then the removal
    of the libvirt network; then the removal of the network entity; then the
    removal of the QoS, each of the last three only if the ones before it
    have succeeded.  So on every call that removes a device the libvirt
    network has been removed just before it, and the only action that may
    follow the removal of the device is the removal of the QoS, which is
    then the last one. *)
Theorem delNetwork_removal_order network kw (w : World K) :
  ∃ pre post,
    trace (_delNetwork host network kw w).2 = trace w ++ pre ++ post
    ∧ Forall (preparation network) pre
    ∧ removal_sequence network post
    ∧ ∀ d, Device_remove d ∈ pre ++ post →
           ∃ rest, post = [RemoveLibvirtNetwork network; Device_remove d] ++ rest
                   ∧ (rest = [] ∨ ∃ top, rest = [RemoveQoS top]).
Proof.
  assert (∃ pre post,
    trace (_delNetwork host network kw w).2 = trace w ++ pre ++ post
    ∧ Forall (preparation network) pre
    ∧ removal_sequence network post) as (pre & post & Htr & Hpre & Hpost).
  { unfold _delNetwork, _alterRunningConfig.
    destruct (net_persistence_unified host).
    - cbn [String.eqb Ascii.eqb Bool.eqb].
      rewrite bind_run.
      destruct (act_run (RunningConfig_removeNetwork network) w)
        as (r & k & E).
      rewrite E. destruct r as [[]|e].
      + match goal with |- context [_delNetwork_body host network kw ?w1] =>
          destruct (delNetwork_body_shape network kw w1)
            as (pre & post & Htr & Hpre & Hpost) end.
        cbn [trace] in Htr.
        exists (RunningConfig_removeNetwork network :: pre), post.
        rewrite Htr. split; [by rewrite <- !app_assoc|].
        split; [|done]. apply Forall_cons. split; [by left | done].
      + exists [RunningConfig_removeNetwork network], [].
        cbn [snd trace]. rewrite app_nil_r. split; [done|].
        split; [|constructor].
        apply Forall_cons. split; [by left | constructor].
    - rewrite bind_run. cbv beta iota delta [mret M_ret].
      apply delNetwork_body_shape. }
  exists pre, post. do 3 (split; [done|]).
  intros d Hd. apply elem_of_app in Hd as [Hd|Hd].
  - rewrite Forall_forall in Hpre. apply Hpre in Hd as [Hd|[p Hd]]; discriminate.
  - destruct Hpost; set_solver.
Qed.

(** C10.  Two calls of [_delNetwork] that differ at most in the [vlan] and
    [bonding] keyword arguments have the same outcome: result, host, files,
    trace and log. *)
Theorem delNetwork_ignores_vlan_and_bonding network kw1 kw2 (w : World K) :
  kw_netinfo kw1 = kw_netinfo kw2 →
  (∀ k, k ≠ "vlan" → k ≠ "bonding" → kw_attrs kw1 !! k = kw_attrs kw2 !! k) →
  _delNetwork host network kw1 w = _delNetwork host network kw2 w.
Proof.
  intros Hni Hattrs.
  assert (∀ k d, k ≠ "vlan" → k ≠ "bonding" → kwget kw1 k d = kwget kw2 k d)
    as Hget by (intros; unfold kwget; by rewrite Hattrs).
  assert (rest_kwargs ["vlan"; "bonding"; "bypassValidation";
                       "implicitBonding"; "keep_bridge"] kw1
          = rest_kwargs ["vlan"; "bonding"; "bypassValidation";
                         "implicitBonding"; "keep_bridge"] kw2) as Hrest.
  { unfold rest_kwargs. apply map_eq. intros k.
    rewrite !map_lookup_filter.
    destruct (decide (k = "vlan")) as [->|?];
      [|destruct (decide (k = "bonding")) as [->|?]].
    - destruct (kw_attrs kw1 !! "vlan"), (kw_attrs kw2 !! "vlan"); simpl;
        try done; rewrite !option_guard_False; set_solver.
    - destruct (kw_attrs kw1 !! "bonding"), (kw_attrs kw2 !! "bonding");
        simpl; try done; rewrite !option_guard_False; set_solver.
    - by rewrite Hattrs. }
  unfold _delNetwork, _alterRunningConfig. rewrite !bind_run.
  destruct (_ w) as [[[]|e] w1]; [|done].
  unfold _delNetwork_body. cbv zeta.
  rewrite Hni, Hrest, !(Hget "bypassValidation"), !(Hget "implicitBonding"),
    !(Hget "keep_bridge") by done.
  reflexivity.
Qed.

Lemma addNetwork_wrapper network kw (w : World K) :
  (net_persistence_unified host = true →
   (perform host (RunningConfig_setNetwork network (kw_attrs kw)) (kern w)).1
   = Ok tt) →
  ∃ w1, trace w1 = trace w ++ recorded network kw
        ∧ _addNetwork host network kw w = _addNetwork_body host network kw w1.
Proof.
  intros Hrec. unfold _addNetwork, _alterRunningConfig, recorded.
  rewrite bind_run.
  destruct (net_persistence_unified host).
  - cbn [String.eqb Ascii.eqb Bool.eqb].
    unfold act, log_action, host_outcome, modify. rewrite bind_run.
    cbn [kern files dirs trace logs].
    specialize (Hrec eq_refl).
    destruct (perform host _ (kern w)) as [r k]. cbn [fst] in Hrec. subst r.
    eexists. split; [|reflexivity]. reflexivity.
  - exists w. by rewrite app_nil_r.
Qed.

(** C7, as the code has it.  Provided the wrapper's recording of the request
    in the running config (done first, under unified persistence only) has
    succeeded: an empty network name is rejected (BAD_BRIDGE); prefix and
    netmask both supplied are rejected with BAD_PARAMS; a prefix that
    [int()] or [prefix2netmask] rejects with a ValueError is rejected with
    BAD_ADDR; in each case no action has been performed besides that
    recording.  A prefix given alone and accepted is converted: the call
    proceeds as the call with the netmask in its place. *)
Theorem addNetwork_argument_checks network kw (w : World K) :
  (net_persistence_unified host = true →
   (perform host (RunningConfig_setNetwork network (kw_attrs kw)) (kern w)).1
   = Ok tt) →
  let prefix := kwget kw "prefix" PNone in
  let netmask := kwget kw "netmask" PNone in
  let run := _addNetwork host network kw w in
  (network = "" →
     run.1 = Raise (ConfigNetworkError ERR_BAD_BRIDGE
                      "Empty network names are not valid")
     ∧ trace run.2 = trace w ++ recorded network kw)
  ∧ (network ≠ "" → truthy prefix = true → truthy netmask = true →
     run.1 = Raise (ConfigNetworkError ERR_BAD_PARAMS
                      "Both PREFIX and NETMASK supplied")
     ∧ trace run.2 = trace w ++ recorded network kw)
  ∧ (network ≠ "" → truthy prefix = true → truthy netmask = false →
     ∀ msg,
       (py_int prefix = Raise (ValueError msg)
        ∨ ∃ n, py_int prefix = Ok n
               ∧ prefix2netmask host n = Raise (ValueError msg)) →
       run.1 = Raise (ConfigNetworkError ERR_BAD_ADDR ("Bad prefix: " +:+ msg))
       ∧ trace run.2 = trace w ++ recorded network kw)
  ∧ (network ≠ "" → truthy prefix = true → truthy netmask = false →
     ∀ n m, py_int prefix = Ok n → prefix2netmask host n = Ok m →
       ∀ w1, _addNetwork_body host network kw w1
             = _addNetwork_body host network (with_netmask m kw) w1).
Proof.
  intros Hrec prefix netmask run.
  destruct (addNetwork_wrapper network kw w Hrec) as (w0 & Htr & Hrun).
  subst run. rewrite Hrun. clear Hrun Hrec. rewrite <- Htr. clear Htr.
  assert (∀ w1, ∃ ni, (match kw_netinfo kw with
                       | Some ni => mret ni
                       | None => ask (CachingNetInfo host)
                       end : M (World K) NetInfo) w1 = (Ok ni, w1)) as Hni.
  { intros w1. destruct (kw_netinfo kw); eexists; reflexivity. }
  split; [|split; [|split]].
  - intros ->. unfold _addNetwork_body. cbv zeta. rewrite bind_run.
    destruct (Hni w0) as (ni & ->). split; reflexivity.
  - intros H H0 H1. unfold _addNetwork_body. cbv zeta. rewrite bind_run.
    destruct (Hni w0) as (ni & ->).
    rewrite bind_run. apply String.eqb_neq in H. rewrite H.
    cbv beta iota delta [mret M_ret]. rewrite bind_run.
    fold prefix. fold netmask. rewrite H0, H1. split; reflexivity.
  - intros H H0 H1 msg H2.
    unfold _addNetwork_body. cbv zeta. rewrite bind_run.
    destruct (Hni w0) as (ni & ->).
    rewrite bind_run. apply String.eqb_neq in H. rewrite H.
    cbv beta iota delta [mret M_ret]. rewrite bind_run.
    fold prefix. fold netmask. rewrite H0, H1.
    unfold try_except. rewrite bind_run. unfold lift.
    destruct H2 as [-> | (n & -> & Hp)]; [split; reflexivity|].
    rewrite bind_run. rewrite Hp. split; reflexivity.
  - intros H H0 H1 n m H2 H3 w1.
    assert (∀ k d, k ≠ "netmask" → k ≠ "prefix" →
              kwget (with_netmask m kw) k d = kwget kw k d) as Hget.
    { intros k d ? ?. unfold kwget, with_netmask. cbn [kw_attrs].
      by rewrite lookup_insert_ne, lookup_delete_ne. }
    assert (kwget (with_netmask m kw) "prefix" PNone = PNone) as Hp.
    { unfold kwget, with_netmask. cbn [kw_attrs].
      by rewrite lookup_insert_ne, lookup_delete_eq. }
    assert (kwget (with_netmask m kw) "netmask" PNone = PStr m) as Hm.
    { unfold kwget, with_netmask. cbn [kw_attrs].
      by rewrite lookup_insert_eq. }
    assert (rest_kwargs _addNetwork_named (with_netmask m kw)
            = rest_kwargs _addNetwork_named kw) as Hrest.
    { unfold rest_kwargs, with_netmask. cbn [kw_attrs]. apply map_eq. intros k.
      rewrite !map_lookup_filter.
      destruct (decide (k = "netmask")) as [->|?];
        [|destruct (decide (k = "prefix")) as [->|?]].
      - rewrite lookup_insert_eq.
        destruct (kw_attrs kw !! "netmask"); simpl; try done;
          rewrite !option_guard_False; try done;
          unfold _addNetwork_named; set_solver.
      - rewrite lookup_insert_ne, lookup_delete_eq by done.
        destruct (kw_attrs kw !! "prefix"); simpl; try done;
          rewrite !option_guard_False; try done;
          unfold _addNetwork_named; set_solver.
      - by rewrite lookup_insert_ne, lookup_delete_ne. }
    unfold _addNetwork_body. cbv zeta.
    rewrite Hrest, Hp, Hm, !Hget by done.
    change (kw_netinfo (with_netmask m kw)) with (kw_netinfo kw).
    rewrite !bind_run. destruct (Hni w1) as (ni & ->).
    rewrite !bind_run. apply String.eqb_neq in H. rewrite H.
    cbv beta iota delta [mret M_ret]. rewrite !bind_run.
    fold prefix. fold netmask. rewrite H0, H1.
    unfold try_except. rewrite !bind_run. unfold lift. rewrite H2.
    rewrite !bind_run. rewrite H3. reflexivity.
Qed.

End NetworkOps.

Section NetworkRuns.
Import NetApi.

Lemma delNetwork_ignores_vlan_and_bonding_witness :
  _delNetwork (quiet_host true) "ovirtmgmt"
    (mkKwargs (Some sample_netinfo)
              {[ "vlan" := PInt 100; "bonding" := PStr "bond7" ]})
    empty_world
  = _delNetwork (quiet_host true) "ovirtmgmt"
      (mkKwargs (Some sample_netinfo) ∅) empty_world.
Proof.
  apply (delNetwork_ignores_vlan_and_bonding (quiet_host true)).
  - reflexivity.
  - intros k Hv Hb. cbn [kw_attrs].
    rewrite lookup_insert_ne, lookup_singleton_ne, lookup_empty; done.
Defined.

(** Removing the bridged network of the sample host: the running config
    entry, the libvirt network, the bridge with what is below it, the QoS. *)
Example delNetwork_run :
  let run := _delNetwork (quiet_host true) "ovirtmgmt"
               (mkKwargs (Some sample_netinfo) ∅) empty_world in
  run.1 = Ok tt
  ∧ ∃ top, trace run.2 =
      [RunningConfig_removeNetwork "ovirtmgmt";
       RemoveLibvirtNetwork "ovirtmgmt"; Device_remove top; RemoveQoS top]
      ∧ dev_name top = "ovirtmgmt".
Proof. vm_compute. split; [done|]. eexists. split; reflexivity. Qed.

(** With [keep_bridge] the port is disconnected first and only the port is
    removed. *)
Example delNetwork_keep_bridge_run :
  let run := _delNetwork (quiet_host true) "ovirtmgmt"
               (mkKwargs (Some sample_netinfo)
                         {[ "keep_bridge" := PBool true ]}) empty_world in
  run.1 = Ok tt
  ∧ ∃ port top, trace run.2 =
      [RunningConfig_removeNetwork "ovirtmgmt"; LinkSet "eth0" ["nomaster"];
       RemoveLibvirtNetwork "ovirtmgmt"; Device_remove port; RemoveQoS top]
      ∧ dev_name port = "eth0" ∧ dev_name top = "ovirtmgmt".
Proof. vm_compute. split; [done|]. do 2 eexists. repeat split; reflexivity. Qed.

Lemma addNetwork_argument_checks_witness :
  let run := _addNetwork (quiet_host true) "net1" both_prefix_and_netmask
                         empty_world in
  run.1 = Raise (ConfigNetworkError ERR_BAD_PARAMS
                   "Both PREFIX and NETMASK supplied")
  ∧ trace run.2
    = trace empty_world
      ++ recorded (quiet_host true) "net1" both_prefix_and_netmask.
Proof.
  intros run.
  pose proof (addNetwork_argument_checks (quiet_host true) "net1"
                both_prefix_and_netmask empty_world (λ _, eq_refl))
    as (_ & H & _).
  apply H; [discriminate | vm_compute; reflexivity | vm_compute; reflexivity].
Defined.

(** C7 as stated fails under unified persistence: when [_addNetwork] raises
    BAD_PARAMS for a request with both prefix and netmask, the request has
    already been written into the configurator's running config. *)
Lemma addNetwork_records_before_rejecting :
  let run := _addNetwork (quiet_host true) "net1" both_prefix_and_netmask
                         empty_world in
  run.1 = Raise (ConfigNetworkError ERR_BAD_PARAMS
                   "Both PREFIX and NETMASK supplied")
  ∧ trace run.2
    = [RunningConfig_setNetwork "net1" (kw_attrs both_prefix_and_netmask)]
  ∧ ¬ (trace run.2 = trace empty_world).
Proof. vm_compute. split; [done|]. split; [done | discriminate]. Qed.

(** A prefix given alone is converted, a bad one is a BAD_ADDR. *)
Example addNetwork_prefix_runs :
  let kw p := mkKwargs (Some sample_netinfo)
                {[ "nic" := PStr "eth0"; "prefix" := p ]} in
  (_addNetwork (quiet_host false) "net1" (kw (PStr "abc")) empty_world).1
  = Raise (ConfigNetworkError ERR_BAD_ADDR
     "Bad prefix: invalid literal for int() with base 10: abc")
  ∧ (_addNetwork (quiet_host false) "net1" (kw (PInt 33)) empty_world).1
    = Raise (ConfigNetworkError ERR_BAD_ADDR
       "Bad prefix: 33 is not a valid prefix value")
  ∧ (_addNetwork (quiet_host false) "net1" (kw (PStr "24")) empty_world).1
    = Ok tt.
Proof. vm_compute. done. Qed.

End NetworkRuns.

(** ** The bond option probe *)

Section BondOptions.
Import BondMapper.
Context {K : Type} (sysfs : Sysfs K).

Lemma getval_run (p : string) (i : Z) (w : World K) :
  _bond_opts_name2numeric_getval sysfs p i w =
  match sys_write sysfs p (str_int i) (kern w) with
  | (None, k') =>
      let r := bond_opts_read_elements sysfs p k' in
      (match r with Ok els => Ok (Some els) | Raise e => Raise e end,
       mkWorld k' (trace w ++ [Wrote p (str_int i) None; ReadElements p r]))
  | (Some e, k') =>
      (match e with
       | IOError errno =>
           if bool_decide (errno ∈ [EINVAL; EPERM; EACCES]) then Ok None
           else Raise e
       | _ => Raise e
       end,
       mkWorld k' (trace w ++ [Wrote p (str_int i) (Some e)]))
  end.
Proof.
  cbv beta iota zeta delta [_bond_opts_name2numeric_getval write read_elements
    emit try_except raise_if lift modify get raise mbind M_bind mret M_ret
    kern trace].
  destruct w as [k tr].
  destruct (sys_write sysfs p (str_int i) k) as [[e|] k'].
  - destruct e; try reflexivity.
    destruct (bool_decide (errno ∈ [EINVAL; EPERM; EACCES])); reflexivity.
  - rewrite <- app_assoc.
    destruct (bond_opts_read_elements sysfs p k'); reflexivity.
Qed.

Lemma scan_loop_steps (p : string) (n : nat) :
  ∀ (i : Z) vals (w : World K),
    i + Z.of_nat n = 32 → 0 ≤ i →
    ∃ tr, trace (scan_loop sysfs p (seqZ i (Z.of_nat n)) vals w).2
          = trace w ++ tr
          ∧ scan_steps p i vals tr
              (scan_loop sysfs p (seqZ i (Z.of_nat n)) vals w).1.
Proof.
  induction n as [|n IH]; intros i vals w Hi Hpos.
  - replace i with 32 by lia. exists []. rewrite app_nil_r.
    split; [done | constructor].
  - rewrite Nat2Z.inj_succ, seqZ_cons by lia.
    replace (Z.pred (Z.succ (Z.of_nat n))) with (Z.of_nat n) by lia.
    cbn [scan_loop]. rewrite !bind_run, getval_run.
    destruct (sys_write sysfs p (str_int i) (kern w)) as [[e|] k'].
    + destruct e as [| errno | | | | | | |];
        try (eexists; split; [reflexivity|];
             apply scan_write_failed; [lia | intros (? & [=] & _)]).
      case_bool_decide as Hb.
      * eexists; split; [reflexivity|]. apply scan_refused; [lia|].
        by exists errno.
      * eexists; split; [reflexivity|].
        apply scan_write_failed; [lia | intros (? & [= <-] & ?); done].
    + cbv zeta.
      destruct (bond_opts_read_elements sysfs p k') as [els|e].
      * destruct els as [|name [|numeric [|x els]]];
          try (eexists; split; [reflexivity|];
               apply scan_unpack_failed; [lia | simpl; lia]).
        match goal with |- context [scan_loop sysfs p _ ?v ?w1] =>
          destruct (IH (Z.succ i) v w1) as (tr & Htr & Hst); [lia | lia |]
        end.
        exists (Wrote p (str_int i) None
                :: ReadElements p (Ok [name; numeric]) :: tr).
        split.
        -- rewrite Htr. cbn [trace]. by rewrite <- app_assoc.
        -- apply scan_recorded; [lia|]. by replace (i + 1) with (Z.succ i) by lia.
      * eexists; split; [reflexivity|]. apply scan_read_failed. lia.
Qed.

(** The values written by a scan are 0, 1, 2, ... in order, never beyond
    31. *)
Lemma scan_steps_written p i vals tr r :
  scan_steps p i vals tr r → 0 ≤ i →
  ∃ n : nat, i + Z.of_nat n ≤ 32
             ∧ written tr = str_int <$> seqZ i (Z.of_nat n).
Proof.
  induction 1; intros Hpos.
  - exists 0%nat. split; [lia | done].
  - exists 1%nat. split; [lia | done].
  - exists 1%nat. split; [lia | done].
  - exists 1%nat. split; [lia | done].
  - exists 1%nat. split; [lia | done].
  - destruct IHscan_steps as (n & Hn & Hw); [lia|].
    exists (Datatypes.S n). split; [lia|].
    rewrite Nat2Z.inj_succ, seqZ_cons by lia.
    replace (Z.pred (Z.succ (Z.of_nat n))) with (Z.of_nat n) by lia.
    cbn [written omap list_omap]. simpl. f_equal.
    replace (Z.succ i) with (i + 1) by lia. exact Hw.
Qed.

Lemma scan_run (p : string) (w : World K) :
  ∃ tr, trace (_bond_opts_name2numeric_scan sysfs p w).2 = trace w ++ tr
        ∧ scan_events p tr (_bond_opts_name2numeric_scan sysfs p w).1.
Proof.
  unfold _bond_opts_name2numeric_scan, with_open, open_w.
  rewrite !bind_run. cbn [get]. rewrite !bind_run.
  cbv beta iota delta [emit modify raise_if raise mret M_ret kern trace].
  destruct w as [k tr0]. destruct (sys_open sysfs p k) as [e|].
  - eexists. split; [reflexivity | constructor].
  - unfold try_finally, close, emit, modify.
    destruct (scan_loop_steps p 32 0 ∅ (mkWorld k (tr0 ++ [Opened p None])))
      as (tr & Htr & Hst); [lia | lia |].
    change (Z.of_nat 32) with 32 in *.
    destruct (scan_loop sysfs p (seqZ 0 32) ∅ _) as [r w1].
    cbn [fst snd trace] in *.
    exists (Opened p None :: tr ++ [Closed p]). split.
    + rewrite Htr. by rewrite <- !app_assoc.
    + by constructor.
Qed.

Lemma name2numeric_loop_steps (paths : list string) :
  ∀ opts (w : World K),
    ∃ tr, trace (name2numeric_loop sysfs paths opts w).2 = trace w ++ tr
          ∧ mapper_steps paths opts tr
              (name2numeric_loop sysfs paths opts w).1.
Proof.
  induction paths as [|p rest IH]; intros opts w.
  - exists []. rewrite app_nil_r. split; [done | constructor].
  - cbn [name2numeric_loop]. rewrite !bind_run.
    unfold read_elements. rewrite !bind_run. cbn [get]. rewrite !bind_run.
    destruct w as [k tr0].
    cbv beta iota delta [emit modify lift]. cbn [kern trace].
    destruct (bond_opts_read_elements sysfs p k) as [els|e] eqn:Er;
      cbv beta iota.
    + case_bool_decide as Hlen.
      * destruct els as [|name [|numeric [|x els]]]; try done.
        rewrite !bind_run.
        match goal with |- context [_bond_opts_name2numeric_scan sysfs p ?w1] =>
          destruct (scan_run p w1) as (sc & Hsc & Hev);
          destruct (_bond_opts_name2numeric_scan sysfs p w1) as [[vals|e] w2]
        end; cbn [fst snd trace] in *.
        -- destruct (IH (<[basename p := vals]> opts) w2) as (tr & Htr & Hst).
           exists (ReadElements p (Ok [name; numeric]) :: sc ++ tr). split.
           ++ rewrite Htr, Hsc. by rewrite <- !app_assoc.
           ++ by eapply mapper_scanned.
        -- exists (ReadElements p (Ok [name; numeric]) :: sc). split.
           ++ rewrite Hsc. by rewrite <- !app_assoc.
           ++ by apply mapper_scan_failed.
      * match goal with |- context [name2numeric_loop sysfs rest opts ?w1] =>
          destruct (IH opts w1) as (tr & Htr & Hst) end.
        exists (ReadElements p (Ok els) :: tr). split.
        -- rewrite Htr. cbn [trace]. by rewrite <- !app_assoc.
        -- by apply mapper_passed_over.
    + eexists. split; [reflexivity | constructor].
Qed.

(** C8.  [_bond_opts_name2numeric] visits the option files of the bond other
    than [mode]; it scans a file only after having read exactly two elements
    from it.  A scan opens the file, writes the numeric values 0, 1, 2, ...
    (at most up to 31) in this order, reads the pair back and records it
    after each write that succeeds, ends quietly at the first write refused
    with EINVAL, EPERM or EACCES, and raises any other failure. *)
Theorem bond_opts_name2numeric_probe (bond : string) (w : World K) :
  let paths := filter (λ p, p ≠ BONDING_OPT bond "mode")
                 (iglob sysfs (BONDING_OPT bond "*") (kern w)) in
  let run := _bond_opts_name2numeric sysfs bond w in
  (∃ tr, trace run.2 = trace w ++ tr ∧ mapper_steps paths ∅ tr run.1)
  ∧ (∀ p sc r, scan_events p sc r →
       ∃ n : nat, (n ≤ 32)%nat
         ∧ written sc = str_int <$> seqZ 0 (Z.of_nat n)).
Proof.
  intros paths run. split.
  - apply name2numeric_loop_steps.
  - intros p sc r [e | tr r' Hst].
    + exists 0%nat. split; [lia | done].
    + destruct (scan_steps_written _ _ _ _ _ Hst) as (n & Hn & Hw); [lia|].
      exists n. split; [lia|].
      unfold written in *. cbn [omap list_omap].
      rewrite omap_app. cbn [omap list_omap]. by rewrite app_nil_r.
Qed.

(** *** The bond device *)

Lemma write_masters_run (data : string) (w : World K) :
  let masters := BONDING_MASTERS sysfs in
  with_open sysfs masters (write sysfs masters data) w =
  match sys_open sysfs masters (kern w) with
  | Some e => (Raise e, mkWorld (kern w) (trace w ++ [Opened masters (Some e)]))
  | None =>
      let o := (sys_write sysfs masters data (kern w)).1 in
      let k' := (sys_write sysfs masters data (kern w)).2 in
      (match o with Some e => Raise e | None => Ok tt end,
       mkWorld k' (trace w ++ [Opened masters None; Wrote masters data o;
                               Closed masters]))
  end.
Proof.
  intros masters. unfold with_open, open_w. rewrite !bind_run. cbn [get].
  rewrite !bind_run.
  cbv beta iota delta [emit modify raise_if raise mret M_ret kern trace].
  destruct w as [k tr0]. cbn [kern trace].
  destruct (sys_open sysfs masters k) as [e|]; [done|].
  unfold try_finally, write, close, emit, modify. cbn [kern trace].
  destruct (sys_write sysfs masters data k) as [[e|] k'];
    cbn [fst snd kern trace]; by rewrite <- !app_assoc.
Qed.

Lemma change_mode_run (name m : string) (w : World K) :
  ∃ tr o k',
    _change_mode sysfs name m w
    = (match o with Some e => Raise e | None => Ok tt end,
       mkWorld k' (trace w ++ tr))
    ∧ mode_change name m tr o.
Proof.
  unfold _change_mode, with_open, open_w. rewrite !bind_run. cbn [get].
  rewrite !bind_run.
  cbv beta iota delta [emit modify raise_if raise mret M_ret kern trace].
  destruct w as [k tr0]. cbn [kern trace].
  destruct (sys_open sysfs _ k) as [e|].
  - eexists _, (Some e), _. split; [reflexivity | constructor].
  - unfold try_finally, write, close, emit, modify. cbn [kern trace].
    destruct (sys_write sysfs _ m k) as [o k'].
    exists [Opened (BONDING_OPT name "mode") None;
            Wrote (BONDING_OPT name "mode") m o;
            Closed (BONDING_OPT name "mode")], o, k'.
    split; [|constructor].
    destruct o; cbn [trace kern]; by rewrite <- !app_assoc.
Qed.

(** The shape of every run of the context manager. *)
Lemma bond_device_shape {A} (body : M (World K) A) (name : string)
    (mode : option string) (w : World K) :
  let run := _bond_device sysfs name mode body w in
  let masters := BONDING_MASTERS sysfs in
  ∃ pre failure,
    creation masters name mode pre failure
    ∧ match failure with
      | Some e => run.1 = Raise e ∧ trace run.2 = trace w ++ pre
      | None =>
          ∃ w1 post rfail,
            trace w1 = trace w ++ pre
            ∧ removal_attempt masters name post rfail
            ∧ trace run.2 = trace (body w1).2 ++ post
            ∧ run.1 = match rfail with
                      | Some e => Raise e
                      | None => (body w1).1
                      end
      end.
Proof.
  intros run masters. subst run. unfold _bond_device. rewrite bind_run.
  rewrite write_masters_run. cbv zeta. fold masters.
  destruct (sys_open sysfs masters (kern w)) as [e|].
  { exists [Opened masters (Some e)], (Some e). split; [constructor | done]. }
  destruct (sys_write sysfs masters ("+" +:+ name) (kern w)) as [[e|] k1];
    cbn [fst snd].
  { eexists _, (Some e). split; [constructor | done]. }
  rewrite bind_run.
  assert (∀ (w1 : World K) pre,
            trace w1 = trace w ++ pre →
            ∃ post rfail,
              removal_attempt masters name post rfail
              ∧ trace (try_finally body
                         (with_open sysfs masters
                            (write sysfs masters ("-" +:+ name))) w1).2
                = trace (body w1).2 ++ post
              ∧ (try_finally body
                   (with_open sysfs masters
                      (write sysfs masters ("-" +:+ name))) w1).1
                = match rfail with
                  | Some e => Raise e
                  | None => (body w1).1
                  end) as Hfin.
  { intros w1 pre _. unfold try_finally.
    destruct (body w1) as [r w2]. rewrite write_masters_run. cbv zeta.
    fold masters. cbn [fst snd].
    destruct (sys_open sysfs masters (kern w2)) as [e|].
    - eexists _, (Some e). split; [constructor | done].
    - destruct (sys_write sysfs masters ("-" +:+ name) (kern w2))
        as [[e|] k2]; cbn [fst snd].
      + eexists _, (Some e). split; [constructor | done].
      + eexists _, None. split; [constructor | done]. }
  destruct mode as [m|].
  - match goal with |- context [_change_mode sysfs name m ?w0] =>
      destruct (change_mode_run name m w0) as (tr & o & k' & -> & Hmc) end.
    cbn [trace] in *.
    exists ([Opened masters None; Wrote masters ("+" +:+ name) None;
             Closed masters] ++ tr), o.
    split; [by eapply creation_with_mode|].
    destruct o as [e|]; [by rewrite <- app_assoc|].
    match goal with |- context [try_finally body _ ?w1] =>
      destruct (Hfin w1 ([Opened masters None;
                          Wrote masters ("+" +:+ name) None;
                          Closed masters] ++ tr))
        as (post & rfail & H1 & H2 & H3); [by rewrite <- app_assoc|];
      exists w1, post, rfail end.
    split; [by rewrite <- app_assoc|]. done.
  - cbv beta iota delta [mret M_ret].
    exists [Opened masters None; Wrote masters ("+" +:+ name) None;
            Closed masters], None.
    split; [by constructor|].
    match goal with |- context [try_finally body _ ?w1] =>
      destruct (Hfin w1 [Opened masters None;
                         Wrote masters ("+" +:+ name) None;
                         Closed masters])
        as (post & rfail & H1 & H2 & H3); [done|];
      exists w1, post, rfail end.
    done.
Qed.


(** *** What the scan records *)

Lemma read_pairs_app tr1 tr2 :
  read_pairs (tr1 ++ tr2) = read_pairs tr1 ++ read_pairs tr2.
Proof. apply omap_app. Qed.

Lemma scan_steps_records p i vals tr vals' :
  scan_steps p i vals tr (Ok vals') →
  vals' = record_pairs vals (read_pairs tr).
Proof.
  intros H. remember (Ok vals') as r eqn:Hr.
  induction H; try discriminate Hr.
  - by injection Hr as ->.
  - by injection Hr as ->.
  - rewrite IHscan_steps by done. reflexivity.
Qed.


(** *** The options of every mode *)

Lemma bond_device_ok {A} (body : M (World K) A) name mode w v w' :
  _bond_device sysfs name mode body w = (Ok v, w') →
  ∃ w1 w2, body w1 = (Ok v, w2).
Proof.
  intros H. pose proof (bond_device_shape body name mode w) as Hs.
  cbv zeta in Hs. rewrite H in Hs. cbn [fst snd] in Hs.
  destruct Hs as (pre & [e|] & _ & Hs); [by destruct Hs|].
  destruct Hs as (w1 & post & [e|] & _ & _ & _ & Hr); [done|].
  exists w1, (body w1).2. destruct (body w1) as [r w2]. cbn in *. by subst.
Qed.

Lemma filtered_ok bond w v w' :
  _bond_opts_name2numeric_filtered sysfs bond w = (Ok v, w') →
  ∀ k, k ∈ EXCLUDED_BONDING_ENTRIES sysfs → v !! k = None.
Proof.
  unfold _bond_opts_name2numeric_filtered. rewrite bind_run.
  destruct (_bond_opts_name2numeric sysfs bond w) as [[opts|e] w1]; [|done].
  intros [= <- <-] k Hk. apply map_lookup_filter_None. right.
  intros x _. cbn. tauto.
Qed.

Lemma modes_loop (name : string) (modes : list Z) :
  ∀ (w : World K) opts w',
    foldl (λ acc mode,
             opts ← acc;
             let mode := str_int mode in
             v ← _bond_device sysfs name (Some mode)
                   (_bond_opts_name2numeric_filtered sysfs name);
             mret (<[mode := v]> opts))
          (mret (∅ : gmap string (gmap string (gmap string string))))
          modes w = (Ok opts, w') →
    dom opts = list_to_set (str_int <$> modes)
    ∧ ∀ mode v, opts !! mode = Some v →
        ∀ k, k ∈ EXCLUDED_BONDING_ENTRIES sysfs → v !! k = None.
Proof.
  induction modes as [|m ms IH] using rev_ind; intros w opts w' H.
  - cbn in H. injection H as <- <-. split; [set_solver|].
    intros mode v Hm. by rewrite lookup_empty in Hm.
  - rewrite foldl_app in H. cbn [foldl] in H. rewrite bind_run in H.
    match type of H with match ?m w with _ => _ end = _ =>
      destruct (m w) as [[opts0|e] w0] eqn:E0; [|done] end.
    destruct (IH _ _ _ E0) as [Hdom Hex].
    rewrite bind_run in H.
    match type of H with match ?m w0 with _ => _ end = _ =>
      destruct (m w0) as [[v|e] w1] eqn:E1; [|done] end.
    injection H as <- <-.
    apply bond_device_ok in E1 as (w2 & w3 & E1).
    split.
    + rewrite dom_insert_L, Hdom, fmap_app, list_to_set_app_L. cbn.
      set_solver.
    + intros mode v' Hl k Hk.
      destruct (decide (mode = str_int m)) as [->|Hne].
      * rewrite lookup_insert_eq in Hl. injection Hl as <-.
        by eapply filtered_ok.
      * rewrite lookup_insert_ne in Hl by done. by eapply Hex.
Qed.


End BondOptions.

Section BondOptionsRuns.
Import BondMapper.

(** On the small kernel only [xmit_hash_policy] is scanned: 0, 1 and 2 are
    accepted and recorded, 3 is refused with EINVAL. *)
Example bond_opts_name2numeric_run :
  let run := _bond_opts_name2numeric toy_sysfs "bond0" toy_world in
  let p := BONDING_OPT "bond0" "xmit_hash_policy" in
  run.1 = Ok {[ "xmit_hash_policy" :=
                  {[ "layer2" := "0"; "layer3+4" := "1"; "layer2+3" := "2" ]} ]}
  ∧ trace run.2 =
      [ReadElements (BONDING_OPT "bond0" "miimon") (Ok ["100"]);
       ReadElements p (Ok ["layer2"; "0"]);
       Opened p None;
       Wrote p "0" None; ReadElements p (Ok ["layer2"; "0"]);
       Wrote p "1" None; ReadElements p (Ok ["layer3+4"; "1"]);
       Wrote p "2" None; ReadElements p (Ok ["layer2+3"; "2"]);
       Wrote p "3" (Some (IOError EINVAL));
       Closed p].
Proof. vm_compute. split; reflexivity. Qed.



(** On the small kernel the bond cannot be created: the body of the context
    manager does not run and no removal is attempted. *)
Example bond_device_creation_refused :
  let run := _bond_device toy_sysfs "bond0" (Some "1")
               (_bond_opts_name2numeric_filtered toy_sysfs "bond0") toy_world in
  run.1 = Raise (IOError EACCES)
  ∧ trace run.2
    = [Opened "/sys/class/net/bonding_masters" None;
       Wrote "/sys/class/net/bonding_masters" "+bond0" (Some (IOError EACCES));
       Closed "/sys/class/net/bonding_masters"].
Proof. vm_compute. split; reflexivity. Qed.

End BondOptionsRuns.

Section BondDefaults.
Import BondMapper.
Context {K V : Type} (sysfs : Sysfs K)
        (properties : string → option (list string) → list string → K
                      → res (gmap string V)).

Lemma defaults_loop (name : string) (default_mode : V) (modes : list Z) :
  ∀ (w : World K) opts w',
    foldl (λ acc mode,
             opts ← acc;
             let mode := str_int mode in
             v ← _bond_device sysfs name (Some mode)
                   (props ← read_properties properties name None
                              (EXCLUDED_BONDING_ENTRIES sysfs);
                    mret (<["mode" := default_mode]> props));
             mret (<[mode := v]> opts))
          (mret (∅ : gmap string (gmap string V)))
          modes w = (Ok opts, w') →
    dom opts = list_to_set (str_int <$> modes)
    ∧ ∀ mode v, opts !! mode = Some v → v !! "mode" = Some default_mode.
Proof.
  induction modes as [|m ms IH] using rev_ind; intros w opts w' H.
  - cbn in H. injection H as <- <-. split; [set_solver|].
    intros mode v Hm. by rewrite lookup_empty in Hm.
  - rewrite foldl_app in H. cbn [foldl] in H. rewrite bind_run in H.
    match type of H with match ?m w with _ => _ end = _ =>
      destruct (m w) as [[opts0|e] w0] eqn:E0; [|done] end.
    destruct (IH _ _ _ E0) as [Hdom Hmode].
    rewrite bind_run in H.
    match type of H with match ?m w0 with _ => _ end = _ =>
      destruct (m w0) as [[v|e] w1] eqn:E1; [|done] end.
    injection H as <- <-.
    apply bond_device_ok in E1 as (w2 & w3 & E1).
    split.
    + rewrite dom_insert_L, Hdom, fmap_app, list_to_set_app_L. cbn.
      set_solver.
    + intros mode v' Hl.
      destruct (decide (mode = str_int m)) as [->|Hne].
      * rewrite lookup_insert_eq in Hl. injection Hl as <-.
        rewrite bind_run in E1.
        destruct (read_properties _ _ _ _ w2) as [[props|e] w4]; [|done].
        injection E1 as <- <-. apply lookup_insert_eq.
      * rewrite lookup_insert_ne in Hl by done. by eapply Hmode.
Qed.


End BondDefaults.

Section BondDefaultsRuns.
Import BondMapper.


End BondDefaultsRuns.

(** ** The domain monitor *)

Section PoolStop.
Import DomainMonitor.
Context (meanwhile : string → gmap string Thread → gmap string Thread).

#[local] Abbreviation wait_one := (wait_one meanwhile).
#[local] Abbreviation joined_and_removed := (joined_and_removed meanwhile).

Lemma stopMonitors_unfold monitors :
  _stopMonitors meanwhile monitors
  = (for_each monitors signal_one ;; for_each monitors wait_one).
Proof. reflexivity. Qed.

Lemma signal_one_run m p :
  signal_one m p
  = (Ok tt, mkPool (_domains p) (_interval p)
                   (pool_trace p ++ [StopSignal (sdUUID m)])
                   (pool_logs p ++ [mkLog "info" "Stop monitoring %s"
                                      [PStr (sdUUID m)]])).
Proof. reflexivity. Qed.

(** Waiting for one monitor: the map is what the other callers have made of
    it during the join; the entry is deleted from it if it is there, else
    the warning is logged. *)
Lemma wait_one_run m p :
  let sd := sdUUID m in
  let joined := meanwhile sd (_domains p) in
  wait_one m p
  = (Ok tt,
     match joined !! sd with
     | Some _ =>
         mkPool (delete sd joined) (_interval p)
           (pool_trace p ++ [Join sd; Del sd])
           (pool_logs p ++ [mkLog "debug" "Waiting for monitor %s" [PStr sd]])
     | None =>
         mkPool joined (_interval p)
           (pool_trace p ++ [Join sd; Warn sd])
           (pool_logs p ++
              [mkLog "debug" "Waiting for monitor %s" [PStr sd];
               mkLog "warning" "Montior for %s removed while stopping"
                 [PStr sd]])
     end).
Proof.
  intros sd joined. subst sd joined. unfold wait_one. rewrite !bind_run.
  cbv beta iota delta [pool_log pool_emit modify join set_domains try_except
                       del_domain get].
  rewrite !bind_run. cbn [_domains _interval pool_trace pool_logs].
  destruct (meanwhile (sdUUID m) (_domains p) !! sdUUID m) as [t|].
  - rewrite !bind_run. cbn [_domains _interval pool_trace pool_logs].
    by rewrite <- !app_assoc.
  - cbv beta iota delta [raise]. rewrite !bind_run.
    cbn [_domains _interval pool_trace pool_logs].
    by rewrite <- !app_assoc.
Qed.

Lemma signal_loop (monitors : list Thread) (p : Pool) :
  for_each monitors signal_one p
  = (Ok tt, mkPool (_domains p) (_interval p)
              (pool_trace p ++ (StopSignal <$> (sdUUID <$> monitors)))
              (pool_logs p ++ stop_records (sdUUID <$> monitors))).
Proof.
  revert p. induction monitors as [|m ms IH]; intros p.
  - cbn. rewrite !app_nil_r. by destruct p.
  - cbn [for_each]. rewrite bind_run, signal_one_run, IH.
    cbn [_domains _interval pool_trace pool_logs fmap list_fmap stop_records].
    by rewrite <- !app_assoc.
Qed.

Lemma join_loop (monitors : list Thread) (p : Pool) :
  ∃ tr lg m',
    for_each monitors wait_one p
    = (Ok tt, mkPool m' (_interval p) (pool_trace p ++ tr) (pool_logs p ++ lg))
    ∧ joined_and_removed (sdUUID <$> monitors) (_domains p) tr lg m'.
Proof.
  revert p. induction monitors as [|m ms IH]; intros p.
  - exists [], [], (_domains p). rewrite !app_nil_r.
    split; [by destruct p | constructor].
  - cbn [for_each]. rewrite bind_run, wait_one_run. cbv zeta.
    destruct (meanwhile (sdUUID m) (_domains p) !! sdUUID m) as [t|] eqn:E.
    + match goal with |- context [for_each ms _ ?p1] =>
        destruct (IH p1) as (tr & lg & m' & -> & Hj) end.
      cbn [_domains _interval pool_trace pool_logs] in *.
      exists (Join (sdUUID m) :: Del (sdUUID m) :: tr),
             (mkLog "debug" "Waiting for monitor %s" [PStr (sdUUID m)] :: lg),
             m'.
      split; [by rewrite <- !app_assoc|].
      cbn [fmap list_fmap]. by eapply jr_deleted.
    + match goal with |- context [for_each ms _ ?p1] =>
        destruct (IH p1) as (tr & lg & m' & -> & Hj) end.
      cbn [_domains _interval pool_trace pool_logs] in *.
      exists (Join (sdUUID m) :: Warn (sdUUID m) :: tr),
             (mkLog "debug" "Waiting for monitor %s" [PStr (sdUUID m)]
              :: mkLog "warning" "Montior for %s removed while stopping"
                   [PStr (sdUUID m)] :: lg),
             m'.
      split; [by rewrite <- !app_assoc|].
      cbn [fmap list_fmap]. by eapply jr_missing.
Qed.

Lemma joined_and_removed_no_signal sds m tr lg m' :
  joined_and_removed sds m tr lg m' → ∀ sd, StopSignal sd ∉ tr.
Proof. induction 1; intros sd'; set_solver. Qed.

(** A warning is in the log exactly for the monitors found missing. *)
Lemma joined_and_removed_warned sds m tr lg m' :
  joined_and_removed sds m tr lg m' →
  ∀ sd, Warn sd ∈ tr
        ↔ mkLog "warning" "Montior for %s removed while stopping" [PStr sd]
          ∈ lg.
Proof.
  induction 1 as [|sd0 rest m t tr lg m' _ _ IH|sd0 rest m tr lg m' _ _ IH];
    intros sd.
  - split; intros H; by apply elem_of_nil in H.
  - rewrite !elem_of_cons, IH. split.
    + intros [H|[H|H]]; [discriminate H | discriminate H | by right].
    + intros [H|H]; [discriminate H | by right; right].
  - rewrite !elem_of_cons, IH. split.
    + intros [H|[H|H]]; [discriminate H | | by right; right].
      injection H as ->. right. by left.
    + intros [H|[H|H]]; [discriminate H | | by right; right].
      injection H as ->. right. by left.
Qed.

Lemma stopMonitors_run (monitors : list Thread) (p : Pool) :
  ∃ waits lg m',
    _stopMonitors meanwhile monitors p
    = (Ok tt,
       mkPool m' (_interval p)
         (pool_trace p ++ (StopSignal <$> (sdUUID <$> monitors)) ++ waits)
         (pool_logs p ++ stop_records (sdUUID <$> monitors) ++ lg))
    ∧ joined_and_removed (sdUUID <$> monitors) (_domains p) waits lg m'.
Proof.
  rewrite stopMonitors_unfold, bind_run, signal_loop.
  match goal with |- context [for_each monitors _ ?p1] =>
    destruct (join_loop monitors p1) as (tr & lg & m' & -> & Hj) end.
  cbn [_domains _interval pool_trace pool_logs] in *.
  exists tr, lg, m'. split; [|done]. by rewrite <- !app_assoc.
Qed.

(** C6.  [_stopMonitors], and with it [stopMonitoring] and [close], never
    raises.  It first signals every targeted monitor to stop, in order,
    logging each and leaving the pool's map as it is; only then, monitor by
    monitor, it joins the monitor and after the join deletes the monitor's
    entry from the map, or, when another caller has removed the entry
    meanwhile (KeyError), logs the warning and goes on.  The map it leaves
    is the one these deletions give, and a warning is in the log exactly for
    the monitors whose entry was missing. *)
Theorem stop_protocol_two_phase (p : Pool) :
  (∀ monitors, ∃ waits lg,
     let run := _stopMonitors meanwhile monitors p in
     let sds := sdUUID <$> monitors in
     run.1 = Ok tt
     ∧ pool_trace run.2 = pool_trace p ++ (StopSignal <$> sds) ++ waits
     ∧ pool_logs run.2 = pool_logs p ++ stop_records sds ++ lg
     ∧ joined_and_removed sds (_domains p) waits lg (_domains run.2)
     ∧ (∀ sd, StopSignal sd ∉ waits)
     ∧ (∀ sd, Warn sd ∈ waits
              ↔ mkLog "warning" "Montior for %s removed while stopping"
                  [PStr sd] ∈ lg))
  ∧ (∀ sdUUIDs, ∃ monitors waits lg,
       let run := stopMonitoring meanwhile sdUUIDs p in
       let sds := sdUUID <$> monitors in
       monitors = filter (λ monitor,
                            sdUUID monitor ∈ (list_to_set sdUUIDs : gset string))
                    (map_to_list (_domains p)).*2
       ∧ run.1 = Ok tt
       ∧ pool_trace run.2 = pool_trace p ++ (StopSignal <$> sds) ++ waits
       ∧ pool_logs run.2 = pool_logs p ++ stop_records sds ++ lg
       ∧ joined_and_removed sds (_domains p) waits lg (_domains run.2))
  ∧ (∃ waits lg,
       let run := close meanwhile p in
       let sds := sdUUID <$> (map_to_list (_domains p)).*2 in
       run.1 = Ok tt
       ∧ pool_trace run.2 = pool_trace p ++ (StopSignal <$> sds) ++ waits
       ∧ pool_logs run.2
         = pool_logs p ++ [mkLog "info" "Stopping all domain monitors" []]
             ++ stop_records sds ++ lg
       ∧ joined_and_removed sds (_domains p) waits lg (_domains run.2)).
Proof.
  split; [|split].
  - intros monitors.
    destruct (stopMonitors_run monitors p) as (waits & lg & m' & -> & Hj).
    exists waits, lg. cbn [fst snd pool_trace pool_logs _domains].
    do 4 (split; [done|]). split.
    + by eapply joined_and_removed_no_signal.
    + by eapply joined_and_removed_warned.
  - intros sdUUIDs.
    cbv beta iota zeta delta [stopMonitoring domains_values get mbind M_bind
                              mret M_ret].
    match goal with |- context [_stopMonitors meanwhile ?ms p] =>
      destruct (stopMonitors_run ms p) as (waits & lg & m' & -> & Hj) end.
    eexists _, waits, lg. split; [reflexivity|].
    cbn [fst snd pool_trace pool_logs _domains]. done.
  - cbv beta iota zeta delta [close domains_values get mbind M_bind
                              mret M_ret pool_log modify].
    match goal with |- context [_stopMonitors meanwhile ?ms ?p1] =>
      destruct (stopMonitors_run ms p1) as (waits & lg & m' & -> & Hj) end.
    cbn [fst snd _domains _interval pool_trace pool_logs] in *.
    exists waits, lg. split; [done|]. split; [done|].
    split; [by rewrite <- !app_assoc | done].
Qed.

End PoolStop.

Section MonitorFacts.
Import DomainMonitor.
Context {K : Type} (storage : Storage K).

Abbreviation St := (State K).
#[local] Abbreviation canceled_by_stop := (canceled_by_stop storage).
#[local] Abbreviation quietly := (quietly (K:=K)).
#[local] Abbreviation grows := (grows (K:=K)).
#[local] Abbreviation runs_to := (runs_to (K:=K)).

(** *** Cancellation comes from the stop event only *)

Lemma cbs_ret {A} (a : A) : canceled_by_stop (mret a).
Proof. intros s [=]. Qed.

Lemma cbs_raise {A} (e : exn) :
  is_Exception e = true → canceled_by_stop (raise e : M St A).
Proof. intros He s [= ->]. done. Qed.

Lemma cbs_this : canceled_by_stop this.
Proof. intros s [=]. Qed.

Lemma cbs_ask {A} (f : K → A) : canceled_by_stop (ask f).
Proof. intros s [=]. Qed.

Lemma cbs_set_self f : canceled_by_stop (set_self f).
Proof. intros s [=]. Qed.

Lemma cbs_set_next f : canceled_by_stop (set_next f).
Proof. intros s [=]. Qed.

Lemma cbs_log l f a : canceled_by_stop (log l f a).
Proof. intros s [=]. Qed.

Lemma cbs_call {A} ev (op : K → outcome A * K) : canceled_by_stop (call ev op).
Proof.
  intros s. unfold call. destruct (op (kern s)) as [[a|[e He]] k']; simpl.
  - intros [=].
  - intros [= ->]. done.
Qed.

Lemma cbs_bind {A B} (m : M St A) (f : A → M St B) :
  canceled_by_stop m → (∀ a, canceled_by_stop (f a)) →
  canceled_by_stop (m ≫= f).
Proof.
  intros Hm Hf s. rewrite bind_run. specialize (Hm s).
  destruct (m s) as [[a|e] s1]; [apply Hf|].
  cbn [fst snd] in *. intros [= ->]. by apply Hm.
Qed.

Lemma cbs_try_except {A} (m : M St A) c h :
  canceled_by_stop m → (∀ e, canceled_by_stop (h e)) →
  canceled_by_stop (try_except m c h).
Proof.
  intros Hm Hh s. unfold try_except. specialize (Hm s).
  destruct (m s) as [[a|e] s1]; [intros [=]|].
  destruct (c e); [apply Hh|].
  cbn [fst snd] in *. intros [= ->]. by apply Hm.
Qed.

Lemma cbs_cancelpoint {A} (m : M St A) :
  canceled_by_stop m → canceled_by_stop (cancelpoint storage m).
Proof.
  intros Hm s. unfold cancelpoint, __canceled__, ask. rewrite bind_run.
  destruct (stop_is_set storage (kern s)) eqn:E; [done|].
  rewrite bind_run. specialize (Hm s).
  destruct (m s) as [[a|e] s1];
    [|cbn [fst snd] in *; intros [= ->]; by apply Hm].
  rewrite bind_run. cbn [fst snd] in *.
  destruct (stop_is_set storage (kern s1)) eqn:E1; [done | intros [=]].
Qed.

Lemma cbs_the_domain : canceled_by_stop the_domain.
Proof.
  intros s. unfold the_domain, this. rewrite bind_run.
  destruct (domain (self s)); intros [=].
Qed.

Lemma cbs_item d k : canceled_by_stop (item d k).
Proof. intros s. unfold item. destruct (d !! k); intros [=]. Qed.

Ltac solve_cbs :=
  repeat first
    [ apply cbs_ret | apply cbs_this | apply cbs_ask | apply cbs_set_self
    | apply cbs_set_next | apply cbs_log | apply cbs_call
    | apply cbs_the_domain | apply cbs_item
    | apply cbs_raise; reflexivity
    | apply cbs_cancelpoint
    | apply cbs_bind; [|intros ?]
    | apply cbs_try_except; [|intros ?]
    | match goal with
      | |- canceled_by_stop (match ?x with _ => _ end) => destruct x
      | |- canceled_by_stop (if ?x then _ else _) => destruct x
      end ].

Lemma cbs_monitorDomain : canceled_by_stop (_monitorDomain storage).
Proof.
  unfold _monitorDomain, prepare, collect, publish, probe, _refreshDomain,
    _shouldRefreshDomain, _produceDomain, _setIsoDomainInfo,
    _performDomainSelftest, _checkReadDelay, _collectStatistics,
    _statusDidChange, _notifyStatusChanges, _shouldAcquireHostId,
    _acquireHostId.
  solve_cbs.
Qed.

(** One iteration of the loop, as [_monitorLoop] runs it. *)
Lemma monitorLoop_unfold (fuel : nat) (s : St) :
  _monitorLoop storage (Datatypes.S fuel) s =
  if stop_is_set storage (kern s) then (Ok (Some tt), s)
  else
    match _monitorDomain storage s with
    | (Raise Canceled, s1) =>
        (Ok (Some tt),
         mkState (self s1) (kern s1) (trace s1)
           (logs s1 ++ [mkLog "debug" "Canceled domain monitor for %s"
                          [PStr (sdUUID (self s1))]]))
    | (r, s1) =>
        let s2 :=
          match r with
          | Ok _ => s1
          | Raise _ =>
              mkState (self s1) (kern s1) (trace s1)
                (logs s1 ++ [mkLog "error"
                               "The domain monitor for %s failed unexpectedly"
                               [PStr (sdUUID (self s1))]])
          end in
        _monitorLoop storage fuel
          (mkState (self s2)
                   (stop_wait storage (interval (self s2)) (kern s2))
                   (trace s2 ++ [Wait (interval (self s2))]) (logs s2))
    end.
Proof.
  cbn [_monitorLoop]. rewrite bind_run. cbn [ask].
  destruct (stop_is_set storage (kern s)); [done|].
  rewrite bind_run. unfold try_except at 1. rewrite bind_run.
  destruct (_monitorDomain storage s) as [[[]|e] s1].
  - cbv beta iota delta [mret M_ret]. rewrite bind_run. reflexivity.
  - cbv beta iota. rewrite bind_run. cbn [this].
    destruct e; reflexivity.
Qed.

(** The loop never raises; it exits only with the stop event set, and it is
    still running after [fuel] iterations only with the stop event not
    set. *)
Lemma monitorLoop_exit (fuel : nat) :
  ∀ s, ∃ o s', _monitorLoop storage fuel s = (Ok o, s')
               ∧ stop_is_set storage (kern s') = bool_decide (o = Some tt).
Proof.
  induction fuel as [|fuel IH]; intros s.
  - cbn [_monitorLoop]. rewrite bind_run. cbn [ask].
    destruct (stop_is_set storage (kern s)) eqn:E; eexists _, _; split;
      try reflexivity; done.
  - rewrite monitorLoop_unfold.
    destruct (stop_is_set storage (kern s)) eqn:E.
    { eexists _, _. split; [reflexivity | done]. }
    pose proof (cbs_monitorDomain s) as Hc.
    destruct (_monitorDomain storage s) as [[[]|e] s1]; [apply IH|].
    destruct e; try apply IH.
    eexists _, _. split; [reflexivity|]. cbn [fst snd kern] in *. by rewrite Hc.
Qed.

(** *** One tick *)

(** Reduction of field accesses and updates on explicit records. *)
Ltac fields :=
  cbv beta iota zeta delta
    [self kern trace logs fst snd
     with_domain with_firstChange with_status with_nextStatus with_isIsoDomain
     with_isoPrefix with_lastRefresh update
     st_with_error st_with_checkTime st_with_valid st_with_readDelay
     st_with_disk st_with_vgMd st_with_master st_with_hasHostId
     st_with_isoPrefix st_with_version
     domain sdUUID hostId interval firstChange poolDomain status nextStatus
     isIsoDomain thread_isoPrefix lastRefresh refreshTime
     error checkTime valid readDelay masterMounted masterValid diskUtilization
     vgMdUtilization vgMdHasEnoughFreeSpace vgMdFreeBelowThreashold hasHostId
     isoPrefix version] in *.

(** Symbolic run of a computation given as [H : m s = (r, s')]. *)
Ltac run_in H :=
  cbv beta iota zeta delta
    [publish collect prepare _statusDidChange _notifyStatusChanges
     _shouldAcquireHostId _acquireHostId _releaseHostId _shouldReleaseHostId
     _shouldRefreshDomain _refreshDomain shutdown
     _produceDomain _setIsoDomainInfo
     cancelpoint __canceled__ the_domain this ask set_self set_next log call
     try_except try_finally raise_if lift modify get raise
     mbind M_bind mret M_ret to_res self kern trace logs
     with_domain with_firstChange with_status with_nextStatus with_isIsoDomain
     with_isoPrefix with_lastRefresh update
     st_with_error st_with_checkTime st_with_valid st_with_readDelay
     st_with_disk st_with_vgMd st_with_master st_with_hasHostId
     st_with_isoPrefix st_with_version
     domain sdUUID hostId interval firstChange poolDomain status nextStatus
     isIsoDomain thread_isoPrefix lastRefresh refreshTime
     error checkTime valid readDelay masterMounted masterValid diskUtilization
     vgMdUtilization vgMdHasEnoughFreeSpace vgMdFreeBelowThreashold hasHostId
     isoPrefix version] in H;
  repeat match type of H with
  | context [stop_is_set storage ?k] =>
      let E := fresh "Estop" in
      destruct (stop_is_set storage k) eqn:E; cbv beta iota zeta in H
  | context [onDomainStateChange_emit storage ?a ?b ?k] =>
      let o := fresh "o" in
      destruct (onDomainStateChange_emit storage a b k) as [[[]|[? ?]] ?];
      cbv beta iota zeta delta [proj1_sig] in H
  | context [dom_acquireHostId storage ?a ?b ?k] =>
      destruct (dom_acquireHostId storage a b k) as [[[]|[? ?]] ?];
      cbv beta iota zeta delta [proj1_sig] in H
  | context [dom_releaseHostId storage ?a ?b ?k] =>
      destruct (dom_releaseHostId storage a b k) as [[[]|[? ?]] ?];
      cbv beta iota zeta delta [proj1_sig] in H
  | context [sdCache_manuallyRemoveDomain storage ?a ?k] =>
      destruct (sdCache_manuallyRemoveDomain storage a k) as [[[]|[? ?]] ?];
      cbv beta iota zeta delta [proj1_sig] in H
  | context [sdCache_produce storage ?a ?k] =>
      destruct (sdCache_produce storage a k) as [[?|[? ?]] ?];
      cbv beta iota zeta delta [proj1_sig] in H
  | context [dom_isISO storage ?a ?k] =>
      destruct (dom_isISO storage a k) as [[[]|[? ?]] ?];
      cbv beta iota zeta delta [proj1_sig] in H
  | context [dom_getIsoDomainImagesDir storage ?a ?k] =>
      destruct (dom_getIsoDomainImagesDir storage a k) as [[?|[? ?]] ?];
      cbv beta iota zeta delta [proj1_sig] in H
  | context [match ?x with true => _ | false => _ end] =>
      let E := fresh "Eb" in
      destruct x eqn:E; cbv beta iota zeta in H
  | context [match ?x with Some _ => _ | None => _ end] =>
      let E := fresh "Eo" in
      destruct x eqn:E; cbv beta iota zeta in H
  end.

(** What [publish] does: it stamps [nextStatus] and sets its [valid] flag,
    may emit the state change, and requests the host id when
    [_shouldAcquireHostId] says so; it ends normally or canceled. *)
Lemma publish_run (s : St) :
  let r := (publish storage s).1 in
  let s' := (publish storage s).2 in
  let t := self s in
  let t' := self s' in
  nextStatus t'
  = st_with_valid (bool_decide (error (nextStatus t) = None))
      (st_with_checkTime (time_time storage (kern s)) (nextStatus t))
  ∧ domain t' = domain t ∧ isIsoDomain t' = isIsoDomain t
  ∧ hostId t' = hostId t ∧ sdUUID t' = sdUUID t
  ∧ (r = Ok tt ∨ r = Raise Canceled)
  ∧ ∃ tr, trace s' = trace s ++ tr
      ∧ (∀ ev, ev ∈ tr →
           ev = Emit (sdUUID t) (valid (nextStatus t'))
           ∨ ∃ d, ev = AcquireHostId d (hostId t) ∧ domain t = Some d
                  ∧ acquire_due t' = true)
      ∧ (r = Ok tt → acquire_due t' = true → ∀ d, domain t = Some d →
           AcquireHostId d (hostId t) ∈ tr).
Proof.
  destruct (publish storage s) as [r s'] eqn:H. cbn [fst snd].
  destruct s as [[dm sd hid iv fc pd st [er ct vl rd mm mv du vu ve vb hh ip ver]
                    iso isop lr rt] k tr0 lg].
  run_in H.
  all: injection H as <- <-.
  all: unfold acquire_due, not_isIsoDomain in *; fields.
  all: repeat match goal with
       | E : bool_decide _ = _ |- _ => rewrite E in *; clear E
       end.
  all: do 5 (split; [reflexivity|]).
  all: split; [auto|].
  all: first [ exists []; split; [by rewrite app_nil_r|]
             | eexists; split; [rewrite <- ?app_assoc; reflexivity|] ].
  all: split;
    [ intros ev Hev;
      repeat (apply elem_of_cons in Hev as [->|Hev]);
        try (by apply elem_of_nil in Hev);
        first [ by left | right; eexists; repeat split; done ]
    | intros Hr Hc d' Hd; try discriminate Hr; try congruence;
      try (injection Hd as <-); set_solver ].
Qed.

(** *** What the probe may change *)

Lemma grows_refl s : grows s s.
Proof.
  repeat split; auto. exists []. by rewrite app_nil_r.
Qed.

Lemma grows_trans s1 s2 s3 : grows s1 s2 → grows s2 s3 → grows s1 s3.
Proof.
  intros (A1 & A2 & A3 & A4 & A5 & tr1 & A6 & A7)
         (B1 & B2 & B3 & B4 & B5 & tr2 & B6 & B7).
  repeat split; try congruence; auto.
  exists (tr1 ++ tr2). rewrite B6, A6, app_assoc. split; [done|].
  by apply Forall_app.
Qed.

Lemma q_ret {A} (a : A) : quietly (mret a).
Proof. intros s. apply grows_refl. Qed.
Lemma q_raise {A} (e : exn) : quietly (raise e : M St A).
Proof. intros s. apply grows_refl. Qed.
Lemma q_this : quietly this.
Proof. intros s. apply grows_refl. Qed.
Lemma q_ask {A} (f : K → A) : quietly (ask f).
Proof. intros s. apply grows_refl. Qed.
Lemma q_log l f a : quietly (log l f a).
Proof.
  intros s. repeat split; auto. exists []. by rewrite app_nil_r.
Qed.
Lemma q_item d k : quietly (item d k).
Proof. intros s. unfold item. destruct (d !! k); apply grows_refl. Qed.
Lemma q_the_domain : quietly the_domain.
Proof.
  intros s. unfold the_domain, this. rewrite bind_run.
  destruct (domain (self s)); apply grows_refl.
Qed.

Lemma q_call {A} ev (op : K → outcome A * K) :
  probing ev → quietly (call ev op).
Proof.
  intros Hev s. unfold call. destruct (op (kern s)) as [o k'].
  repeat split; auto. exists [ev]. split; [done|]. by apply Forall_singleton.
Qed.

Lemma q_set_next f :
  (∀ st, error (f st) = error st) → quietly (set_next f).
Proof.
  intros Hf [[] k tr lg]. repeat split; auto.
  - apply Hf.
  - exists []. by rewrite app_nil_r.
Qed.

Lemma q_set_self f :
  (∀ t, sdUUID (f t) = sdUUID t ∧ hostId (f t) = hostId t
        ∧ domain (f t) = domain t ∧ isIsoDomain (f t) = isIsoDomain t
        ∧ nextStatus (f t) = nextStatus t) →
  quietly (set_self f).
Proof.
  intros Hf [t k tr lg]. destruct (Hf t) as (H1 & H2 & H3 & H4 & H5).
  unfold grows. cbn [set_self modify self trace snd].
  rewrite H1, H2, H3, H4, H5. repeat split; auto.
  exists []. by rewrite app_nil_r.
Qed.

Lemma q_bind {A B} (m : M St A) (f : A → M St B) :
  quietly m → (∀ a, quietly (f a)) → quietly (m ≫= f).
Proof.
  intros Hm Hf s. rewrite bind_run. specialize (Hm s).
  destruct (m s) as [[a|e] s1]; [|exact Hm].
  eapply grows_trans; [exact Hm | apply Hf].
Qed.

Lemma q_try_except {A} (m : M St A) c h :
  quietly m → (∀ e, quietly (h e)) → quietly (try_except m c h).
Proof.
  intros Hm Hh s. unfold try_except. specialize (Hm s).
  destruct (m s) as [[a|e] s1]; [exact Hm|].
  destruct (c e); [|exact Hm].
  eapply grows_trans; [exact Hm | apply Hh].
Qed.

Lemma q_cancelpoint {A} (m : M St A) :
  quietly m → quietly (cancelpoint storage m).
Proof.
  intros Hm. unfold cancelpoint, __canceled__.
  apply q_bind; [apply q_ask|]. intros [|]; [apply q_raise|].
  apply q_bind; [exact Hm|]. intros a.
  apply q_bind; [apply q_ask|]. intros [|]; [apply q_raise | apply q_ret].
Qed.

Ltac solve_quietly :=
  repeat first
    [ apply q_ret | apply q_raise | apply q_this | apply q_ask | apply q_log
    | apply q_item | apply q_the_domain
    | apply q_call; exact I
    | apply q_set_next; intros []; reflexivity
    | apply q_set_self; intros []; repeat split; reflexivity
    | apply q_cancelpoint
    | apply q_bind; [|intros ?]
    | apply q_try_except; [|intros ?]
    | match goal with
      | |- quietly (match ?x with _ => _ end) => destruct x
      | |- quietly (if ?x then _ else _) => destruct x
      end ].

Lemma q_performDomainSelftest : quietly (_performDomainSelftest storage).
Proof. unfold _performDomainSelftest. solve_quietly. Qed.

Lemma q_checkReadDelay : quietly (_checkReadDelay storage).
Proof. unfold _checkReadDelay. solve_quietly. Qed.

Lemma q_collectStatistics : quietly (_collectStatistics storage).
Proof. unfold _collectStatistics. solve_quietly. Qed.

Lemma q_refreshDomain : quietly (_refreshDomain storage).
Proof. unfold _refreshDomain. solve_quietly. Qed.

(** The domain is produced only while there is none, and then there is
    one. *)
Lemma produce_if_needed (s : St) :
  let m := if bool_decide (domain (self s) = None)
           then _produceDomain storage else mret tt in
  grows s (m s).2 ∧ ((m s).1 = Ok tt → is_Some (domain (self (m s).2))).
Proof.
  intros m. subst m. case_bool_decide as Hd.
  - destruct (_produceDomain storage s) as [r s'] eqn:H. cbn [fst snd].
    destruct s as [[dm sd hid iv fc pd st ns iso isop lr rt] k tr0 lg].
    cbn [self domain] in Hd. subst dm.
    run_in H.
    all: injection H as <- <-; unfold grows; fields.
    all: split; [|try done; eauto].
    all: repeat split; try done.
    all: first [ exists []; split; [by rewrite app_nil_r | constructor]
               | eexists; split; [reflexivity | by apply Forall_singleton] ].
  - split; [apply grows_refl|]. intros _.
    change (is_Some (domain (self s))).
    destruct (domain (self s)); [eauto | done].
Qed.

Lemma iso_if_needed (s : St) :
  let m := if bool_decide (isIsoDomain (self s) = None)
           then _setIsoDomainInfo storage else mret tt in
  grows s (m s).2 ∧ ((m s).1 = Ok tt → is_Some (isIsoDomain (self (m s).2))).
Proof.
  intros m. subst m. case_bool_decide as Hd.
  - destruct (_setIsoDomainInfo storage s) as [r s'] eqn:H. cbn [fst snd].
    destruct s as [[dm sd hid iv fc pd st ns iso isop lr rt] k tr0 lg].
    cbn [self isIsoDomain] in Hd. subst iso.
    run_in H.
    all: injection H as <- <-; unfold grows; fields.
    all: split; [|try done; eauto].
    all: repeat split; try done.
    all: first [ exists []; split; [by rewrite app_nil_r | constructor]
               | eexists; split;
                 [rewrite <- ?app_assoc; reflexivity
                 | repeat (apply Forall_cons; split; [exact I|]);
                   apply Forall_nil_2 ] ].
  - split; [apply grows_refl|]. intros _.
    change (is_Some (isIsoDomain (self s))).
    destruct (isIsoDomain (self s)); [eauto | done].
Qed.

Lemma grows_domain s s' :
  grows s s' → is_Some (domain (self s)) → is_Some (domain (self s')).
Proof. intros (_ & _ & H & _) [d Hd]. exists d. by apply H. Qed.

Lemma grows_iso s s' :
  grows s s' → is_Some (isIsoDomain (self s)) →
  is_Some (isIsoDomain (self s')).
Proof. intros (_ & _ & _ & H & _) [d Hd]. exists d. by apply H. Qed.

(** The probe: a probe that completes has a domain handle and knows whether
    the domain is an ISO domain. *)
Lemma probe_run (s : St) :
  grows s (probe storage s).2
  ∧ ((probe storage s).1 = Ok tt →
     is_Some (domain (self (probe storage s).2))
     ∧ is_Some (isIsoDomain (self (probe storage s).2))).
Proof.
  unfold probe. rewrite bind_run. cbn [this]. rewrite bind_run.
  destruct (produce_if_needed s) as [G1 D1]. cbv zeta in G1, D1.
  destruct ((if bool_decide (domain (self s) = None)
             then _produceDomain storage else mret tt) s) as [[[]|e] s1];
    cbn [fst snd] in *; [|split; [exact G1 | intros [=]]].
  rewrite bind_run. cbn [this]. rewrite bind_run.
  destruct (iso_if_needed s1) as [G2 D2]. cbv zeta in G2, D2.
  destruct ((if bool_decide (isIsoDomain (self s1) = None)
             then _setIsoDomainInfo storage else mret tt) s1) as [[[]|e] s2];
    cbn [fst snd] in *;
    [|split; [by eapply grows_trans | intros [=]]].
  assert (quietly (_performDomainSelftest storage ≫= λ _,
                   _checkReadDelay storage ≫= λ _,
                   _collectStatistics storage)) as Hq.
  { apply q_bind; [apply q_performDomainSelftest|]. intros _.
    apply q_bind; [apply q_checkReadDelay|]. intros _.
    apply q_collectStatistics. }
  specialize (Hq s2).
  split.
  - eapply grows_trans; [exact G1|]. by eapply grows_trans.
  - intros _. split.
    + eapply grows_domain; [exact Hq|]. eapply grows_domain; [exact G2|]. auto.
    + eapply grows_iso; [exact Hq|]. auto.
Qed.

(** The [try] statement: an exception of the probe is recorded in the error
    slot of [nextStatus], and the statement completes; only [Canceled] gets
    through. *)
Lemma collect_run (s : St) :
  let r := (collect storage s).1 in
  let s' := (collect storage s).2 in
  sdUUID (self s') = sdUUID (self s)
  ∧ hostId (self s') = hostId (self s)
  ∧ (∀ d, domain (self s) = Some d → domain (self s') = Some d)
  ∧ (∀ b, isIsoDomain (self s) = Some b → isIsoDomain (self s') = Some b)
  ∧ (∃ tr, trace s' = trace s ++ tr ∧ Forall probing tr)
  ∧ match (probe storage s).1 with
    | Ok _ =>
        r = Ok tt
        ∧ error (nextStatus (self s')) = error (nextStatus (self s))
        ∧ is_Some (domain (self s')) ∧ is_Some (isIsoDomain (self s'))
    | Raise e =>
        if is_Exception e
        then r = Ok tt ∧ error (nextStatus (self s')) = Some e
        else r = Raise e
    end.
Proof.
  unfold collect, try_except.
  destruct (probe_run s) as [G D].
  destruct (probe storage s) as [[[]|e] s1]; cbn [fst snd] in *.
  - destruct G as (G1 & G2 & G3 & G4 & G5 & G6).
    destruct (D eq_refl) as [D1 D2]. repeat split; auto.
  - destruct G as (G1 & G2 & G3 & G4 & G5 & G6).
    destruct (is_Exception e) eqn:He; cbn [fst snd].
    + rewrite !bind_run. cbn [this]. rewrite !bind_run.
      destruct s1 as [[dm sd hid iv fc pd st
                         [er ct vl rd mm mv du vu ve vb hh ip ver]
                         iso isop lr rt] k tr0 lg].
      cbv beta iota zeta delta [log set_next set_self modify] in *.
      fields. repeat split; auto.
    + repeat split; auto.
Qed.

(** The start of a tick: [nextStatus] is cleared, the cached domain may be
    refreshed. *)
Lemma prepare_run (s : St) :
  let s' := (prepare storage s).2 in
  sdUUID (self s') = sdUUID (self s)
  ∧ hostId (self s') = hostId (self s)
  ∧ domain (self s') = domain (self s)
  ∧ isIsoDomain (self s') = isIsoDomain (self s)
  ∧ error (nextStatus (self s')) = None
  ∧ ∃ tr, trace s' = trace s ++ tr ∧ Forall probing tr.
Proof.
  destruct (prepare storage s) as [r s'] eqn:H. cbn [fst snd].
  destruct s as [[dm sd hid iv fc pd st ns iso isop lr rt] k tr0 lg].
  run_in H.
  all: injection H as <- <-; fields.
  all: do 5 (split; [reflexivity|]).
  all: first [ exists []; split; [by rewrite app_nil_r | constructor]
             | eexists; split; [reflexivity | by apply Forall_singleton] ].
Qed.

(** C4.  Take a tick whose probe (producing the domain, querying the ISO
    info, the selftest, the read delay, the statistics) raises an exception
    [e].  The tick records [e] in [nextStatus.error] and sets
    [nextStatus.valid] to false, which is (error is None); it ends normally,
    or with [Canceled] when the stop event has been set.  The loop does not
    end because of it: run from there for any number of iterations it never
    raises, it has exited only with the stop event set, and as long as the
    stop event is not set it waits and goes on with the next iteration. *)
Theorem probe_errors_are_recorded (fuel : nat) (s s0 s1 : St) (e : exn) :
  prepare storage s = (Ok tt, s0) →
  probe storage s0 = (Raise e, s1) →
  is_Exception e = true →
  let r := (_monitorDomain storage s).1 in
  let s' := (_monitorDomain storage s).2 in
  error (nextStatus (self s')) = Some e
  ∧ valid (nextStatus (self s'))
    = bool_decide (error (nextStatus (self s')) = None)
  ∧ valid (nextStatus (self s')) = false
  ∧ (r = Ok tt ∨ (r = Raise Canceled ∧ stop_is_set storage (kern s') = true))
  ∧ (∃ o s2, _monitorLoop storage (Datatypes.S fuel) s = (Ok o, s2)
             ∧ stop_is_set storage (kern s2) = bool_decide (o = Some tt))
  ∧ (stop_is_set storage (kern s) = false → r = Ok tt →
     _monitorLoop storage (Datatypes.S fuel) s
     = _monitorLoop storage fuel
         (mkState (self s')
            (stop_wait storage (interval (self s')) (kern s'))
            (trace s' ++ [Wait (interval (self s'))]) (logs s'))).
Proof.
  intros Hprep Hprobe He r s'.
  assert (error (nextStatus (self s')) = Some e
          ∧ valid (nextStatus (self s')) = false
          ∧ (r = Ok tt ∨ r = Raise Canceled)) as (Herr & Hval & Hr).
  { subst r s'. unfold _monitorDomain. rewrite bind_run, Hprep, bind_run.
    pose proof (collect_run s0) as Hc. cbv zeta in Hc.
    rewrite Hprobe in Hc. cbn [fst] in Hc. rewrite He in Hc.
    destruct Hc as (_ & _ & _ & _ & _ & Hrc & Hec).
    destruct (collect storage s0) as [rc s0'] eqn:Ec. cbn [fst snd] in *.
    subst rc.
    pose proof (publish_run s0') as Hp. cbv zeta in Hp.
    destruct Hp as (Hns & _ & _ & _ & _ & Hr & _).
    rewrite Hns. rewrite Hec.
    destruct (nextStatus (self s0')). cbn. done. }
  split; [done|]. split; [by rewrite Herr, Hval|]. split; [done|]. split.
  - destruct Hr as [Hr|Hr]; [by left|]. right. split; [done|].
    by apply cbs_monitorDomain.
  - split; [apply monitorLoop_exit|].
    intros Hstop Hok. rewrite monitorLoop_unfold, Hstop.
    subst r s'. destruct (_monitorDomain storage s) as [r s'].
    cbn [fst snd] in *. by subst r.
Qed.

(** *** Host id requests of a tick *)

Lemma probing_not_host_id tr :
  Forall probing tr → ∀ ev, ev ∈ tr → ¬ is_acquire ev ∧ ¬ is_release ev.
Proof.
  intros H ev Hev. rewrite Forall_forall in H. apply H in Hev.
  destruct ev; simpl in *; tauto.
Qed.

(** Summary of a tick. *)
Lemma monitorDomain_run (s : St) :
  let r := (_monitorDomain storage s).1 in
  let s' := (_monitorDomain storage s).2 in
  sdUUID (self s') = sdUUID (self s)
  ∧ hostId (self s') = hostId (self s)
  ∧ (∀ d, domain (self s) = Some d → domain (self s') = Some d)
  ∧ (∀ b, isIsoDomain (self s) = Some b → isIsoDomain (self s') = Some b)
  ∧ ∃ tr, trace s' = trace s ++ tr
      ∧ (∀ ev, ev ∈ tr → ¬ is_release ev)
      ∧ (∀ ev, ev ∈ tr → is_acquire ev →
           acquire_due (self s') = true
           ∧ ∃ d, ev = AcquireHostId d (hostId (self s))
                  ∧ domain (self s') = Some d
                  ∧ isIsoDomain (self s') = Some false)
      ∧ (r = Ok tt → acquire_due (self s') = true →
           ∃ d, AcquireHostId d (hostId (self s)) ∈ tr).
Proof.
  unfold _monitorDomain. rewrite bind_run.
  pose proof (prepare_run s) as Hp. cbv zeta in Hp.
  destruct Hp as (P1 & P2 & P3 & P4 & P5 & tr1 & P6 & P7).
  destruct (prepare storage s) as [[[]|e] s0]; cbn [fst snd] in *.
  2:{ rewrite P1, P2, P3, P4. do 4 (split; [done|]).
      exists tr1. split; [done|]. split; [|split].
      - intros ev Hev. by apply (probing_not_host_id tr1 P7 ev).
      - intros ev Hev Ha. by apply (probing_not_host_id tr1 P7 ev) in Ha.
      - intros [=]. }
  rewrite bind_run.
  pose proof (collect_run s0) as Hc. cbv zeta in Hc.
  destruct Hc as (C1 & C2 & C3 & C4 & (tr2 & C5 & C6) & C7).
  destruct (collect storage s0) as [rc s1]; cbn [fst snd] in *.
  assert (rc = Ok tt → error (nextStatus (self s1)) = None →
          is_Some (domain (self s1)) ∧ is_Some (isIsoDomain (self s1)))
    as Hvalid.
  { intros Hrc Hn. destruct (probe storage s0) as [[[]|e] ?]; cbn [fst] in C7.
    - tauto.
    - destruct (is_Exception e); [destruct C7|]; congruence. }
  destruct rc as [[]|e]; cbn [fst snd].
  2:{ do 2 (split; [congruence|]).
      split; [intros d Hd; apply C3; by rewrite P3|].
      split; [intros b Hb; apply C4; by rewrite P4|].
      exists (tr1 ++ tr2). rewrite C5, P6, app_assoc. split; [done|].
      assert (Forall probing (tr1 ++ tr2)) as Hf by by apply Forall_app.
      split; [|split].
      - intros ev Hev. by apply (probing_not_host_id _ Hf ev).
      - intros ev Hev Ha. by apply (probing_not_host_id _ Hf ev) in Ha.
      - intros [=]. }
  pose proof (publish_run s1) as Hq. cbv zeta in Hq.
  destruct Hq as (Q1 & Q2 & Q3 & Q4 & Q5 & Q6 & tr3 & Q7 & Q8 & Q9).
  destruct (publish storage s1) as [r s']; cbn [fst snd] in *.
  do 2 (split; [congruence|]).
  split; [intros d Hd; rewrite Q2; apply C3; by rewrite P3|].
  split; [intros b Hb; rewrite Q3; apply C4; by rewrite P4|].
  exists ((tr1 ++ tr2) ++ tr3). rewrite Q7, C5, P6, !app_assoc.
  split; [done|].
  assert (Forall probing (tr1 ++ tr2)) as Hf by by apply Forall_app.
  assert (acquire_due (self s') = true →
          is_Some (domain (self s1)) ∧ isIsoDomain (self s1) = Some false)
    as Hdue.
  { intros Hd. unfold acquire_due, not_isIsoDomain in Hd.
    apply andb_prop in Hd as [Hi Hv]. apply andb_prop in Hv as [Hv _].
    rewrite Q1 in Hv. cbn [valid st_with_valid] in Hv.
    apply bool_decide_eq_true in Hv.
    destruct Hvalid as [Hdm His]; [done | done|]. split; [done|].
    rewrite Q3 in Hi. destruct His as [[] His]; rewrite His in *; done. }
  split; [|split].
  - intros ev Hev. apply elem_of_app in Hev as [Hev|Hev].
    + by apply (probing_not_host_id _ Hf ev).
    + apply Q8 in Hev as [-> | (d & -> & _)]; simpl; tauto.
  - intros ev Hev Ha. apply elem_of_app in Hev as [Hev|Hev].
    + by apply (probing_not_host_id _ Hf ev) in Ha.
    + apply Q8 in Hev as [-> | (d & -> & Hd & Hdue')]; [done|].
      split; [done|]. exists d. rewrite C2, P2, Q2, Q3.
      split; [done|]. split; [done|]. by apply Hdue.
  - intros Hr Hd. destruct (Hdue Hd) as [[d Hdm] _].
    exists d. apply elem_of_app. right.
    rewrite <- P2, <- C2. by apply Q9.
Qed.

(** A request for the host id is made through [_acquireHostId], which logs a
    failure of the request and does not raise it. *)
(** [_acquireHostId] from a state with a domain object: nothing is done when
    the stop event is set already; else the request is made, its failure is
    logged, and the stop event is looked at again. *)
Lemma acquireHostId_run (s : St) (d : Domain) :
  domain (self s) = Some d →
  let o := (dom_acquireHostId storage d (hostId (self s)) (kern s)).1 in
  let k' := (dom_acquireHostId storage d (hostId (self s)) (kern s)).2 in
  _acquireHostId storage s
  = if stop_is_set storage (kern s) then (Raise Canceled, s)
    else
      (if stop_is_set storage k' then Raise Canceled else Ok tt,
       mkState (self s) k' (trace s ++ [AcquireHostId d (hostId (self s))])
         (match o with
          | inl _ => logs s
          | inr _ =>
              logs s ++
              [mkLog "debug"
                 "Unable to issue the acquire host id %s request for domain %s"
                 [PInt (hostId (self s)); PStr (sdUUID (self s))]]
          end)).
Proof.
  intros Hd o k'. subst o k'.
  destruct s as [[dm sd hid iv fc pd st ns iso isop lr rt] k tr0 lg].
  cbn [self kern domain hostId sdUUID trace logs] in *. subst dm.
  cbv beta iota zeta delta
    [_acquireHostId cancelpoint __canceled__ the_domain this ask log call
     try_except modify raise mbind M_bind mret M_ret to_res
     self kern trace logs domain hostId sdUUID].
  destruct (stop_is_set storage k); [done|].
  destruct (dom_acquireHostId storage d hid k) as [[[]|[e He]] k1];
    cbn [fst snd proj1_sig] in *; by destruct (stop_is_set storage k1).
Qed.

(** C5, as the code has it.  In every tick a host id request is made only
    when the domain is known not to be an ISO domain, [nextStatus.valid] is
    true and [nextStatus.hasHostId] is False; in a tick that runs to its end
    the request is made if and only if this holds.  [_acquireHostId] is a
    cancellation point: when the stop event is set as it is entered it
    raises [Canceled] and no request is made, whatever the condition; else
    the request is made, a failure of the request is logged and not raised,
    and the call returns normally unless the stop event has been set
    meanwhile. *)
Theorem acquire_requested_when_due (s : St) :
  let r := (_monitorDomain storage s).1 in
  let s' := (_monitorDomain storage s).2 in
  let due := isIsoDomain (self s') = Some false
             ∧ valid (nextStatus (self s')) = true
             ∧ hasHostId (nextStatus (self s')) = PBool false in
  (∃ tr, trace s' = trace s ++ tr
     ∧ (∀ ev, ev ∈ tr → is_acquire ev →
          due ∧ ∃ d, ev = AcquireHostId d (hostId (self s))
                     ∧ domain (self s') = Some d)
     ∧ (r = Ok tt →
          (due ↔ ∃ d, AcquireHostId d (hostId (self s)) ∈ tr)))
  ∧ (∀ (s1 : St) (d : Domain),
       domain (self s1) = Some d →
       let o := (dom_acquireHostId storage d (hostId (self s1)) (kern s1)).1 in
       let k' := (dom_acquireHostId storage d (hostId (self s1)) (kern s1)).2 in
       _acquireHostId storage s1
       = if stop_is_set storage (kern s1) then (Raise Canceled, s1)
         else
           (if stop_is_set storage k' then Raise Canceled else Ok tt,
            mkState (self s1) k'
              (trace s1 ++ [AcquireHostId d (hostId (self s1))])
              (match o with
               | inl _ => logs s1
               | inr _ =>
                   logs s1 ++
                   [mkLog "debug"
                      "Unable to issue the acquire host id %s request for domain %s"
                      [PInt (hostId (self s1)); PStr (sdUUID (self s1))]]
               end))).
Proof.
  intros r s' due. split; [|apply acquireHostId_run].
  destruct (monitorDomain_run s) as (_ & _ & _ & _ & tr & Ht & _ & Ha & Hd).
  subst due r s'. cbv zeta in Ha, Hd.
  assert (∀ t, acquire_due t = true →
               isIsoDomain t = Some false →
               valid (nextStatus t) = true
               ∧ hasHostId (nextStatus t) = PBool false) as Hdue.
  { intros t H _. unfold acquire_due in H.
    apply andb_prop in H as [_ H]. apply andb_prop in H as [H1 H2].
    split; [done|]. by destruct (hasHostId (nextStatus t)) as [|[]| | | |]. }
  exists tr. split; [done|]. split.
  - intros ev Hev Hacq.
    destruct (Ha ev Hev Hacq) as (H1 & d & -> & Hdom & Hiso).
    split; [|by exists d].
    split; [done|]. by apply Hdue.
  - intros Hr. split.
    + intros (Hiso & Hv & Hh). apply Hd; [done|].
      unfold acquire_due, not_isIsoDomain. by rewrite Hiso, Hv, Hh.
    + intros (d & Hin).
      destruct (Ha _ Hin) as (H1 & d' & _ & _ & Hiso); [done|].
      split; [done|]. by apply Hdue.
Qed.

(** *** From start to shutdown *)

Lemma runs_to_same s s' :
  self s' = self s → trace s' = trace s → runs_to s s'.
Proof.
  intros Hs Ht. unfold runs_to. rewrite Hs. repeat split; auto.
  exists []. rewrite app_nil_r. split; [done|]. split.
  - intros ev Hev. by apply elem_of_nil in Hev.
  - intros (ev & Hev & _). by apply elem_of_nil in Hev.
Qed.

Lemma runs_to_trans s1 s2 s3 : runs_to s1 s2 → runs_to s2 s3 → runs_to s1 s3.
Proof.
  intros (A1 & A2 & A3 & A4 & tr1 & A5 & A6 & A7)
         (B1 & B2 & B3 & B4 & tr2 & B5 & B6 & B7).
  unfold runs_to. do 2 (split; [congruence|]).
  do 2 (split; [auto|]).
  exists (tr1 ++ tr2). rewrite B5, A5, app_assoc. split; [done|]. split.
  - intros ev Hev. apply elem_of_app in Hev as [Hev|Hev]; auto.
  - intros (ev & Hev & Hacq). apply elem_of_app in Hev as [Hev|Hev].
    + destruct A7 as [[d Hd] Hi]; [eauto|]. split; [|auto].
      exists d. auto.
    + apply B7. eauto.
Qed.

Lemma runs_to_tick s : runs_to s (_monitorDomain storage s).2.
Proof.
  destruct (monitorDomain_run s) as (H1 & H2 & H3 & H4 & tr & H5 & H6 & H7 & _).
  unfold runs_to. do 4 (split; [done|]).
  exists tr. do 2 (split; [done|]).
  intros (ev & Hev & Hacq).
  destruct (H7 ev Hev Hacq) as (_ & d & _ & Hd & Hi). eauto.
Qed.

Lemma runs_to_wait s z k' lg :
  runs_to s (mkState (self s) k' (trace s ++ [Wait z]) lg).
Proof.
  unfold runs_to. cbn [self trace]. repeat split; auto.
  exists [Wait z]. split; [done|]. split.
  - intros ev Hev. apply list_elem_of_singleton in Hev as ->. simpl. tauto.
  - intros (ev & Hev & Hacq).
    apply list_elem_of_singleton in Hev as ->. done.
Qed.

Lemma monitorLoop_run (fuel : nat) :
  ∀ s, runs_to s (_monitorLoop storage fuel s).2.
Proof.
  induction fuel as [|fuel IH]; intros s.
  - cbn [_monitorLoop]. rewrite bind_run. cbn [ask].
    destruct (stop_is_set storage (kern s)); by apply runs_to_same.
  - rewrite monitorLoop_unfold.
    destruct (stop_is_set storage (kern s)); [by apply runs_to_same|].
    pose proof (runs_to_tick s) as Ht.
    destruct (_monitorDomain storage s) as [[[]|e] s1]; cbn [snd] in Ht.
    + eapply runs_to_trans; [exact Ht|].
      eapply runs_to_trans; [|apply IH]. apply runs_to_wait.
    + assert (∀ lg, runs_to s (mkState (self s1) (kern s1) (trace s1) lg))
        as Hlog.
      { intros lg. eapply runs_to_trans; [exact Ht|]. by apply runs_to_same. }
      destruct e; try (eapply runs_to_trans; [apply Hlog|];
                       eapply runs_to_trans; [|apply IH]; apply runs_to_wait).
      apply Hlog.
Qed.

(** The [finally] block of [_run]: the release is attempted when there is a
    domain handle and the domain is not (known to be) an ISO domain; a
    failure of the release is logged; the block never raises. *)
Lemma shutdown_run (s : St) :
  let t := self s in
  let stopping := mkLog "debug" "Stopping domain monitor for %s"
                        [PStr (sdUUID t)] in
  shutdown storage s =
  match domain t with
  | Some d =>
      if not_isIsoDomain t then
        let o := (dom_releaseHostId storage d (hostId t) (kern s)).1 in
        let k' := (dom_releaseHostId storage d (hostId t) (kern s)).2 in
        (Ok tt,
         mkState t k' (trace s ++ [ReleaseHostId d (hostId t)])
           (match o with
            | inl _ => logs s ++ [stopping]
            | inr _ =>
                (logs s ++ [stopping]) ++
                [mkLog "debug" "Unable to release the host id %s for domain %s"
                   [PInt (hostId t); PStr (sdUUID t)]]
            end))
      else (Ok tt, mkState t (kern s) (trace s) (logs s ++ [stopping]))
  | None => (Ok tt, mkState t (kern s) (trace s) (logs s ++ [stopping]))
  end.
Proof.
  destruct s as [[dm sd hid iv fc pd st ns iso isop lr rt] k tr0 lg].
  cbv beta iota zeta delta
    [shutdown _shouldReleaseHostId _releaseHostId the_domain this ask log call
     try_except modify raise mbind M_bind mret M_ret to_res
     self kern trace logs domain hostId sdUUID isIsoDomain not_isIsoDomain].
  destruct dm as [d|].
  - rewrite bool_decide_eq_true_2 by eauto.
    destruct (negb (default false iso)); cbn [andb]; [|done].
    destruct (dom_releaseHostId storage d hid k) as [[[]|[e He]] k1]; done.
  - rewrite bool_decide_eq_false_2 by (intros [? [=]]). done.
Qed.

(** C2, as the code has it.  [_run] never raises.  When its loop has ended,
    the events of the run are those of the loop, with no release among them,
    followed by the release of the host id exactly when a domain handle was
    produced and the thread's [isIsoDomain] flag is not True
    ([not self.isIsoDomain]): the flag of a domain whose ISO information
    could never be read is still None, and its host id is released as well.
    A task that requested the host id attempts exactly one release, as its
    last action.  While the loop has not ended (the stop event is not set)
    nothing is released.  The [finally] block never raises: a failing
    release is logged.  The last part spells out the events of the release
    in terms of the thread's [domain] and [isIsoDomain]. *)
Theorem host_id_released_at_shutdown (fuel : nat) (s : St) :
  let r := (_run storage fuel s).1 in
  let s' := (_run storage fuel s).2 in
  (∃ tr, trace s' = trace s ++ tr
     ∧ ((r = Ok (Some tt)
         ∧ ∃ tr0, tr = tr0 ++ release_at_exit (self s')
             ∧ (∀ ev, ev ∈ tr0 → ¬ is_release ev)
             ∧ ((∃ ev, ev ∈ tr0 ∧ is_acquire ev) →
                  ∃ d, release_at_exit (self s')
                       = [ReleaseHostId d (hostId (self s))]))
        ∨ (r = Ok None
           ∧ stop_is_set storage (kern s') = false
           ∧ ∀ ev, ev ∈ tr → ¬ is_release ev)))
  ∧ (∀ s1 : St,
       (shutdown storage s1).1 = Ok tt
       ∧ self (shutdown storage s1).2 = self s1
       ∧ trace (shutdown storage s1).2
         = trace s1 ++ release_at_exit (self s1)
       ∧ ∀ d, domain (self s1) = Some d →
              not_isIsoDomain (self s1) = true →
              ∀ e, (dom_releaseHostId storage d (hostId (self s1))
                      (kern s1)).1 = inr e →
                   logs (shutdown storage s1).2
                   = logs s1 ++
                     [mkLog "debug" "Stopping domain monitor for %s"
                        [PStr (sdUUID (self s1))];
                      mkLog "debug"
                        "Unable to release the host id %s for domain %s"
                        [PInt (hostId (self s1)); PStr (sdUUID (self s1))]])
  ∧ (∀ t : Thread,
       release_at_exit t
       = match domain t, isIsoDomain t with
         | Some d, Some true => []
         | Some d, _ => [ReleaseHostId d (hostId t)]
         | None, _ => []
         end).
Proof.
  assert (∀ t : Thread,
       release_at_exit t
       = match domain t, isIsoDomain t with
         | Some d, Some true => []
         | Some d, _ => [ReleaseHostId d (hostId t)]
         | None, _ => []
         end) as Hrel.
  { intros t. unfold release_at_exit, not_isIsoDomain.
    destruct (domain t); [|done]. by destruct (isIsoDomain t) as [[]|]. }
  assert (∀ s1 : St,
       (shutdown storage s1).1 = Ok tt
       ∧ self (shutdown storage s1).2 = self s1
       ∧ trace (shutdown storage s1).2
         = trace s1 ++ release_at_exit (self s1)
       ∧ ∀ d, domain (self s1) = Some d →
              not_isIsoDomain (self s1) = true →
              ∀ e, (dom_releaseHostId storage d (hostId (self s1))
                      (kern s1)).1 = inr e →
                   logs (shutdown storage s1).2
                   = logs s1 ++
                     [mkLog "debug" "Stopping domain monitor for %s"
                        [PStr (sdUUID (self s1))];
                      mkLog "debug"
                        "Unable to release the host id %s for domain %s"
                        [PInt (hostId (self s1)); PStr (sdUUID (self s1))]])
    as Hshut.
  { intros s1. rewrite shutdown_run. unfold release_at_exit.
    destruct (domain (self s1)) as [d|] eqn:Hd.
    - destruct (not_isIsoDomain (self s1)) eqn:Hiso; cbn [fst snd self trace].
      + do 3 (split; [done|]).
        intros d' [= <-] _ e He. cbn [logs]. rewrite He.
        by rewrite <- app_assoc.
      + rewrite app_nil_r. do 3 (split; [done|]). intros; discriminate.
    - cbn [fst snd self trace]. rewrite app_nil_r.
      do 3 (split; [done|]). intros; discriminate. }
  intros r s'. split; [|by split].
  subst r s'. unfold _run. rewrite !bind_run.
  cbv beta iota zeta delta [this ask log modify mbind M_bind mret M_ret].
  set (s0 := mkState (self s) (kern s) (trace s) _).
  destruct (monitorLoop_exit fuel s0) as (o & s1 & Hloop & Hstop).
  pose proof (monitorLoop_run fuel s0) as Hrun.
  rewrite Hloop in Hrun |- *. cbn [snd] in Hrun.
  destruct Hrun as (_ & Hid & _ & _ & tr0 & Htr & Hnorel & Hacq).
  cbn [self trace] in Hid, Htr.
  destruct o as [[]|].
  - unfold try_finally, lift.
    destruct (Hshut s1) as (Hr & Hself & Htrace & _).
    destruct (shutdown storage s1) as [[[]|e] s2]; [|done].
    cbn [fst snd] in *.
    exists (tr0 ++ release_at_exit (self s1)).
    split; [by rewrite Htrace, Htr, app_assoc|].
    left. split; [done|]. rewrite Hself.
    exists tr0. do 2 (split; [done|]).
    intros Hex. destruct (Hacq Hex) as [[d Hd] Hiso].
    exists d. unfold release_at_exit, not_isIsoDomain.
    by rewrite Hd, Hiso, Hid.
  - cbn [fst snd]. exists tr0. split; [done|]. right.
    split; [done|]. split; [|done].
    rewrite Hstop. by apply bool_decide_eq_false_2.
Qed.

(** *** Invariants along a run *)

#[local] Abbreviation follows := (follows (K:=K)).
#[local] Abbreviation along := (along (K:=K)).

Section Along.
Context (I : Thread → Prop) (P : Event → Prop).

Lemma follows_refl s : I (self s) → follows I P s s.
Proof. intros HI. split; [done|]. exists []. by rewrite app_nil_r. Qed.

Lemma follows_trans s1 s2 s3 :
  follows I P s1 s2 → follows I P s2 s3 → follows I P s1 s3.
Proof.
  intros (_ & tr1 & Ht1 & HP1) (HI & tr2 & Ht2 & HP2).
  split; [done|]. exists (tr1 ++ tr2).
  rewrite Ht2, Ht1, app_assoc. split; [done|]. by apply Forall_app.
Qed.

Lemma follows_same s s' :
  self s' = self s → trace s' = trace s → I (self s) → follows I P s s'.
Proof.
  intros Hs Ht HI. split; [by rewrite Hs|]. exists [].
  by rewrite app_nil_r.
Qed.

Lemma along_same {A} (m : M St A) :
  (∀ s, self (m s).2 = self s ∧ trace (m s).2 = trace s) → along I P m.
Proof. intros Hm s HI. destruct (Hm s). by apply follows_same. Qed.

Lemma along_ret {A} (a : A) : along I P (mret a).
Proof. by apply along_same. Qed.
Lemma along_raise {A} (e : exn) : along I P (raise e : M St A).
Proof. by apply along_same. Qed.
Lemma along_this : along I P this.
Proof. by apply along_same. Qed.
Lemma along_ask {A} (f : K → A) : along I P (ask f).
Proof. by apply along_same. Qed.
Lemma along_log l f a : along I P (log l f a).
Proof. by apply along_same. Qed.
Lemma along_item d k : along I P (item d k).
Proof. apply along_same. intros s. unfold item. by destruct (d !! k). Qed.
Lemma along_the_domain : along I P the_domain.
Proof.
  apply along_same. intros s. unfold the_domain, this. rewrite bind_run.
  by destruct (domain (self s)).
Qed.

Lemma along_call {A} ev (op : K → outcome A * K) :
  P ev → along I P (call ev op).
Proof.
  intros Hev s HI. unfold call. destruct (op (kern s)) as [o k'].
  split; [done|]. exists [ev]. split; [done|]. by apply Forall_singleton.
Qed.

Lemma along_set_self f : (∀ t, I t → I (f t)) → along I P (set_self f).
Proof.
  intros Hf s HI. split; [by apply Hf|]. exists []. cbn. by rewrite app_nil_r.
Qed.

Lemma along_set_next f :
  (∀ t x, I t → I (with_nextStatus x t)) → along I P (set_next f).
Proof. intros Hf. apply along_set_self. intros t. apply Hf. Qed.

Lemma follows_bind {A B} (m : M St A) (f : A → M St B) s :
  follows I P s (m s).2 → (∀ a, along I P (f a)) →
  follows I P s ((m ≫= f) s).2.
Proof.
  intros Hm Hf. rewrite bind_run.
  destruct (m s) as [[a|e] s1]; [|exact Hm].
  eapply follows_trans; [exact Hm|]. apply Hf. apply Hm.
Qed.

Lemma along_bind {A B} (m : M St A) (f : A → M St B) :
  along I P m → (∀ a, along I P (f a)) → along I P (m ≫= f).
Proof. intros Hm Hf s HI. apply follows_bind; [by apply Hm | done]. Qed.

Lemma along_try_except {A} (m : M St A) c h :
  along I P m → (∀ e, along I P (h e)) → along I P (try_except m c h).
Proof.
  intros Hm Hh s HI. unfold try_except. specialize (Hm s HI).
  destruct (m s) as [[a|e] s1]; [exact Hm|].
  destruct (c e); [|exact Hm].
  eapply follows_trans; [exact Hm|]. apply Hh. apply Hm.
Qed.

Lemma along_cancelpoint {A} (m : M St A) :
  along I P m → along I P (cancelpoint storage m).
Proof.
  intros Hm. unfold cancelpoint, __canceled__.
  apply along_bind; [apply along_ask|]. intros [|]; [apply along_raise|].
  apply along_bind; [exact Hm|]. intros a.
  apply along_bind; [apply along_ask|].
  intros [|]; [apply along_raise | apply along_ret].
Qed.

End Along.

(** Structural steps; the conditions on events and on field updates are
    left to [side]. *)
Ltac solve_along side :=
  repeat first
    [ apply along_ret | apply along_raise | apply along_this | apply along_ask
    | apply along_log | apply along_item | apply along_the_domain
    | apply along_call; side
    | apply along_set_next; side
    | apply along_set_self; side
    | apply along_cancelpoint
    | apply along_bind; [|intros ?]
    | apply along_try_except; [|intros ?]
    | match goal with
      | |- along _ _ (match ?x with _ => _ end) => destruct x
      | |- along _ _ (if ?x then _ else _) => destruct x
      end ].

(** *** The published status *)

Ltac unpublished_side :=
  first [ exact Logic.I | by intros [] | by intros [] ? ].

Lemma prepare_unpublished t0 : along (unpublished t0) probing (prepare storage).
Proof.
  unfold prepare, _shouldRefreshDomain, _refreshDomain.
  solve_along unpublished_side.
Qed.

Lemma collect_unpublished t0 : along (unpublished t0) probing (collect storage).
Proof.
  unfold collect, probe, _produceDomain, _setIsoDomainInfo,
    _performDomainSelftest, _checkReadDelay, _collectStatistics.
  solve_along unpublished_side.
Qed.

Lemma emitted_probing tr : Forall probing tr → emitted tr = [].
Proof.
  induction 1 as [|ev tr Hev _ IH]; [done|].
  unfold emitted in *. cbn [omap list_omap]. rewrite IH. by destruct ev.
Qed.

Lemma emitted_app tr1 tr2 : emitted (tr1 ++ tr2) = emitted tr1 ++ emitted tr2.
Proof. apply omap_app. Qed.

(** [publish] notifies the subscribers when the validity differs from the
    published one, or on the first change, and replaces the published status
    only as its last step. *)
Lemma publish_status (s : St) :
  let r := (publish storage s).1 in
  let s' := (publish storage s).2 in
  let t := self s in
  let v := bool_decide (error (nextStatus t) = None) in
  (r = Ok tt →
     status (self s') = nextStatus (self s')
     ∧ firstChange (self s') = false
     ∧ valid (status (self s')) = v
     ∧ ∃ tr, trace s' = trace s ++ tr
         ∧ emitted tr = if firstChange t || negb (Bool.eqb (valid (status t)) v)
                        then [(sdUUID t, v)] else [])
  ∧ (r ≠ Ok tt → status (self s') = status t).
Proof.
  destruct (publish storage s) as [r s'] eqn:H. cbn [fst snd].
  destruct s as [[dm sd hid iv fc pd [er0 ct0 vl0 rd0 mm0 mv0 du0 vu0 ve0 vb0 hh0 ip0 ver0]
                    [er ct vl rd mm mv du vu ve vb hh ip ver]
                    iso isop lr rt] k tr0 lg].
  run_in H.
  all: injection H as <- <-.
  all: fields.
  all: repeat match goal with
       | E : bool_decide _ = _ |- _ => rewrite E in *; clear E
       | E : (_ || _) = _ |- _ => rewrite E in *; clear E
       end.
  all: split; [intros Hr; try discriminate Hr | intros Hr; try done].
  all: do 3 (split; [reflexivity|]).
  all: first [ exists []; split; [by rewrite app_nil_r | reflexivity]
             | eexists; split; [rewrite <- ?app_assoc; reflexivity | reflexivity] ].
Qed.


(** *** The domain object and the ISO information are obtained once *)

Ltac deferred_side :=
  first [ by split; intros []
        | by intros [] ? [? ?]; split
        | by intros [] [? ?]; split ].

Lemma produce_deferred t0 (s : St) :
  kept t0 (self s) → domain (self s) = None →
  follows (kept t0) (deferred t0) s (_produceDomain storage s).2.
Proof.
  intros [Hd Hi] Hnone.
  assert (domain t0 = None) as Ht0.
  { destruct (domain t0) as [d|] eqn:E; [|done].
    rewrite (Hd d eq_refl) in Hnone. done. }
  destruct (_produceDomain storage s) as [r s'] eqn:H. cbn [snd].
  destruct s as [[dm sd hid iv fc pd st ns iso isop lr rt] k tr0 lg].
  cbn [self domain isIsoDomain] in *. subst dm.
  run_in H.
  all: injection H as <- <-.
  all: split; [split; [by rewrite Ht0 | exact Hi]|].
  all: first [ exists []; split; [by rewrite app_nil_r | constructor]
             | eexists; split; [reflexivity|];
               apply Forall_singleton; split; [done | intros []] ].
Qed.

Lemma setIso_deferred t0 (s : St) :
  kept t0 (self s) → isIsoDomain (self s) = None →
  follows (kept t0) (deferred t0) s (_setIsoDomainInfo storage s).2.
Proof.
  intros [Hd Hi] Hnone.
  assert (isIsoDomain t0 = None) as Ht0.
  { destruct (isIsoDomain t0) as [b|] eqn:E; [|done].
    rewrite (Hi b eq_refl) in Hnone. done. }
  destruct (_setIsoDomainInfo storage s) as [r s'] eqn:H. cbn [snd].
  destruct s as [[dm sd hid iv fc pd st ns iso isop lr rt] k tr0 lg].
  cbn [self domain isIsoDomain] in *. subst iso.
  run_in H.
  all: injection H as <- <-.
  all: split; [split; [exact Hd | by rewrite Ht0]|].
  all: first [ exists []; split; [by rewrite app_nil_r | constructor]
             | eexists; split; [rewrite <- ?app_assoc; reflexivity|];
               repeat (apply Forall_cons; split; [split; [intros [] | done]|]);
               constructor ].
Qed.

Lemma probe_deferred t0 : along (kept t0) (deferred t0) (probe storage).
Proof.
  intros s HI. unfold probe.
  rewrite bind_run. cbn [this].
  apply follows_bind.
  { case_bool_decide as Hd; [by apply produce_deferred|].
    by apply follows_refl. }
  intros _ s1 HI1. rewrite bind_run. cbn [this].
  apply follows_bind.
  { case_bool_decide as Hd; [by apply setIso_deferred|].
    by apply follows_refl. }
  intros _.
  unfold _performDomainSelftest, _checkReadDelay, _collectStatistics.
  solve_along deferred_side.
Qed.

Lemma monitorDomain_deferred t0 :
  along (kept t0) (deferred t0) (_monitorDomain storage).
Proof.
  unfold _monitorDomain.
  apply along_bind.
  { unfold prepare, _shouldRefreshDomain, _refreshDomain.
    solve_along deferred_side. }
  intros _. apply along_bind.
  { unfold collect. apply along_try_except; [apply probe_deferred|].
    intros e. solve_along deferred_side. }
  intros _.
  unfold publish, _statusDidChange, _notifyStatusChanges,
    _shouldAcquireHostId, _acquireHostId.
  solve_along deferred_side.
Qed.

Lemma monitorLoop_deferred t0 (fuel : nat) :
  along (kept t0) (deferred t0) (_monitorLoop storage fuel).
Proof.
  induction fuel as [|fuel IH]; cbn [_monitorLoop].
  - solve_along deferred_side.
  - apply along_bind; [apply along_ask|]. intros [|]; [apply along_ret|].
    apply along_bind.
    { apply along_try_except.
      - apply along_bind; [apply monitorDomain_deferred|].
        intros _. apply along_ret.
      - intros e. solve_along deferred_side. }
    intros [|]; [apply along_ret|].
    apply along_bind; [apply along_this|]. intros t.
    apply along_bind; [apply along_call; deferred_side|].
    intros _. exact IH.
Qed.

Lemma shutdown_deferred t0 : along (kept t0) (deferred t0) (shutdown storage).
Proof.
  unfold shutdown, _shouldReleaseHostId, _releaseHostId.
  solve_along deferred_side.
Qed.

Lemma run_deferred t0 (fuel : nat) :
  along (kept t0) (deferred t0) (_run storage fuel).
Proof.
  intros s HI. unfold _run.
  match goal with |- context [let '(_, _) := ?m s in _] =>
    assert (along (kept t0) (deferred t0) m) as Hm
      by (solve_along deferred_side; apply monitorLoop_deferred);
    specialize (Hm s HI); destruct (m s) as [r s1] end.
  cbn [snd] in Hm.
  assert (follows (kept t0) (deferred t0) s
            (try_finally (lift r) (shutdown storage) s1).2) as Hfin.
  { unfold try_finally, lift.
    pose proof (shutdown_deferred t0 s1 (proj1 Hm)) as Hs.
    destruct (shutdown storage s1) as [[[]|e] s2]; cbn [snd] in *;
      by eapply follows_trans. }
  destruct r as [[[]|]|e]; done.
Qed.


(** *** ISO domains and the host id *)

(** The shape of a run of [_run]: the events of the loop and then what
    [shutdown] adds. *)
Lemma run_trace (fuel : nat) (s : St) :
  let s' := (_run storage fuel s).2 in
  ∃ s1 rel,
    runs_to s s1 ∧ self s' = self s1
    ∧ trace s' = trace s1 ++ rel
    ∧ (rel = [] ∨ rel = release_at_exit (self s1)).
Proof.
  intros s'. subst s'. unfold _run. rewrite !bind_run.
  cbv beta iota zeta delta [this ask log modify mbind M_bind mret M_ret].
  set (s0 := mkState (self s) (kern s) (trace s) _).
  pose proof (monitorLoop_run fuel s0) as Hrun.
  assert (runs_to s s0) as H0 by (by apply runs_to_same).
  destruct (_monitorLoop storage fuel s0) as [r s1]. cbn [snd] in Hrun.
  exists s1.
  assert (∃ rel, self (try_finally (lift r) (shutdown storage) s1).2 = self s1
            ∧ trace (try_finally (lift r) (shutdown storage) s1).2
              = trace s1 ++ rel
            ∧ (rel = [] ∨ rel = release_at_exit (self s1))) as Hfin.
  { unfold try_finally, lift. rewrite shutdown_run. unfold release_at_exit.
    destruct (domain (self s1)) as [d|];
      [destruct (not_isIsoDomain (self s1))|]; cbn [self trace snd];
      eexists; (split; [reflexivity|]); (split; [|by right]);
      by rewrite ?app_nil_r. }
  destruct r as [[[]|]|e];
    [destruct Hfin as (rel & ? & ? & ?); exists rel
    |exists []; cbn [snd]; rewrite app_nil_r
    |destruct Hfin as (rel & ? & ? & ?); exists rel];
    (split; [by eapply runs_to_trans|]); auto.
Qed.


End MonitorFacts.

Section PoolInvariants.
Import DomainMonitor.

Lemma signal_loop_run (monitors : list Thread) (p : Pool) :
  ∃ lg, for_each monitors signal_one p
        = (Ok tt, mkPool (_domains p) (_interval p)
                    (pool_trace p ++ (StopSignal <$> (sdUUID <$> monitors)))
                    lg).
Proof.
  revert p. induction monitors as [|m ms IH]; intros p.
  - exists (pool_logs p). cbn. rewrite app_nil_r. by destruct p.
  - cbn [for_each]. rewrite bind_run, signal_one_run.
    match goal with |- context [for_each ms _ ?p1] =>
      destruct (IH p1) as (lg & ->) end.
    exists lg. cbn [_domains _interval pool_trace fmap list_fmap].
    by rewrite <- app_assoc.
Qed.

Lemma wait_one_undisturbed (m t : Thread) (p : Pool) :
  _domains p !! sdUUID m = Some t →
  ∃ lg, wait_one undisturbed m p
        = (Ok tt, mkPool (delete (sdUUID m) (_domains p)) (_interval p)
                    (pool_trace p ++ [Join (sdUUID m); Del (sdUUID m)]) lg).
Proof.
  intros Hin. unfold wait_one. rewrite !bind_run.
  cbv beta iota delta [pool_log pool_emit modify join set_domains try_except
                       del_domain get undisturbed].
  rewrite !bind_run. cbn [_domains _interval pool_trace pool_logs].
  rewrite Hin. rewrite !bind_run.
  cbn [_domains _interval pool_trace pool_logs].
  eexists. by rewrite <- app_assoc.
Qed.

Lemma wait_loop_undisturbed (monitors : list Thread) (p : Pool) :
  NoDup (sdUUID <$> monitors) →
  (∀ m, m ∈ monitors → is_Some (_domains p !! sdUUID m)) →
  ∃ lg, for_each monitors (wait_one undisturbed) p
        = (Ok tt,
           mkPool (filter (λ kv, kv.1 ∉ sdUUID <$> monitors) (_domains p))
             (_interval p)
             (pool_trace p ++ joins_and_deletes (sdUUID <$> monitors)) lg).
Proof.
  revert p. induction monitors as [|m ms IH]; intros p Hnd Hin.
  - exists (pool_logs p). cbn [for_each fmap list_fmap].
    unfold joins_and_deletes. cbn. rewrite app_nil_r.
    rewrite map_filter_id; [by destruct p|]. intros ? ? _. cbn. set_solver.
  - cbn [fmap list_fmap] in Hnd. apply NoDup_cons in Hnd as [Hm Hnd].
    destruct (Hin m) as [t Ht]; [set_solver|].
    cbn [for_each]. rewrite bind_run.
    destruct (wait_one_undisturbed m t p Ht) as (lg1 & ->).
    match goal with |- context [for_each ms _ ?p1] =>
      destruct (IH p1) as (lg & ->); [done| |] end.
    { intros m' Hm'. cbn [_domains]. rewrite lookup_delete_ne.
      - apply Hin. set_solver.
      - intros E. apply Hm. rewrite E. by apply list_elem_of_fmap_2. }
    exists lg. cbn [_domains _interval pool_trace fmap list_fmap].
    f_equal. f_equal.
    + apply map_eq. intros k. rewrite !map_lookup_filter.
      destruct (decide (k = sdUUID m)) as [->|Hk].
      * rewrite lookup_delete_eq. cbn.
        destruct (_domains p !! sdUUID m); [|done]. cbn.
        rewrite option_guard_False; [done|]. cbn. set_solver.
      * rewrite lookup_delete_ne by done.
        destruct (_domains p !! k); [|done]. cbn.
        destruct (decide (k ∈ sdUUID <$> ms)).
        -- rewrite !option_guard_False; [done| |]; cbn; set_solver.
        -- rewrite !option_guard_True; [done| |]; cbn; set_solver.
    + unfold joins_and_deletes. cbn. by rewrite <- app_assoc.
Qed.

(** In a well-formed pool the monitors selected by [stopMonitoring] are
    those filed under the given domains. *)
Lemma targets_of_wf (m : gmap string Thread) (S : gset string) :
  (∀ k t, m !! k = Some t → sdUUID t = k) →
  let monitors := filter (λ monitor, sdUUID monitor ∈ S) (map_to_list m).*2 in
  sdUUID <$> monitors = filter (λ k, k ∈ S) (map_to_list m).*1
  ∧ NoDup (sdUUID <$> monitors)
  ∧ (∀ t, t ∈ monitors → m !! sdUUID t = Some t).
Proof.
  intros Hwf monitors.
  assert (Forall (λ kv, sdUUID kv.2 = kv.1 ∧ m !! kv.1 = Some kv.2)
            (map_to_list m)) as Hall.
  { apply Forall_forall. intros [k t] Hkt.
    apply elem_of_map_to_list in Hkt. split; [by apply Hwf | done]. }
  assert (sdUUID <$> monitors = filter (λ k, k ∈ S) (map_to_list m).*1) as E.
  { subst monitors. induction Hall as [|[k t] l [Hk _] _ IH]; [done|].
    cbn [fmap list_fmap snd fst] in *.
    rewrite !filter_cons. cbn [fst snd] in *. rewrite Hk.
    destruct (decide (k ∈ S)); cbn [fmap list_fmap]; rewrite ?Hk; by f_equal. }
  split; [done|]. split.
  - rewrite E. apply NoDup_filter, NoDup_fst_map_to_list.
  - intros t Ht. subst monitors. apply list_elem_of_filter in Ht as [_ Ht].
    apply list_elem_of_fmap in Ht as ([k t'] & -> & Hkt).
    rewrite Forall_forall in Hall. destruct (Hall _ Hkt) as [Hk Hl].
    cbn [fst snd] in *. by rewrite Hk.
Qed.

Lemma stopMonitors_undisturbed (monitors : list Thread) (p : Pool) :
  NoDup (sdUUID <$> monitors) →
  (∀ m, m ∈ monitors → is_Some (_domains p !! sdUUID m)) →
  ∃ lg, _stopMonitors undisturbed monitors p
        = (Ok tt,
           mkPool (filter (λ kv, kv.1 ∉ sdUUID <$> monitors) (_domains p))
             (_interval p)
             (pool_trace p ++ (StopSignal <$> (sdUUID <$> monitors))
                ++ joins_and_deletes (sdUUID <$> monitors)) lg).
Proof.
  intros Hnd Hin. rewrite stopMonitors_unfold, bind_run.
  destruct (signal_loop_run monitors p) as (lg1 & ->).
  match goal with |- context [for_each monitors _ ?p1] =>
    destruct (wait_loop_undisturbed monitors p1) as (lg & ->); [done|done|] end.
  exists lg. cbn [_domains _interval pool_trace]. by rewrite <- app_assoc.
Qed.

Lemma stopMonitoring_undisturbed (sdUUIDs : list string) (p : Pool) :
  pool_wf p →
  let targets := filter (λ k, k ∈ (list_to_set sdUUIDs : gset string))
                   (map_to_list (_domains p)).*1 in
  ∃ lg, stopMonitoring undisturbed sdUUIDs p
        = (Ok tt,
           mkPool (filter (λ kv, kv.1 ∉ sdUUIDs) (_domains p)) (_interval p)
             (pool_trace p ++ (StopSignal <$> targets)
                ++ joins_and_deletes targets) lg).
Proof.
  intros Hwf targets.
  cbv beta iota zeta delta [stopMonitoring domains_values get mbind M_bind
                            mret M_ret].
  destruct (targets_of_wf (_domains p) (list_to_set sdUUIDs) Hwf)
    as (E & Hnd & Hin). cbv zeta in E, Hnd, Hin.
  match goal with |- context [_stopMonitors undisturbed ?ms p] =>
    destruct (stopMonitors_undisturbed ms p) as (lg & ->);
      [done | by intros m Hm; rewrite (Hin m Hm) |] end.
  exists lg. rewrite E. fold targets. f_equal. f_equal.
  apply map_eq. intros k. rewrite !map_lookup_filter.
  destruct (_domains p !! k) as [t|] eqn:Hk; [|done]. cbn.
  assert (k ∈ targets ↔ k ∈ sdUUIDs) as Hiff.
  { subst targets. rewrite list_elem_of_filter, elem_of_list_to_set.
    split; [by intros [? _]|]. intros Hs. split; [done|].
    apply list_elem_of_fmap. exists (k, t). split; [done|].
    by apply elem_of_map_to_list. }
  destruct (decide (k ∈ sdUUIDs)).
  - rewrite !option_guard_False; [done| |]; cbn; tauto.
  - rewrite !option_guard_True; [done| |]; cbn; tauto.
Qed.

Lemma pool_wf_filter (P : string * Thread → Prop) `{!∀ kv, Decision (P kv)}
    (p : Pool) i tr lg :
  pool_wf p → pool_wf (mkPool (filter P (_domains p)) i tr lg).
Proof.
  intros Hwf k t. cbn [_domains]. rewrite map_lookup_filter_Some.
  intros [Hk _]. by apply Hwf.
Qed.

Lemma all_of_wf (m : gmap string Thread) :
  (∀ k t, m !! k = Some t → sdUUID t = k) →
  sdUUID <$> (map_to_list m).*2 = (map_to_list m).*1.
Proof.
  intros Hwf.
  assert (Forall (λ kv, sdUUID kv.2 = kv.1) (map_to_list m)) as Hall.
  { apply Forall_forall. intros [k t] Hkt.
    apply elem_of_map_to_list in Hkt. by apply Hwf. }
  induction Hall as [|[k t] l Hk _ IH]; [done|].
  cbn [fmap list_fmap snd fst] in *. by f_equal.
Qed.

Lemma close_undisturbed (p : Pool) :
  pool_wf p → _domains (close undisturbed p).2 = ∅.
Proof.
  intros Hwf.
  cbv beta iota zeta delta [close pool_log modify domains_values get mbind
                            M_bind mret M_ret].
  cbn [_domains].
  pose proof (all_of_wf (_domains p) Hwf) as E.
  match goal with |- context [_stopMonitors undisturbed ?ms ?p1] =>
    destruct (stopMonitors_undisturbed ms p1) as (lg & ->) end.
  - rewrite E. apply NoDup_fst_map_to_list.
  - intros t Ht. cbn [_domains].
    apply list_elem_of_fmap in Ht as ([k t'] & -> & Hkt).
    apply elem_of_map_to_list in Hkt. cbn [snd].
    rewrite (Hwf _ _ Hkt). eauto.
  - cbn [snd _domains]. rewrite E. apply map_eq. intros k.
    rewrite map_lookup_filter, lookup_empty.
    destruct (_domains p !! k) as [t|] eqn:Hk; [|done]. cbn.
    rewrite option_guard_False; [done|]. cbn.
    intros Hn. apply Hn. apply list_elem_of_fmap. exists (k, t).
    split; [done|]. by apply elem_of_map_to_list.
Qed.


Lemma NoDup_only {A} (l : list A) (x : A) :
  NoDup l → (∀ k, k ∈ l ↔ k = x) → l = [x].
Proof.
  intros Hnd H. destruct l as [|a l].
  { exfalso. by apply (elem_of_nil x), H. }
  assert (a = x) as -> by (apply H; left).
  destruct l as [|b l]; [done|].
  assert (b = x) as -> by (apply H; right; left).
  apply NoDup_cons in Hnd as [Hn _]. exfalso. apply Hn. left.
Qed.

(** What [startMonitoring] does to the pool. *)
Lemma startMonitoring_run now refreshTime sd hostId poolDomain (p : Pool) :
  startMonitoring now refreshTime sd hostId poolDomain p
  = (Ok tt,
     match _domains p !! sd with
     | Some t =>
         mkPool (<[sd := with_poolDomain
                           (orb (DomainMonitor.poolDomain t) poolDomain) t]>
                   (_domains p))
           (_interval p) (pool_trace p) (pool_logs p)
     | None =>
         mkPool (<[sd := with_poolDomain poolDomain
                           (DomainMonitorThread sd hostId (_interval p) now
                              refreshTime)]> (_domains p))
           (_interval p) (pool_trace p ++ [ThreadStart sd])
           (pool_logs p ++ [mkLog "info" "Start monitoring %s" [PStr sd]])
     end).
Proof.
  unfold startMonitoring. rewrite bind_run. cbn [get].
  destruct (_domains p !! sd); reflexivity.
Qed.



End PoolInvariants.

(** *** Runs against the scripted storage *)

Section MonitorRuns.
Import DomainMonitor.

Lemma probe_errors_are_recorded_witness :
  let storage := scripted selftest_failing in
  let s0 := (prepare storage fresh_monitor).2 in
  let s' := (_monitorDomain storage fresh_monitor).2 in
  prepare storage fresh_monitor = (Ok tt, s0)
  ∧ (probe storage s0).1 = Raise (IOError 5)
  ∧ (_monitorDomain storage fresh_monitor).1 = Ok tt
  ∧ error (nextStatus (self s')) = Some (IOError 5)
  ∧ valid (nextStatus (self s')) = false.
Proof.
  intros storage s0 s'.
  split; [vm_compute; reflexivity|].
  split; [vm_compute; reflexivity|].
  split; [vm_compute; reflexivity|].
  destruct (probe_errors_are_recorded storage 0 fresh_monitor s0
              (probe storage s0).2 (IOError 5))
    as (H1 & _ & H3 & _);
    [vm_compute; reflexivity | vm_compute; reflexivity | reflexivity |].
  split; [exact H1 | exact H3].
Defined.

(** The same tick in full: the failure of the selftest is
    published as an invalid status, and no host id is requested. *)
Example selftest_failure_run :
  let run := _monitorDomain (scripted selftest_failing) fresh_monitor in
  run.1 = Ok tt
  ∧ trace run.2
    = [Produce "sd-A"; IsISO (Handle 1); Selftest (Handle 1);
       Emit "sd-A" false]
  ∧ valid (status (self run.2)) = false
  ∧ error (status (self run.2)) = Some (IOError 5).
Proof. vm_compute. repeat split. Qed.

(** The claim C5 as it is worded does not hold of a tick that is cut short.
    A fresh monitor completes its first tick and waits; the stop event is
    set while the statistics of the second tick are collected.  At the end
    of the second tick the domain is not an ISO domain, [nextStatus.valid]
    is true and [nextStatus.hasHostId] is False, [_shouldAcquireHostId]
    answers True, and yet the tick has made no request: [_acquireHostId] has
    found the stop event set and raised [Canceled] before asking. *)
Lemma acquire_skipped_when_stopping :
  let storage := scripted stopping_early in
  let s := settled_monitor stopping_early in
  let run := _monitorDomain storage s in
  (_monitorDomain storage fresh_monitor).1 = Ok tt
  ∧ _monitorLoop storage 2 fresh_monitor = _monitorLoop storage 1 s
  ∧ isIsoDomain (self run.2) = Some false
  ∧ valid (nextStatus (self run.2)) = true
  ∧ hasHostId (nextStatus (self run.2)) = PBool false
  ∧ (_shouldAcquireHostId run.2).1 = Ok true
  ∧ run.1 = Raise Canceled
  ∧ trace run.2
    = trace s ++
      [Selftest (Handle 1); GetReadDelay (Handle 1); GetStats (Handle 1);
       ValidateMaster (Handle 1); HasHostId (Handle 1) 7;
       GetVersion (Handle 1)].
Proof. vm_compute. repeat split. Qed.

(** With the stop event set later, the second tick runs to its end and does
    request the host id. *)
Example acquire_requested_run :
  let s := settled_monitor release_failing in
  let run := _monitorDomain (scripted release_failing) s in
  run.1 = Ok tt
  ∧ trace run.2
    = trace s ++
      [Selftest (Handle 1); GetReadDelay (Handle 1); GetStats (Handle 1);
       ValidateMaster (Handle 1); HasHostId (Handle 1) 7;
       GetVersion (Handle 1); AcquireHostId (Handle 1) 7].
Proof. vm_compute. repeat split. Qed.

(** The claim C2 as it is worded does not hold of an ISO domain whose ISO
    information cannot be read.  The domain is an ISO domain and says so,
    but reading its images directory fails on every tick, so that
    [isIsoDomain] is never set; the host id is never requested; and when the
    monitor is stopped the release of the host id is attempted. *)
Lemma release_attempted_for_unreadable_iso_domain :
  let storage := iso_images_unreadable stopping_late in
  let run := _run storage 5 fresh_monitor in
  (∀ d k, (dom_isISO storage d k).1 = inl true)
  ∧ run.1 = Ok (Some tt)
  ∧ domain (self run.2) = Some (Handle 1)
  ∧ isIsoDomain (self run.2) = None
  ∧ trace run.2
    = [Produce "sd-A"; IsISO (Handle 1); GetIsoDomainImagesDir (Handle 1);
       Emit "sd-A" false; Wait 10;
       IsISO (Handle 1); GetIsoDomainImagesDir (Handle 1); Wait 10;
       IsISO (Handle 1); GetIsoDomainImagesDir (Handle 1); Wait 10;
       ReleaseHostId (Handle 1) 7].
Proof. vm_compute. repeat split. Qed.

Lemma host_id_released_at_shutdown_witness :
  let run := _run (scripted release_failing) 5 fresh_monitor in
  run.1 = Ok (Some tt)
  ∧ ∃ tr0, trace run.2 = tr0 ++ [ReleaseHostId (Handle 1) 7]
      ∧ (∀ ev, ev ∈ tr0 → ¬ is_release ev).
Proof.
  intros run.
  assert (release_at_exit (self run.2) = [ReleaseHostId (Handle 1) 7])
    as Hrel by (vm_compute; reflexivity).
  destruct (host_id_released_at_shutdown (scripted release_failing) 5
              fresh_monitor)
    as [(tr & Htr & [(Hr & tr0 & Htr0 & Hno & _)|(Hr & _)]) _].
  - split; [exact Hr|]. exists tr0. split; [|exact Hno].
    fold run in Htr, Htr0. rewrite Htr, Htr0, Hrel. reflexivity.
  - vm_compute in Hr. discriminate Hr.
Defined.

(** The same run in full: two ticks request the host id,
    the third is canceled by the stop event, and the one release, which
    fails, is logged. *)
Example monitor_run_with_failing_release :
  let run := _run (scripted release_failing) 5 fresh_monitor in
  run.1 = Ok (Some tt)
  ∧ trace run.2
    = [Produce "sd-A"; IsISO (Handle 1); Selftest (Handle 1);
       GetReadDelay (Handle 1); GetStats (Handle 1);
       ValidateMaster (Handle 1); HasHostId (Handle 1) 7;
       GetVersion (Handle 1); Emit "sd-A" true;
       AcquireHostId (Handle 1) 7; Wait 10;
       Selftest (Handle 1); GetReadDelay (Handle 1);
       GetStats (Handle 1); ValidateMaster (Handle 1);
       HasHostId (Handle 1) 7; GetVersion (Handle 1);
       AcquireHostId (Handle 1) 7; Wait 10;
       Selftest (Handle 1); ReleaseHostId (Handle 1) 7]
  ∧ last (logs run.2)
    = Some (mkLog "debug" "Unable to release the host id %s for domain %s"
              [PInt 7; PStr "sd-A"]).
Proof. vm_compute. repeat split. Qed.

(** Closing the sample pool while another caller removes sd-A: both
    monitors are signaled before either is joined, the missing entry is
    only warned about, and the entry of sd-B is deleted. *)
Example close_with_concurrent_removal :
  let run := close removes_sd_A sample_pool in
  run.1 = Ok tt
  ∧ pool_trace run.2
    = [StopSignal "sd-A"; StopSignal "sd-B"; Join "sd-A"; Warn "sd-A";
       Join "sd-B"; Del "sd-B"]
  ∧ _domains run.2 = ∅
  ∧ pool_logs run.2
    = [mkLog "info" "Stopping all domain monitors" [];
       mkLog "info" "Stop monitoring %s" [PStr "sd-A"];
       mkLog "info" "Stop monitoring %s" [PStr "sd-B"];
       mkLog "debug" "Waiting for monitor %s" [PStr "sd-A"];
       mkLog "warning" "Montior for %s removed while stopping" [PStr "sd-A"];
       mkLog "debug" "Waiting for monitor %s" [PStr "sd-B"]].
Proof. vm_compute. repeat split. Qed.

(** *** The sample pool *)

Lemma sample_pool_wf : pool_wf sample_pool.
Proof.
  intros k t. unfold sample_pool. cbn [_domains].
  intros [[<- <-]|[_ [<- <-]%lookup_singleton_Some]]%lookup_insert_Some;
    reflexivity.
Qed.


(** Stopping the monitor of sd-A in the sample pool. *)
Example stop_monitoring_one_domain :
  let run := stopMonitoring undisturbed ["sd-A"] sample_pool in
  run.1 = Ok tt
  ∧ pool_trace run.2 = [StopSignal "sd-A"; Join "sd-A"; Del "sd-A"]
  ∧ _domains run.2 = {[ "sd-B" := DomainMonitorThread "sd-B" 7 10 0 300 ]}.
Proof. vm_compute. repeat split. Qed.



End MonitorRuns.
